(** * Workout tracker API: schedule resolution, week view and workout logs

    A shallow embedding of [apps/api/src/routes/workouts.ts] (and of the
    second workouts router found in [apps/api/src/routes/auth.ts]) together
    with the parts of the JavaScript runtime, of zod and of the Prisma client
    that the route handlers rely on.

    Conventions of the model:
    - a JavaScript number is an integer ([Z]) or [NaN]; non-integral numbers
      are outside the model;
    - a [Date] is its time value in milliseconds since the epoch, or [None]
      for an Invalid Date;
    - the server's time zone is an explicit parameter ([TimeZone]): the
      handlers mix local-time accessors ([getDay], [setDate], [setHours])
      with UTC ones ([setUTCHours], [toISOString]);
    - a database table is the list of its rows in rowid order, and a query
      without [orderBy] scans the table in that order. *)

From Stdlib Require Import ZArith List String Ascii Bool Lia.
From Stdlib Require Import Permutation Sorted.
Import ListNotations.

Set Warnings "-register-all".

Local Open Scope string_scope.
Local Open Scope list_scope.
Local Open Scope Z_scope.

(* ================================================================== *)
(** ** JavaScript numbers and strings *)
(* ================================================================== *)

Module JS.

(** A JavaScript number, restricted to the integers and [NaN]. *)
Inductive number : Type :=
| NaN
| Num (z : Z).

Definition comma : ascii := ","%char.

(** *** Number.prototype.toString (radix 10)

    For an integer below 10^21 in absolute value the digits are written
    in full, as here; from 10^21 on JavaScript writes an exponent form,
    which is outside this model. *)

Definition digit_char (d : Z) : ascii := ascii_of_nat (48 + Z.to_nat d).

(** Decimal digits of a non-negative integer, most significant first,
    pushed in front of [acc]. *)
Fixpoint digits_fuel (fuel : nat) (n : Z) (acc : string) : string :=
  match fuel with
  | O => acc
  | S fuel' =>
      let acc' := String (digit_char (n mod 10)) acc in
      if n <? 10 then acc' else digits_fuel fuel' (n / 10) acc'
  end.

Definition decimal (n : Z) : string :=
  digits_fuel (S (Z.to_nat (Z.log2 n))) n EmptyString.

Definition Number_toString (x : number) : string :=
  match x with
  | NaN => "NaN"
  | Num z => if z <? 0 then String "-" (decimal (- z)) else decimal z
  end.

(** *** parseInt(string) with the radix left undefined *)

Definition is_white_space (c : ascii) : bool :=
  match nat_of_ascii c with
  | 9%nat | 10%nat | 11%nat | 12%nat | 13%nat | 32%nat => true
  | _ => false
  end.

Fixpoint trim_start (s : string) : string :=
  match s with
  | String c s' => if is_white_space c then trim_start s' else s
  | EmptyString => EmptyString
  end.

(** Value of [c] as a digit of radix [R] (10 or 16), if it is one. *)
Definition digit_value (R : Z) (c : ascii) : option Z :=
  let n := Z.of_nat (nat_of_ascii c) in
  let v := if (48 <=? n) && (n <=? 57) then Some (n - 48)
           else if (97 <=? n) && (n <=? 102) then Some (n - 87)
           else if (65 <=? n) && (n <=? 70) then Some (n - 55)
           else None in
  match v with
  | Some d => if d <? R then Some d else None
  | None => None
  end.

(** Reads the longest prefix of radix-[R] digits, accumulating its value. *)
Fixpoint parse_digits (R : Z) (acc : Z) (s : string) : Z :=
  match s with
  | String c s' =>
      match digit_value R c with
      | Some d => parse_digits R (acc * R + d) s'
      | None => acc
      end
  | EmptyString => acc
  end.

Definition starts_with_digit (R : Z) (s : string) : bool :=
  match s with
  | String c _ => match digit_value R c with Some _ => true | None => false end
  | EmptyString => false
  end.

Definition strip_sign (s : string) : Z * string :=
  match s with
  | String "-" s' => (-1, s')
  | String "+" s' => (1, s')
  | _ => (1, s)
  end.

Definition strip_hex_prefix (s : string) : Z * string :=
  match s with
  | String "0" (String "x" s') => (16, s')
  | String "0" (String "X" s') => (16, s')
  | _ => (10, s)
  end.

Definition parseInt (input : string) : number :=
  let '(sign, S1) := strip_sign (trim_start input) in
  let '(R, S2) := strip_hex_prefix S1 in
  if starts_with_digit R S2 then Num (sign * parse_digits R 0 S2) else NaN.

(** *** String.prototype.split with a one-character separator *)

Fixpoint split (sep : ascii) (s : string) : list string :=
  match s with
  | EmptyString => [EmptyString]
  | String c s' =>
      if Ascii.eqb c sep then EmptyString :: split sep s'
      else match split sep s' with
           | piece :: pieces => String c piece :: pieces
           | [] => [String c EmptyString]
           end
  end.

(** *** Array.prototype.join(',') on an array of numbers *)

Definition join (xs : list Z) : string :=
  String.concat (String comma EmptyString)
                (map (fun z => Number_toString (Num z)) xs).

(** *** Substring test (String.prototype.includes; SQL [LIKE '%pat%']) *)

Fixpoint includes (pat s : string) : bool :=
  String.prefix pat s ||
  match s with
  | String _ s' => includes pat s'
  | EmptyString => false
  end.

(** Helper predicates used to state facts about the functions above. *)

Fixpoint has_char (c : ascii) (s : string) : bool :=
  match s with
  | String c' s' => Ascii.eqb c' c || has_char c s'
  | EmptyString => false
  end.

Fixpoint all_digits (s : string) : bool :=
  match s with
  | String c s' =>
      match digit_value 10 c with Some _ => all_digits s' | None => false end
  | EmptyString => true
  end.

End JS.

(* ================================================================== *)
(** ** JavaScript dates *)
(* ================================================================== *)

Module JSDate.

Definition msPerSecond : Z := 1000.
Definition msPerMinute : Z := 60000.
Definition msPerHour : Z := 3600000.
Definition msPerDay : Z := 86400000.

(** Day number and time within the day of a time value. *)
Definition Day (t : Z) : Z := t / msPerDay.
Definition TimeWithinDay (t : Z) : Z := t mod msPerDay.

(** 0 = Sunday .. 6 = Saturday; 1 January 1970 was a Thursday. *)
Definition WeekDay (t : Z) : Z := (Day t + 4) mod 7.

(** *** The proleptic Gregorian calendar *)

(** Day number of the civil date [y]-[m]-[d], with [m] in 1..12. *)
Definition days_from_civil (y m d : Z) : Z :=
  let y' := if m <=? 2 then y - 1 else y in
  let era := y' / 400 in
  let yoe := y' - era * 400 in
  let mp := (m + 9) mod 12 in
  let doy := (153 * mp + 2) / 5 + d - 1 in
  let doe := yoe * 365 + yoe / 4 - yoe / 100 + doy in
  era * 146097 + doe - 719468.

(** Civil year and month (1..12) of a day number. *)
Definition civil_year_month (day : Z) : Z * Z :=
  let z := day + 719468 in
  let era := z / 146097 in
  let doe := z - era * 146097 in
  let yoe := (doe - doe / 1460 + doe / 36524 - doe / 146096) / 365 in
  let doy := doe - (365 * yoe + yoe / 4 - yoe / 100) in
  let mp := (5 * doy + 2) / 153 in
  let m := if mp <? 10 then mp + 3 else mp - 9 in
  let y := yoe + era * 400 in
  (if m <=? 2 then y + 1 else y, m).

Definition YearFromTime (t : Z) : Z := fst (civil_year_month (Day t)).
(** Months are numbered 0..11, as in ECMAScript. *)
Definition MonthFromTime (t : Z) : Z := snd (civil_year_month (Day t)) - 1.

(** MakeDay(year, month, date): the day number of the first of the month,
    plus [date - 1]; a [month] outside 0..11 carries into the year. *)
Definition MakeDay (year month date : Z) : Z :=
  days_from_civil (year + month / 12) (month mod 12 + 1) 1 + date - 1.

Definition MakeTime (hour min sec ms : Z) : Z :=
  hour * msPerHour + min * msPerMinute + sec * msPerSecond + ms.

Definition MakeDate (day time : Z) : Z := day * msPerDay + time.

(** Day of the month, 1..31. *)
Definition DateFromTime (t : Z) : Z :=
  Day t - MakeDay (YearFromTime t) (MonthFromTime t) 1 + 1.

(** *** Local time *)

(** The offset of local time from UTC, in milliseconds: [LocalTZA_utc t]
    is the offset in force at the instant [t], [LocalTZA_local tl] the one
    used to interpret the local time value [tl]. *)
Record TimeZone : Type := {
  LocalTZA_utc : Z -> Z;
  LocalTZA_local : Z -> Z
}.

Definition LocalTime (tz : TimeZone) (t : Z) : Z := t + LocalTZA_utc tz t.
Definition UTC (tz : TimeZone) (tl : Z) : Z := tl - LocalTZA_local tz tl.

(** A zone whose offset never changes. *)
Definition fixed_zone (offset : Z) : TimeZone :=
  {| LocalTZA_utc := fun _ => offset; LocalTZA_local := fun _ => offset |}.

Definition Etc_UTC : TimeZone := fixed_zone 0.
Definition America_Sao_Paulo : TimeZone := fixed_zone (-3 * msPerHour).

(** Central European time during 2024: UTC+1, and UTC+2 from
    2024-03-31T01:00Z until 2024-10-27T01:00Z.  A local time skipped or
    repeated by a transition is read with the offset before it. *)
Definition dst_start_2024 : Z := MakeDate (MakeDay 2024 2 31) (MakeTime 1 0 0 0).
Definition dst_end_2024 : Z := MakeDate (MakeDay 2024 9 27) (MakeTime 1 0 0 0).
Definition Europe_Berlin_2024 : TimeZone :=
  {| LocalTZA_utc := fun t =>
       if (dst_start_2024 <=? t) && (t <? dst_end_2024)
       then 2 * msPerHour else msPerHour;
     LocalTZA_local := fun tl =>
       if (dst_start_2024 + 2 * msPerHour <=? tl)
          && (tl <? dst_end_2024 + 2 * msPerHour)
       then 2 * msPerHour else msPerHour |}.

(** *** Date objects *)

(** The time value of a Date; [None] is an Invalid Date. *)
Definition Date : Type := option Z.

Definition getDay (tz : TimeZone) (d : Date) : JS.number :=
  match d with
  | Some t => JS.Num (WeekDay (LocalTime tz t))
  | None => JS.NaN
  end.

Definition getDate (tz : TimeZone) (t : Z) : Z := DateFromTime (LocalTime tz t).

(** [d.setDate(date)] on a valid date: the local day of the month is
    replaced, the local time of day is kept. *)
Definition setDate (tz : TimeZone) (t : Z) (date : Z) : Z :=
  let tl := LocalTime tz t in
  UTC tz (MakeDate (MakeDay (YearFromTime tl) (MonthFromTime tl) date)
                   (TimeWithinDay tl)).

(** [d.setHours(h, m, s, ms)]: same local day, new local time of day. *)
Definition setHours (tz : TimeZone) (t : Z) (h m s ms : Z) : Z :=
  UTC tz (MakeDate (Day (LocalTime tz t)) (MakeTime h m s ms)).

(** [d.setUTCHours(h, m, s, ms)]. *)
Definition setUTCHours (t : Z) (h m s ms : Z) : Z :=
  MakeDate (Day t) (MakeTime h m s ms).

(** *** Rendering and reading the [YYYY-MM-DD] form *)

Definition pad (width : nat) (n : Z) : string :=
  let s := JS.decimal n in
  let fix zeros (k : nat) : string :=
    match k with O => s | S k' => String "0" (zeros k') end in
  zeros (width - String.length s)%nat.

(** The year of an ISO string: four digits from 0 to 9999, and otherwise
    the expanded form, a sign and six digits. *)
Definition year_string (y : Z) : string :=
  if (0 <=? y) && (y <=? 9999) then pad 4 y
  else if y <? 0 then String "-" (pad 6 (- y))
  else String "+" (pad 6 y).

(** [d.toISOString().split('T')[0]], for a time value that is in range
    (the years -271821 to 275760); out of range the call throws. *)
Definition toISODate (t : Z) : string :=
  (year_string (YearFromTime t) ++ "-" ++ pad 2 (MonthFromTime t + 1) ++ "-"
     ++ pad 2 (DateFromTime t))%string.

Definition is_digit (c : ascii) : bool :=
  let n := nat_of_ascii c in (48 <=? n)%nat && (n <=? 57)%nat.

(** The regular expression [/^\d{4}-\d{2}-\d{2}$/]. *)
Definition dateRegex_test (s : string) : bool :=
  match s with
  | String y1 (String y2 (String y3 (String y4 (String "-"
      (String m1 (String m2 (String "-" (String d1 (String d2 EmptyString)))))))))
    => is_digit y1 && is_digit y2 && is_digit y3 && is_digit y4
       && is_digit m1 && is_digit m2 && is_digit d1 && is_digit d2
  | _ => false
  end.

(** [Date.parse] restricted to the date-only ISO form, as V8 reads it: a
    string of that form with a month from 01 to 12 and a day from 01 to 31
    denotes midnight UTC of that day, a day beyond the end of the month
    being carried into the next month; anything else is an Invalid Date
    here.  An engine accepts more forms; the handlers below take the
    engine's parser as a parameter, and this one instantiates it in the
    examples. *)
Definition Date_parse_iso (s : string) : Date :=
  if dateRegex_test s then
    let y := JS.parse_digits 10 0 (substring 0 4 s) in
    let m := JS.parse_digits 10 0 (substring 5 2 s) in
    let d := JS.parse_digits 10 0 (substring 8 2 s) in
    if (1 <=? m) && (m <=? 12) && (1 <=? d) && (d <=? 31)
    then Some (MakeDate (MakeDay y (m - 1) d) 0)
    else None
  else None.

End JSDate.

(* ================================================================== *)
(** ** JSON request bodies *)
(* ================================================================== *)

Module Json.

(** A value of a JSON body.  Its numbers are the integers; a number with a
    fraction, which JSON allows, is outside the model. *)
Inductive jsval : Type :=
| JUndefined
| JNull
| JBool (b : bool)
| JNum (z : Z)
| JStr (s : string)
| JArr (items : list jsval)
| JObj (fields : list (string * jsval)).

(** Property read on the fields of an object: the last binding of the key
    (as [JSON.parse] keeps it), [undefined] when there is none. *)
Definition get (k : string) (fields : list (string * jsval)) : jsval :=
  fold_left (fun found kv => if String.eqb (fst kv) k then snd kv else found)
            fields JUndefined.

(** [v.k] for [v] not [undefined] or [null]; a primitive has none of the
    properties read by the handlers. *)
Definition prop (k : string) (v : jsval) : jsval :=
  match v with
  | JObj fields => get k fields
  | _ => JUndefined
  end.

(** Destructuring [const { ... } = v] throws on [undefined] and [null]. *)
Definition destructurable (v : jsval) : bool :=
  match v with
  | JUndefined | JNull => false
  | _ => true
  end.

(** ToBoolean. *)
Definition truthy (v : jsval) : bool :=
  match v with
  | JUndefined | JNull => false
  | JBool b => b
  | JNum z => negb (z =? 0)
  | JStr s => negb (String.eqb s EmptyString)
  | JArr _ | JObj _ => true
  end.

(** ToString. *)
Fixpoint ToString (v : jsval) : string :=
  match v with
  | JUndefined => "undefined"
  | JNull => "null"
  | JBool true => "true"
  | JBool false => "false"
  | JNum z => JS.Number_toString (JS.Num z)
  | JStr s => s
  | JArr items =>
      String.concat (String JS.comma EmptyString)
        (map (fun x => match x with
                       | JUndefined | JNull => EmptyString
                       | _ => ToString x
                       end) items)
  | JObj _ => "[object Object]"
  end.

(** [parseInt(v)]: the argument is first converted to a string. *)
Definition parseInt (v : jsval) : JS.number := JS.parseInt (ToString v).

(** [new Date(v)], given the engine's [Date.parse]. *)
Definition new_Date (Date_parse : string -> JSDate.Date) (v : jsval) : JSDate.Date :=
  match v with
  | JUndefined => None
  | JNull => Some 0
  | JBool true => Some 1
  | JBool false => Some 0
  | JNum z => if Z.abs z <=? 8640000000000000 then Some z else None
  | JStr s => Date_parse s
  | JArr _ | JObj _ => Date_parse (ToString v)
  end.

End Json.

(* ================================================================== *)
(** ** zod schemas *)
(* ================================================================== *)

Module Zod.
Import Json.

Inductive schema : Type :=
| z_string
| z_number
| z_enum (values : list string)
| z_array (element : schema)
| z_object (shape : list (string * schema))
| z_optional (inner : schema).

Inductive PathKey : Type :=
| Key (k : string)
| Index (i : Z).

(** One entry of [ZodError.errors]: what went wrong and where. *)
Record ZodIssue : Type := { code : string; path : list PathKey }.

Definition invalid_type : ZodIssue := {| code := "invalid_type"; path := [] |}.
Definition invalid_enum_value : ZodIssue :=
  {| code := "invalid_enum_value"; path := [] |}.

Definition under (k : PathKey) (issues : list ZodIssue) : list ZodIssue :=
  map (fun i => {| code := code i; path := k :: path i |}) issues.

Fixpoint check_items (check : jsval -> list ZodIssue) (i : Z) (items : list jsval)
  : list ZodIssue :=
  match items with
  | [] => []
  | x :: rest => under (Index i) (check x) ++ check_items check (i + 1) rest
  end.

(** The issues zod reports for [v] against a schema, in its order. *)
Fixpoint check (s : schema) (v : jsval) : list ZodIssue :=
  match s with
  | z_string => match v with JStr _ => [] | _ => [invalid_type] end
  | z_number => match v with JNum _ => [] | _ => [invalid_type] end
  | z_enum values =>
      match v with
      | JStr x => if existsb (String.eqb x) values then [] else [invalid_enum_value]
      | _ => [invalid_type]
      end
  | z_array element =>
      match v with
      | JArr items => check_items (check element) 0 items
      | _ => [invalid_type]
      end
  | z_object shape =>
      match v with
      | JObj fields =>
          flat_map (fun entry => let '(k, sk) := entry in
                                 under (Key k) (check sk (get k fields))) shape
      | _ => [invalid_type]
      end
  | z_optional inner =>
      match v with
      | JUndefined => []
      | _ => check inner v
      end
  end.

(** [schema.parse(v)]: the value, or the ZodError thrown. *)
Definition parse (s : schema) (v : jsval) : list ZodIssue + jsval :=
  match check s v with
  | [] => inr v
  | issues => inl issues
  end.

(** Readers for a value that passed its schema. *)
Definition as_string (v : jsval) : string :=
  match v with JStr s => s | _ => EmptyString end.
Definition as_number (v : jsval) : Z :=
  match v with JNum z => z | _ => 0 end.
Definition as_array (v : jsval) : list jsval :=
  match v with JArr items => items | _ => [] end.
Definition as_optional_string (v : jsval) : option string :=
  match v with JStr s => Some s | _ => None end.

End Zod.

(* ================================================================== *)
(** ** The database (prisma/schema.prisma) *)
(* ================================================================== *)

Module Exercise.
Record t : Type := {
  id : Z;
  name : string;
  sets : Z;
  reps : Z;
  weight : Z;
  progress : Z;
  notes : option string;
  workoutId : Z
}.
End Exercise.

Module Workout.
Record t : Type := {
  id : Z;
  name : string;
  category : string;
  userId : Z;
  scheduleType : string;
  scheduleDays : string;
  frequency : Z;
  createdAt : Z
}.
End Workout.

Module WorkoutLog.
Record t : Type := {
  id : Z;
  userId : Z;
  workoutId : Z;
  date : Z;
  exercises : Json.jsval
}.
End WorkoutLog.

Module Prisma.

(** The three tables, each in rowid order, and the AUTOINCREMENT counters. *)
Record DB : Type := {
  workouts : list Workout.t;
  exercises : list Exercise.t;
  workoutLogs : list WorkoutLog.t;
  seq_workout : Z;
  seq_exercise : Z;
  seq_workoutLog : Z
}.

Inductive Exception : Type :=
| ValidationError        (* an argument the client refuses *)
| RecordNotFound         (* delete of a row that does not exist *)
| ForeignKeyViolation    (* [ON DELETE RESTRICT] or a dangling reference *)
| TypeError.             (* a JavaScript exception raised by the handler *)

(** A query or a handler body: it reads and writes the database and
    either returns or throws.  Writes made before a throw stay. *)
Definition M (A : Type) : Type := DB -> (Exception + A) * DB.

Definition ret {A : Type} (a : A) : M A := fun db => (inr a, db).
Definition throw {A : Type} (e : Exception) : M A := fun db => (inl e, db).
Definition bind {A B : Type} (m : M A) (k : A -> M B) : M B :=
  fun db =>
    match m db with
    | (inr a, db') => k a db'
    | (inl e, db') => (inl e, db')
    end.

Declare Scope prisma_scope.
Delimit Scope prisma_scope with prisma.
Notation "x <- m ;; k" := (bind m (fun x => k))
  (at level 100, m at next level, right associativity) : prisma_scope.
Notation "m ;;; k" := (bind m (fun _ => k))
  (at level 100, right associativity) : prisma_scope.
Local Open Scope prisma_scope.

(** An [Int] argument must be an integer.  The client also refuses an
    integer that does not fit the column; the statements below that depend
    on it ask for [Range.fits_Int]. *)
Definition int_arg (n : JS.number) : M Z :=
  match n with
  | JS.Num z => ret z
  | JS.NaN => throw ValidationError
  end.

(** A [DateTime] argument must be a valid Date. *)
Definition date_arg (d : JSDate.Date) : M Z :=
  match d with
  | Some t => ret t
  | None => throw ValidationError
  end.

(** [include: { exercises: true }]. *)
Definition exercises_of (db : DB) (w : Workout.t) : list Exercise.t :=
  filter (fun e => Exercise.workoutId e =? Workout.id w) (exercises db).

Definition WorkoutWithExercises : Type := (Workout.t * list Exercise.t)%type.

(** [prisma.workout.findMany({ where: { userId }, include: { exercises } })]. *)
Definition workout_findMany (userId : Z) : M (list WorkoutWithExercises) :=
  fun db =>
    (inr (map (fun w => (w, exercises_of db w))
              (filter (fun w => Workout.userId w =? userId) (workouts db))), db).

(** [prisma.workout.findFirst({ where, include: { exercises } })], with no
    [orderBy]: the first row of the table that satisfies [where]. *)
Definition workout_findFirst (where_ : Workout.t -> bool)
  : M (option WorkoutWithExercises) :=
  fun db =>
    (inr (match find where_ (workouts db) with
          | Some w => Some (w, exercises_of db w)
          | None => None
          end), db).

(** The data of one nested [exercises: { create: [...] }] entry. *)
Record ExerciseInput : Type := {
  in_name : string;
  in_sets : Z;
  in_reps : Z;
  in_weight : Z;
  in_notes : option string
}.

Fixpoint new_exercises (workoutId next : Z) (inputs : list ExerciseInput)
  : list Exercise.t :=
  match inputs with
  | [] => []
  | i :: rest =>
      {| Exercise.id := next; Exercise.name := in_name i;
         Exercise.sets := in_sets i; Exercise.reps := in_reps i;
         Exercise.weight := in_weight i; Exercise.progress := 0;
         Exercise.notes := in_notes i; Exercise.workoutId := workoutId |}
      :: new_exercises workoutId (next + 1) rest
  end.

(** [prisma.workout.create({ data, include: { exercises: true } })] with
    nested exercise creation; [now] fills [createdAt].  The row is stored
    for any integers; the client refuses a frequency, sets or reps that
    does not fit its Int column, and the statements on creation ask for
    numbers that fit, see [Range]. *)
Definition workout_create (now : Z) (name category : string) (userId : Z)
    (scheduleType scheduleDays : string) (frequency : Z)
    (inputs : list ExerciseInput) : M WorkoutWithExercises :=
  fun db =>
    let w := {| Workout.id := seq_workout db + 1; Workout.name := name;
                Workout.category := category; Workout.userId := userId;
                Workout.scheduleType := scheduleType;
                Workout.scheduleDays := scheduleDays;
                Workout.frequency := frequency; Workout.createdAt := now |} in
    let es := new_exercises (Workout.id w) (seq_exercise db + 1) inputs in
    (inr (w, es),
     {| workouts := workouts db ++ [w];
        exercises := exercises db ++ es;
        workoutLogs := workoutLogs db;
        seq_workout := seq_workout db + 1;
        seq_exercise := seq_exercise db + Z.of_nat (List.length inputs);
        seq_workoutLog := seq_workoutLog db |}).

Definition workout_exists (db : DB) (id : Z) : bool :=
  existsb (fun w => Workout.id w =? id) (workouts db).

(** The database with one more row in the log table. *)
Definition with_workoutLog (db : DB) (l : WorkoutLog.t) : DB :=
  {| workouts := workouts db;
     exercises := exercises db;
     workoutLogs := workoutLogs db ++ [l];
     seq_workout := seq_workout db;
     seq_exercise := seq_exercise db;
     seq_workoutLog := seq_workoutLog db + 1 |}.

(** [prisma.workoutLog.create({ data })].  The [Json] column refuses
    [undefined] and [null]; the referenced workout must exist. *)
Definition workoutLog_create (userId : Z) (workoutId : JS.number)
    (date : JSDate.Date) (exercises_ : Json.jsval) : M WorkoutLog.t :=
  wid <- int_arg workoutId ;;
  t <- date_arg date ;;
  match exercises_ with
  | Json.JUndefined | Json.JNull => throw ValidationError
  | _ =>
      fun db =>
        if workout_exists db wid then
          let l := {| WorkoutLog.id := seq_workoutLog db + 1;
                      WorkoutLog.userId := userId;
                      WorkoutLog.workoutId := wid;
                      WorkoutLog.date := t;
                      WorkoutLog.exercises := exercises_ |} in
          (inr l, with_workoutLog db l)
        else (inl ForeignKeyViolation, db)
  end.

(** [orderBy: { date: 'desc' }]. *)
Fixpoint insert_desc (l : WorkoutLog.t) (sorted : list WorkoutLog.t)
  : list WorkoutLog.t :=
  match sorted with
  | [] => [l]
  | x :: rest =>
      if WorkoutLog.date x <? WorkoutLog.date l then l :: sorted
      else x :: insert_desc l rest
  end.

Definition orderBy_date_desc (ls : list WorkoutLog.t) : list WorkoutLog.t :=
  fold_right insert_desc [] ls.

(** [prisma.workoutLog.findMany({ where: { userId, date: { gte, lte } } })]. *)
Definition workoutLog_findMany_between (userId : Z) (gte lte : JSDate.Date)
  : M (list WorkoutLog.t) :=
  lo <- date_arg gte ;;
  hi <- date_arg lte ;;
  fun db =>
    (inr (filter (fun l => (WorkoutLog.userId l =? userId)
                           && (lo <=? WorkoutLog.date l)
                           && (WorkoutLog.date l <=? hi))
                 (workoutLogs db)), db).

(** [prisma.workoutLog.findMany({ where: { workoutId, userId } })]. *)
Definition workoutLog_findMany_of (workoutId : JS.number) (userId : Z)
  : M (list WorkoutLog.t) :=
  wid <- int_arg workoutId ;;
  fun db =>
    (inr (filter (fun l => (WorkoutLog.workoutId l =? wid)
                           && (WorkoutLog.userId l =? userId))
                 (workoutLogs db)), db).

(** [include: { workout: { select: { name, category } } }]. *)
Definition workout_projection (db : DB) (l : WorkoutLog.t)
  : option (string * string) :=
  match find (fun w => Workout.id w =? WorkoutLog.workoutId l) (workouts db) with
  | Some w => Some (Workout.name w, Workout.category w)
  | None => None
  end.

(** [prisma.exercise.deleteMany({ where: { workoutId } })]. *)
Definition exercise_deleteMany (workoutId : JS.number) : M unit :=
  wid <- int_arg workoutId ;;
  fun db =>
    (inr tt,
     {| workouts := workouts db;
        exercises := filter (fun e => negb (Exercise.workoutId e =? wid))
                            (exercises db);
        workoutLogs := workoutLogs db;
        seq_workout := seq_workout db;
        seq_exercise := seq_exercise db;
        seq_workoutLog := seq_workoutLog db |}).

(** [prisma.workoutLog.deleteMany({ where: { workoutId } })]. *)
Definition workoutLog_deleteMany (workoutId : JS.number) : M unit :=
  wid <- int_arg workoutId ;;
  fun db =>
    (inr tt,
     {| workouts := workouts db;
        exercises := exercises db;
        workoutLogs := filter (fun l => negb (WorkoutLog.workoutId l =? wid))
                              (workoutLogs db);
        seq_workout := seq_workout db;
        seq_exercise := seq_exercise db;
        seq_workoutLog := seq_workoutLog db |}).

(** Rows that still reference workout [wid]; both foreign keys are
    declared [ON DELETE RESTRICT] in the migration. *)
Definition referenced (db : DB) (wid : Z) : bool :=
  existsb (fun e => Exercise.workoutId e =? wid) (exercises db)
  || existsb (fun l => WorkoutLog.workoutId l =? wid) (workoutLogs db).

(** [prisma.workout.delete({ where: { id } })]. *)
Definition workout_delete (id : JS.number) : M unit :=
  wid <- int_arg id ;;
  fun db =>
    if negb (workout_exists db wid) then (inl RecordNotFound, db)
    else if referenced db wid then (inl ForeignKeyViolation, db)
    else
      (inr tt,
       {| workouts := filter (fun w => negb (Workout.id w =? wid)) (workouts db);
          exercises := exercises db;
          workoutLogs := workoutLogs db;
          seq_workout := seq_workout db;
          seq_exercise := seq_exercise db;
          seq_workoutLog := seq_workoutLog db |}).

(** The workout table is in ascending id order and no id exceeds the
    counter: the state in which inserts and deletes leave the table. *)
Definition ids_ascending (db : DB) : Prop :=
  StronglySorted (fun a b => Workout.id a < Workout.id b) (workouts db)
  /\ Forall (fun w => Workout.id w <= seq_workout db) (workouts db).

(** [prisma.$transaction([q1, q2, ...])]: the queries run in order; if one
    throws, the database is left as it was before the first. *)
Fixpoint sequence_ (queries : list (M unit)) : M unit :=
  match queries with
  | [] => ret tt
  | q :: rest => q ;;; sequence_ rest
  end.

Definition transaction (queries : list (M unit)) : M unit :=
  fun db =>
    match sequence_ queries db with
    | (inr tt, db') => (inr tt, db')
    | (inl e, _) => (inl e, db)
    end.

End Prisma.

(* ================================================================== *)
(** ** The workouts router (src/routes/workouts.ts) *)
(* ================================================================== *)

(** What a handler sends back. *)
Inductive Response (A : Type) : Type :=
| Json (body : A)                                (* res.json(body) *)
| Error (status : Z) (message : string)          (* res.status(s).json({ error }) *)
| ZodErrors (issues : list Zod.ZodIssue).        (* res.status(400).json({ error: error.errors }) *)
Arguments Json {A} body.
Arguments Error {A} status message.
Arguments ZodErrors {A} issues.

Definition status {A : Type} (r : Response A) : Z :=
  match r with
  | Json _ => 200
  | Error s _ => s
  | ZodErrors _ => 400
  end.

(** What the handlers take from their surroundings: the server's time
    zone, the engine's [Date.parse], and the clock read by [new Date()]. *)
Record Env : Type := {
  tz : JSDate.TimeZone;
  Date_parse : string -> JSDate.Date;
  now : Z
}.

Definition Handler (A : Type) : Type := Prisma.DB -> Response A * Prisma.DB.

(** [try { body } catch (error) { res.status(500).json({ error: message }) }] *)
Definition try_catch {A : Type} (body : Prisma.M (Response A)) (message : string)
  : Handler A :=
  fun db =>
    match body db with
    | (inr r, db') => (r, db')
    | (inl _, db') => (Error 500 message, db')
    end.

Module WorkoutRouter.
Import Json Zod Prisma.
Local Open Scope prisma_scope.

Definition exerciseShape : list (string * schema) :=
  [("name", z_string); ("sets", z_number); ("reps", z_number);
   ("weight", z_number); ("notes", z_optional z_string)].

Definition scheduleSchema : schema :=
  z_object [("type", z_enum ["weekly"; "daily"]);
            ("days", z_array z_number);
            ("frequency", z_number)].

Definition workoutSchema : schema :=
  z_object [("name", z_string);
            ("category", z_enum ["Push"; "Pull"; "Legs"; "Upper"; "Lower"]);
            ("exercises", z_array (z_object exerciseShape));
            ("schedule", scheduleSchema)].

(** The workout as the API shows it. *)
Record WorkoutView : Type := {
  workout : Workout.t;
  view_exercises : list Exercise.t;
  days : list JS.number;
  type : string;
  frequency : Z
}.

Definition parseWorkoutScheduleDays (w : WorkoutWithExercises) : WorkoutView :=
  {| workout := fst w;
     view_exercises := snd w;
     days := map JS.parseInt (JS.split JS.comma (Workout.scheduleDays (fst w)));
     type := Workout.scheduleType (fst w);
     frequency := Workout.frequency (fst w) |}.

(** GET / *)
Definition get_all (user : Z) : Handler (list WorkoutView) :=
  try_catch
    (workouts <- workout_findMany user ;;
     ret (Json (map parseWorkoutScheduleDays workouts)))
    "Failed to fetch workouts".

(** The [where] clause shared by GET /date/:date and GET /week/:date:
    [{ userId, OR: [{ scheduleType: 'daily' },
                    { AND: [{ scheduleType: 'weekly' },
                            { scheduleDays: { contains: dayOfWeek.toString() } }] }] }].
    [contains] is a substring test on the stored string (SQLite's LIKE;
    its folding of letter case does not matter for a pattern made of a
    digit). *)
Definition scheduled_on (user : Z) (dayOfWeek : JS.number) (w : Workout.t) : bool :=
  (Workout.userId w =? user)
  && (String.eqb (Workout.scheduleType w) "daily"
      || (String.eqb (Workout.scheduleType w) "weekly"
          && JS.includes (JS.Number_toString dayOfWeek) (Workout.scheduleDays w))).

Record DayBody : Type := {
  day_date : string;
  day_category : string;
  day_exercises : list Exercise.t
}.

(** GET /date/:date *)
Definition get_date (env : Env) (user : Z) (date : string) : Handler DayBody :=
  try_catch
    (let targetDate := Date_parse env date in
     let dayOfWeek := JSDate.getDay (tz env) targetDate in
     workout <- workout_findFirst (scheduled_on user dayOfWeek) ;;
     match workout with
     | None =>
         ret (Json {| day_date := date; day_category := "Rest";
                      day_exercises := [] |})
     | Some (w, es) =>
         ret (Json {| day_date := date; day_category := Workout.category w;
                      day_exercises := es |})
     end)
    "Failed to fetch workout for date".

(** One entry of [exercises] in a body that passed [workoutSchema]. *)
Definition exercise_input (v : jsval) : ExerciseInput :=
  {| in_name := as_string (prop "name" v);
     in_sets := as_number (prop "sets" v);
     in_reps := as_number (prop "reps" v);
     in_weight := as_number (prop "weight" v);
     in_notes := as_optional_string (prop "notes" v) |}.

(** POST / *)
Definition create (env : Env) (user : Z) (body : jsval) : Handler WorkoutView :=
  match Zod.parse workoutSchema body with
  | inl issues => fun db => (ZodErrors issues, db)
  | inr workoutData =>
      let schedule := prop "schedule" workoutData in
      try_catch
        (workout <- workout_create (now env)
                      (as_string (prop "name" workoutData))
                      (as_string (prop "category" workoutData))
                      user
                      (as_string (prop "type" schedule))
                      (JS.join (map as_number (as_array (prop "days" schedule))))
                      (as_number (prop "frequency" schedule))
                      (map exercise_input (as_array (prop "exercises" workoutData))) ;;
         ret (Json (parseWorkoutScheduleDays workout)))
        "Failed to create workout"
  end.

(** POST /:id/log *)
Definition log_session (env : Env) (user : Z) (id : string) (body : jsval)
  : Handler WorkoutLog.t :=
  try_catch
    (if destructurable body then
       let exercises := prop "exercises" body in
       workoutLog <- workoutLog_create user (JS.parseInt id) (Some (now env))
                                       exercises ;;
       ret (Json workoutLog)
     else throw TypeError)
    "Failed to log workout".

(** GET /:id/logs *)
Definition get_workout_logs (user : Z) (id : string) : Handler (list WorkoutLog.t) :=
  try_catch
    (logs <- workoutLog_findMany_of (JS.parseInt id) user ;;
     ret (Json (orderBy_date_desc logs)))
    "Failed to fetch workout logs".

(** DELETE /:id *)
Definition delete (user : Z) (id : string) : Handler string :=
  try_catch
    (exercise_deleteMany (JS.parseInt id) ;;;
     workout_delete (JS.parseInt id) ;;;
     ret (Json "Workout deleted successfully"))
    "Failed to delete workout".

Record DayEntry : Type := {
  entry_id : option Z;
  entry_date : string;
  entry_category : string;
  entry_exercises : list Exercise.t
}.

(** The entry pushed for one day: [workout?.id || null],
    [workout?.category || 'Rest'], [workout?.exercises || []]. *)
Definition day_entry (workout : option WorkoutWithExercises) (date : string)
  : DayEntry :=
  {| entry_id :=
       match workout with
       | Some (w, _) => if Workout.id w =? 0 then None else Some (Workout.id w)
       | None => None
       end;
     entry_date := date;
     entry_category :=
       match workout with
       | Some (w, _) =>
           if String.eqb (Workout.category w) "" then "Rest" else Workout.category w
       | None => "Rest"
       end;
     entry_exercises :=
       match workout with
       | Some (_, es) => es
       | None => []
       end |}.

(** The loop [for (let i = 0; i < 7; i++)] of GET /week/:date, with
    [remaining] iterations still to run.  The query also includes the logs
    of the workout; the entry pushed does not use them. *)
Fixpoint week_loop (env : Env) (user : Z) (startDate : Z) (remaining : nat)
    (i : Z) (weekWorkouts : list DayEntry) : M (list DayEntry) :=
  match remaining with
  | O => ret weekWorkouts
  | S remaining' =>
      let currentDate :=
        JSDate.setDate (tz env) startDate (JSDate.getDate (tz env) startDate + i) in
      let dayOfWeek := JSDate.getDay (tz env) (Some currentDate) in
      workout <- workout_findFirst (scheduled_on user dayOfWeek) ;;
      week_loop env user startDate remaining' (i + 1)
        (weekWorkouts ++ [day_entry workout (JSDate.toISODate currentDate)])
  end.

(** The entry that iteration [i] of the loop pushes, as a function of the
    database it reads. *)
Definition week_entry (env : Env) (user : Z) (startDate : Z) (db : DB) (i : Z)
  : DayEntry :=
  let currentDate :=
    JSDate.setDate (tz env) startDate (JSDate.getDate (tz env) startDate + i) in
  let dayOfWeek := JSDate.getDay (tz env) (Some currentDate) in
  day_entry (match find (scheduled_on user dayOfWeek) (workouts db) with
             | Some w => Some (w, exercises_of db w)
             | None => None
             end)
            (JSDate.toISODate currentDate).

(** GET /week/:date.  The two early returns are the format check and
    [isNaN(startDate.getTime())]. *)
Definition get_week (env : Env) (user : Z) (date : string)
  : Handler (list DayEntry) :=
  try_catch
    (if negb (JSDate.dateRegex_test date) then
       ret (Error 400 "Invalid date format. Please use YYYY-MM-DD format.")
     else
       match Date_parse env date with
       | None => ret (Error 400 "Invalid date. Please provide a valid date.")
       | Some t =>
           let startDate := JSDate.setUTCHours t 0 0 0 0 in
           weekWorkouts <- week_loop env user startDate 7 0 [] ;;
           ret (Json weekWorkouts)
       end)
    "Failed to fetch workouts for week".

(** The day window computed by both log lookups: [setHours(0, 0, 0, 0)]
    and then [setHours(23, 59, 59, 999)] on the same day. *)
Definition startOfDay (env : Env) (d : JSDate.Date) : JSDate.Date :=
  match d with
  | Some t => Some (JSDate.setHours (tz env) t 0 0 0 0)
  | None => None
  end.

Definition endOfDay (env : Env) (d : JSDate.Date) : JSDate.Date :=
  match d with
  | Some t => Some (JSDate.setHours (tz env) t 23 59 59 999)
  | None => None
  end.

(** GET /logs?date=... *)
Definition get_logs (env : Env) (user : Z) (query_date : option string)
  : Handler (list WorkoutLog.t) :=
  try_catch
    (let date := match query_date with
                 | Some s => Date_parse env s
                 | None => None
                 end in
     let startOfDay_ := startOfDay env date in
     let endOfDay_ := endOfDay env startOfDay_ in
     logs <- workoutLog_findMany_between user startOfDay_ endOfDay_ ;;
     ret (Json logs))
    "Failed to fetch workout logs".

Definition LogWithWorkout : Type := (WorkoutLog.t * option (string * string))%type.

(** GET /logs/:date *)
Definition get_logs_for_date (env : Env) (user : Z) (date : string)
  : Handler (list LogWithWorkout) :=
  try_catch
    (if negb (JSDate.dateRegex_test date) then
       ret (Error 400 "Invalid date format. Please use YYYY-MM-DD format.")
     else
       let targetDate := startOfDay env (Date_parse env date) in
       let endDate := endOfDay env targetDate in
       logs <- workoutLog_findMany_between user targetDate endDate ;;
       fun db =>
         (inr (Json (map (fun l => (l, workout_projection db l))
                         (orderBy_date_desc logs))), db))
    "Failed to fetch workout logs".

(** POST /logs *)
Definition log_workout (env : Env) (user : Z) (body : jsval)
  : Handler WorkoutLog.t :=
  try_catch
    (if destructurable body then
       let date := prop "date" body in
       let exercises := prop "exercises" body in
       let workoutId := prop "workoutId" body in
       if negb (truthy date) || negb (truthy exercises) || negb (truthy workoutId)
       then ret (Error 400 "Missing required fields")
       else
         workoutLog <- workoutLog_create user (Json.parseInt workoutId)
                         (new_Date (Date_parse env) date) exercises ;;
         ret (Json workoutLog)
     else throw TypeError)
    "Failed to log workout".

End WorkoutRouter.

(* ================================================================== *)
(** ** The second workouts router (third module of src/routes/auth.ts) *)
(* ================================================================== *)

Module WorkoutRouterTx.
Import Prisma.
Local Open Scope prisma_scope.

(** [prisma.workout.findFirst({ where: { id, userId } })]. *)
Definition owned_workout (workoutId : JS.number) (user : Z) : M (option Workout.t) :=
  wid <- int_arg workoutId ;;
  fun db =>
    (inr (find (fun w => (Workout.id w =? wid) && (Workout.userId w =? user))
               (workouts db)), db).

(** DELETE /:id *)
Definition delete (user : Z) (id : string) : Handler string :=
  try_catch
    (let workoutId := JS.parseInt id in
     workout <- owned_workout workoutId user ;;
     match workout with
     | None => ret (Error 404 "Workout not found")
     | Some _ =>
         transaction [workoutLog_deleteMany workoutId;
                      exercise_deleteMany workoutId;
                      workout_delete workoutId] ;;;
         ret (Json "Workout deleted successfully")
     end)
    "Failed to delete workout".

End WorkoutRouterTx.

(* ================================================================== *)
(** ** GET /week, and request bodies as a client builds them *)
(* ================================================================== *)

Module WorkoutRouterMore.
Import Json Zod Prisma WorkoutRouter.
Local Open Scope prisma_scope.

(** [include: { exercises: true, logs: true }]. *)
Definition logs_of (db : DB) (w : Workout.t) : list WorkoutLog.t :=
  filter (fun l => WorkoutLog.workoutId l =? Workout.id w) (workoutLogs db).

(** GET /week: the date of the query string is read into a Date that is
    not used; every workout of the caller is sent with its exercises and
    its logs. *)
Definition get_week_query (env : Env) (user : Z) (query_date : option string)
  : Handler (list (WorkoutView * list WorkoutLog.t)) :=
  try_catch
    (fun db =>
       (inr (Json (map (fun w => (parseWorkoutScheduleDays (w, exercises_of db w),
                                  logs_of db w))
                       (filter (fun w => Workout.userId w =? user) (workouts db)))),
        db))
    "Failed to fetch workouts".

(** The JSON of one exercise of a request; [notes] is left out when there
    are none. *)
Definition exercise_json (i : ExerciseInput) : jsval :=
  JObj ([("name", JStr (in_name i)); ("sets", JNum (in_sets i));
         ("reps", JNum (in_reps i)); ("weight", JNum (in_weight i))]
        ++ match in_notes i with
           | Some s => [("notes", JStr s)]
           | None => []
           end).

(** The body of a POST / request. *)
Definition workout_json (name category : string) (inputs : list ExerciseInput)
    (type_ : string) (days_ : list Z) (freq : Z) : jsval :=
  JObj [("name", JStr name); ("category", JStr category);
        ("exercises", JArr (map exercise_json inputs));
        ("schedule", JObj [("type", JStr type_);
                           ("days", JArr (map JNum days_));
                           ("frequency", JNum freq)])].

(** The body of a POST /logs request. *)
Definition log_json (date : string) (results : jsval) (workoutId : Z) : jsval :=
  JObj [("date", JStr date); ("exercises", results); ("workoutId", JNum workoutId)].

End WorkoutRouterMore.

(* ================================================================== *)
(** ** The exercises router (second module of src/routes/auth.ts) *)
(* ================================================================== *)

Module ExerciseRouter.
Import Json Zod Prisma.
Local Open Scope prisma_scope.

Definition exerciseSchema : schema :=
  z_object [("name", z_string); ("sets", z_number); ("reps", z_number);
            ("weight", z_number); ("notes", z_optional z_string)].

(** The exercise belongs to a workout of [user]. *)
Definition owned_by (db : DB) (user : Z) (e : Exercise.t) : bool :=
  existsb (fun w => (Workout.id w =? Exercise.workoutId e)
                    && (Workout.userId w =? user))
          (workouts db).

(** [prisma.exercise.findFirst({ where: { id, workout: { userId } } })]. *)
Definition exercise_findFirst (id : JS.number) (user : Z) : M (option Exercise.t) :=
  n <- int_arg id ;;
  fun db =>
    (inr (find (fun e => (Exercise.id e =? n) && owned_by db user e)
               (exercises db)), db).

(** The row after [update({ data })]: the four required fields are
    replaced, [notes] only when the body has it; the rest is kept. *)
Definition updated (data : jsval) (e : Exercise.t) : Exercise.t :=
  {| Exercise.id := Exercise.id e;
     Exercise.name := as_string (prop "name" data);
     Exercise.sets := as_number (prop "sets" data);
     Exercise.reps := as_number (prop "reps" data);
     Exercise.weight := as_number (prop "weight" data);
     Exercise.progress := Exercise.progress e;
     Exercise.notes := match prop "notes" data with
                       | JStr s => Some s
                       | _ => Exercise.notes e
                       end;
     Exercise.workoutId := Exercise.workoutId e |}.

Definition with_exercises (db : DB) (es : list Exercise.t) : DB :=
  {| workouts := workouts db;
     exercises := es;
     workoutLogs := workoutLogs db;
     seq_workout := seq_workout db;
     seq_exercise := seq_exercise db;
     seq_workoutLog := seq_workoutLog db |}.

(** [prisma.exercise.update({ where: { id }, data })]. *)
Definition exercise_update (id : JS.number) (data : jsval) : M Exercise.t :=
  n <- int_arg id ;;
  fun db =>
    match find (fun e => Exercise.id e =? n) (exercises db) with
    | Some e =>
        (inr (updated data e),
         with_exercises db
           (map (fun x => if Exercise.id x =? n then updated data x else x)
                (exercises db)))
    | None => (inl RecordNotFound, db)
    end.

(** [prisma.exercise.delete({ where: { id } })]. *)
Definition exercise_delete (id : JS.number) : M unit :=
  n <- int_arg id ;;
  fun db =>
    if existsb (fun e => Exercise.id e =? n) (exercises db) then
      (inr tt,
       with_exercises db
         (filter (fun e => negb (Exercise.id e =? n)) (exercises db)))
    else (inl RecordNotFound, db).

(** PUT /:id *)
Definition put (user : Z) (id : string) (body : jsval) : Handler Exercise.t :=
  match Zod.parse exerciseSchema body with
  | inl issues => fun db => (ZodErrors issues, db)
  | inr exerciseData =>
      try_catch
        (exercise <- exercise_findFirst (JS.parseInt id) user ;;
         match exercise with
         | None => ret (Error 404 "Exercise not found")
         | Some _ =>
             updatedExercise <- exercise_update (JS.parseInt id) exerciseData ;;
             ret (Json updatedExercise)
         end)
        "Failed to update exercise"
  end.

(** What DELETE /:id sends: [res.status(204).send()] or an error. *)
Inductive DeleteReply : Type :=
| NoContent
| DeleteError (status : Z) (message : string).

(** DELETE /:id *)
Definition delete (user : Z) (id : string) : DB -> DeleteReply * DB :=
  fun db =>
    match (exercise <- exercise_findFirst (JS.parseInt id) user ;;
           match exercise with
           | None => ret (DeleteError 404 "Exercise not found")
           | Some _ => exercise_delete (JS.parseInt id) ;;; ret NoContent
           end) db with
    | (inr r, db') => (r, db')
    | (inl _, db') => (DeleteError 500 "Failed to delete exercise", db')
    end.

End ExerciseRouter.

(* ================================================================== *)
(** ** The auth router (first module of src/routes/auth.ts) *)
(* ================================================================== *)

Module AuthRouter.
Import Json Zod.

Record User : Type := {
  id : Z;
  email : string;
  name : string;
  password : string;
  createdAt : Z
}.

(** The user table and its AUTOINCREMENT counter. *)
Record Users : Type := {
  users : list User;
  seq_user : Z
}.

(** The library functions the router calls: zod's e-mail test, bcrypt
    (the salt is drawn by the library) and jsonwebtoken (the token carries
    the id, the e-mail and the time of issue). *)
Record Library : Type := {
  is_email : string -> bool;
  bcrypt_hash : string -> string -> string;      (* salt, password *)
  bcrypt_compare : string -> string -> bool;     (* password, hash *)
  jwt_sign : Z -> string -> Z -> string          (* id, e-mail, now *)
}.

Definition invalid_string : ZodIssue := {| code := "invalid_string"; path := [] |}.
Definition too_small : ZodIssue := {| code := "too_small"; path := [] |}.

(** [z.string().email()] *)
Definition check_email (lib : Library) (v : jsval) : list ZodIssue :=
  match v with
  | JStr s => if is_email lib s then [] else [invalid_string]
  | _ => [invalid_type]
  end.

(** [z.string().min(n)]; the length is the number of characters of the
    text, which is plain ASCII in this model. *)
Definition check_min (n : nat) (v : jsval) : list ZodIssue :=
  match v with
  | JStr s => if (n <=? String.length s)%nat then [] else [too_small]
  | _ => [invalid_type]
  end.

Definition check_string (v : jsval) : list ZodIssue :=
  match v with
  | JStr _ => []
  | _ => [invalid_type]
  end.

(** [registerSchema]: e-mail, password of at least 6, name of at least 2. *)
Definition registerSchema_check (lib : Library) (body : jsval) : list ZodIssue :=
  match body with
  | JObj fields =>
      under (Key "email") (check_email lib (get "email" fields))
      ++ under (Key "password") (check_min 6 (get "password" fields))
      ++ under (Key "name") (check_min 2 (get "name" fields))
  | _ => [invalid_type]
  end.

(** [loginSchema]: e-mail and any string as password. *)
Definition loginSchema_check (lib : Library) (body : jsval) : list ZodIssue :=
  match body with
  | JObj fields =>
      under (Key "email") (check_email lib (get "email" fields))
      ++ under (Key "password") (check_string (get "password" fields))
  | _ => [invalid_type]
  end.

(** [prisma.user.findUnique({ where: { email } })]. *)
Definition findUnique (email_ : string) (db : Users) : option User :=
  find (fun u => String.eqb (email u) email_) (users db).

(** The body of a successful answer: [{ token, user: { id, email, name } }]. *)
Record Session : Type := {
  token : string;
  user_id : Z;
  user_email : string;
  user_name : string
}.

Definition session_of (lib : Library) (now : Z) (u : User) : Session :=
  {| token := jwt_sign lib (id u) (email u) now;
     user_id := id u; user_email := email u; user_name := name u |}.

(** POST /register.  The first statement of the handler reads
    [req.body.email], which throws when there is no body. *)
Definition register (lib : Library) (salt : string) (now : Z) (body : jsval)
  : Users -> Response Session * Users :=
  fun db =>
    if negb (destructurable body) then (Error 500 "Internal server error", db)
    else
      match registerSchema_check lib body with
      | [] =>
          let email_ := as_string (prop "email" body) in
          let password_ := as_string (prop "password" body) in
          let name_ := as_string (prop "name" body) in
          match findUnique email_ db with
          | Some _ => (Error 400 "Email already registered", db)
          | None =>
              let user := {| id := seq_user db + 1; email := email_;
                             name := name_;
                             password := bcrypt_hash lib salt password_;
                             createdAt := now |} in
              (Json (session_of lib now user),
               {| users := users db ++ [user]; seq_user := seq_user db + 1 |})
          end
      | issues => (ZodErrors issues, db)
      end.

(** POST /login *)
Definition login (lib : Library) (now : Z) (body : jsval)
  : Users -> Response Session * Users :=
  fun db =>
    if negb (destructurable body) then (Error 500 "Internal server error", db)
    else
      match loginSchema_check lib body with
      | [] =>
          let email_ := as_string (prop "email" body) in
          let password_ := as_string (prop "password" body) in
          match findUnique email_ db with
          | None => (Error 400 "Invalid credentials", db)
          | Some user =>
              if bcrypt_compare lib password_ (password user)
              then (Json (session_of lib now user), db)
              else (Error 400 "Invalid credentials", db)
          end
      | issues => (ZodErrors issues, db)
      end.

(** The body of a register or login request. *)
Definition credentials (email_ password_ : string) : jsval :=
  JObj [("email", JStr email_); ("password", JStr password_)].
Definition registration (email_ password_ name_ : string) : jsval :=
  JObj [("email", JStr email_); ("password", JStr password_);
        ("name", JStr name_)].

(** A stand-in library for the examples: every string with an at sign is
    an e-mail address, and the hash is the password behind a fixed tag. *)
Definition toy_library : Library :=
  {| is_email := JS.has_char "@"%char;
     bcrypt_hash := fun salt p => ("bcrypt$" ++ p)%string;
     bcrypt_compare := fun p h => String.eqb h ("bcrypt$" ++ p)%string;
     jwt_sign := fun id_ email_ now => ("jwt:" ++ email_)%string |}.

End AuthRouter.

(* ================================================================== *)
(** ** The schedule rule as the specification words it *)
(* ================================================================== *)

Module Spec.

(** "[type] is one of the two literals; if [weekly], [days] is a non-empty
    set of integers in [0,6]; if [daily], [days] is ignored/empty." *)
Definition weekday (d : Z) : bool := (0 <=? d) && (d <=? 6).

Fixpoint no_duplicates (ds : list Z) : bool :=
  match ds with
  | [] => true
  | d :: rest => negb (existsb (Z.eqb d) rest) && no_duplicates rest
  end.

Definition valid_schedule (type : string) (days : list Z) : bool :=
  String.eqb type "daily"
  || (String.eqb type "weekly"
      && negb (Nat.eqb (List.length days) 0)
      && forallb weekday days
      && no_duplicates days).

(** "[daily]: always true.  [weekly]: true iff [date.weekday ∈ rule.days]",
    with the weekday taken in UTC. *)
Definition matches (type : string) (days : list Z) (t : Z) : bool :=
  String.eqb type "daily"
  || (String.eqb type "weekly" && existsb (Z.eqb (JSDate.WeekDay t)) days).

End Spec.

(* ================================================================== *)
(** ** Sample data *)
(* ================================================================== *)

Module Sample.
Import Json Prisma.

Definition a_workout (id user : Z) (type days : string) : Workout.t :=
  {| Workout.id := id; Workout.name := "Push day"; Workout.category := "Push";
     Workout.userId := user; Workout.scheduleType := type;
     Workout.scheduleDays := days; Workout.frequency := 1;
     Workout.createdAt := 0 |}.

Definition bench (id workoutId : Z) : Exercise.t :=
  {| Exercise.id := id; Exercise.name := "Bench"; Exercise.sets := 3;
     Exercise.reps := 10; Exercise.weight := 80; Exercise.progress := 0;
     Exercise.notes := None; Exercise.workoutId := workoutId |}.

Definition bench_result : jsval :=
  JArr [JObj [("name", JStr "Bench"); ("sets", JNum 3); ("reps", JNum 10);
              ("weight", JNum 80)]].

Definition a_log (id user workoutId date : Z) : WorkoutLog.t :=
  {| WorkoutLog.id := id; WorkoutLog.userId := user;
     WorkoutLog.workoutId := workoutId; WorkoutLog.date := date;
     WorkoutLog.exercises := bench_result |}.

Definition db_of (ws : list Workout.t) (es : list Exercise.t)
    (ls : list WorkoutLog.t) : DB :=
  {| workouts := ws; exercises := es; workoutLogs := ls;
     seq_workout := Z.of_nat (List.length ws);
     seq_exercise := Z.of_nat (List.length es);
     seq_workoutLog := Z.of_nat (List.length ls) |}.

(** A server in the given zone whose engine reads [YYYY-MM-DD] dates. *)
Definition server (zone : JSDate.TimeZone) (clock : Z) : Env :=
  {| tz := zone; Date_parse := JSDate.Date_parse_iso; now := clock |}.

(** 2024-07-03T09:46:40Z, a clock reading used in the examples. *)
Definition some_clock : Z := 1720000000000.

Definition workout_body (type : string) (days : list Z) : jsval :=
  JObj [("name", JStr "Push day"); ("category", JStr "Push");
        ("exercises", JArr []);
        ("schedule", JObj [("type", JStr type);
                           ("days", JArr (map JNum days));
                           ("frequency", JNum 1)])].

End Sample.

(* ================================================================== *)
(** ** The day resolution of the specification *)
(* ================================================================== *)

Module SpecDay.
Import Prisma.

(** The days of a stored schedule, read as [parseWorkoutScheduleDays]
    reads them; a piece that is not a number is no weekday. *)
Definition stored_days (w : Workout.t) : list Z :=
  flat_map (fun n => match n with JS.Num z => [z] | JS.NaN => [] end)
           (map JS.parseInt (JS.split JS.comma (Workout.scheduleDays w))).

Record Resolved : Type := {
  resolved_id : option Z;
  resolved_category : string;
  resolved_exercises : list Exercise.t
}.

(** "Iterate the user's workouts in a stable order (creation order / id
    ascending); return the first whose Schedule Model matches [date].  If
    none match, return the sentinel result: [workoutId = null],
    [category = "Rest"], [exercises = []]."  The workouts are taken in
    the order of the table, [t] is the date as midnight UTC. *)
Definition resolveDay (user : Z) (db : DB) (t : Z) : Resolved :=
  match find (fun w => (Workout.userId w =? user)
                       && Spec.matches (Workout.scheduleType w) (stored_days w) t)
             (workouts db) with
  | Some w => {| resolved_id := Some (Workout.id w);
                 resolved_category := Workout.category w;
                 resolved_exercises := exercises_of db w |}
  | None => {| resolved_id := None; resolved_category := "Rest";
               resolved_exercises := [] |}
  end.

End SpecDay.

(* ================================================================== *)
(** ** The numbers and the requests for which the model is exact *)
(* ================================================================== *)

Module Range.

(** An integer that JavaScript holds, prints and reads exactly. *)
Definition safe_integer (z : Z) : bool := Z.abs z <=? 9007199254740991.

(** An integer that an [Int] column or argument takes: 32 bits. *)
Definition fits_Int (z : Z) : bool :=
  (-2147483648 <=? z) && (z <=? 2147483647).

(** An exercise whose sets and repetitions fit their [Int] columns and
    whose weight is a safe integer. *)
Definition input_fits (i : Prisma.ExerciseInput) : bool :=
  fits_Int (Prisma.in_sets i) && fits_Int (Prisma.in_reps i)
  && safe_integer (Prisma.in_weight i).

(** The counters of the tables leave room for one more workout and [n]
    more exercises whose ids fit. *)
Definition room_for (db : Prisma.DB) (n : nat) : bool :=
  (0 <=? Prisma.seq_workout db) && fits_Int (Prisma.seq_workout db + 1)
  && (0 <=? Prisma.seq_exercise db)
  && fits_Int (Prisma.seq_exercise db + Z.of_nat n).

(** A time value from which a week can be counted without leaving the
    range of Date (8.64e15 milliseconds either side of the epoch). *)
Definition week_in_range (t : Z) : bool :=
  Z.abs t <=? 8640000000000000 - 7 * JSDate.msPerDay.

End Range.

Module Express.

Definition lower (c : ascii) : ascii :=
  let n := nat_of_ascii c in
  if (65 <=? n)%nat && (n <=? 90)%nat then ascii_of_nat (n + 32) else c.

(** Equality of two path segments as the router compares them: without
    regard to the case of letters. *)
Fixpoint same_segment (a b : string) : bool :=
  match a, b with
  | EmptyString, EmptyString => true
  | String x a', String y b' => Ascii.eqb (lower x) (lower y) && same_segment a' b'
  | _, _ => false
  end.

(** The last segment of GET /week/<segment> and of GET /logs/<segment>
    reaches the handler with the parameter unless an earlier route takes
    the request: [/:id/logs] takes the segment "logs", and [/week] and
    [/logs] take the empty one. *)
Definition reaches_date_route (segment : string) : bool :=
  negb (String.eqb segment "") && negb (same_segment segment "logs").


End Express.

Module ZodPaths.
Import Zod.

Definition key_eqb (a b : PathKey) : bool :=
  match a, b with
  | Key x, Key y => String.eqb x y
  | Index i, Index j => i =? j
  | _, _ => false
  end.

Fixpoint path_eqb (p q : list PathKey) : bool :=
  match p, q with
  | [], [] => true
  | a :: p', b :: q' => key_eqb a b && path_eqb p' q'
  | _, _ => false
  end.

(** Some issue of the list is reported at the path [p]. *)
Definition reported (p : list PathKey) (issues : list ZodIssue) : bool :=
  existsb (fun i => path_eqb (path i) p) issues.

End ZodPaths.

Module MoreSamples.
Import Json Prisma.

Definition pull_workout (id user : Z) (type days : string) : Workout.t :=
  {| Workout.id := id; Workout.name := "Pull day"; Workout.category := "Pull";
     Workout.userId := user; Workout.scheduleType := type;
     Workout.scheduleDays := days; Workout.frequency := 1;
     Workout.createdAt := 0 |}.

Definition row (id workoutId : Z) : Exercise.t :=
  {| Exercise.id := id; Exercise.name := "Row"; Exercise.sets := 4;
     Exercise.reps := 8; Exercise.weight := 60; Exercise.progress := 0;
     Exercise.notes := None; Exercise.workoutId := workoutId |}.

End MoreSamples.

(* ================================================================== *)
(** * Properties *)
(* ================================================================== *)

(** ** The runtime functions on known values *)

Module Checks.
Import JS JSDate.

Example toString_values :
  Number_toString (Num 1205) = "1205" /\ Number_toString (Num (-7)) = "-7"
  /\ Number_toString (Num 0) = "0" /\ Number_toString NaN = "NaN".
Proof. repeat split; reflexivity. Qed.

Example parseInt_values :
  parseInt " -42px" = Num (-42) /\ parseInt "0x1f" = Num 31
  /\ parseInt "" = NaN /\ parseInt "7.5" = Num 7 /\ parseInt "day" = NaN.
Proof. repeat split; reflexivity. Qed.

Example split_values :
  split comma "1,3,5" = ["1"; "3"; "5"] /\ split comma "" = [""]
  /\ split comma "1,,2," = ["1"; ""; "2"; ""].
Proof. repeat split; reflexivity. Qed.

Example includes_values :
  includes "1" "10" = true /\ includes "2" "1,3,5" = false
  /\ includes "NaN" "1,3,5" = false /\ includes "" "" = true.
Proof. repeat split; reflexivity. Qed.

Example regex_values :
  dateRegex_test "2024-03-15" = true /\ dateRegex_test "2024-3-15" = false
  /\ dateRegex_test "2024-03-15T00:00" = false /\ dateRegex_test "2024-13-45" = true.
Proof. repeat split; reflexivity. Qed.

Example parse_values :
  Date_parse_iso "1970-01-01" = Some 0
  /\ Date_parse_iso "2024-03-15" = Some 1710460800000
  /\ Date_parse_iso "2024-02-29" = Some 1709164800000
  /\ Date_parse_iso "2024-02-30" = Date_parse_iso "2024-03-01"
  /\ Date_parse_iso "2024-02-32" = None
  /\ Date_parse_iso "2024-13-45" = None.
Proof. repeat split; vm_compute; reflexivity. Qed.

Example calendar_values :
  toISODate 1710460800000 = "2024-03-15" /\ WeekDay 1710460800000 = 5
  /\ toISODate (-1) = "1969-12-31" /\ WeekDay (-1) = 3
  /\ toISODate (MakeDate (MakeDay 9999 11 32) 0) = "+010000-01-01"
  /\ toISODate (MakeDate (MakeDay 0 0 0) 0) = "-000001-12-31"
  /\ toISODate 951782400000 = "2000-02-29"
  /\ DateFromTime 1709164800000 = 29 /\ MonthFromTime 1709164800000 = 1
  /\ MakeDay 2024 2 32 = MakeDay 2024 3 1.
Proof. repeat split; vm_compute; reflexivity. Qed.

(** Printing a day and reading it back gives the day again, for every day
    of the four years from 2023-01-01 on. *)
Example calendar_roundtrip_2023_2026 :
  forallb (fun k => let t := MakeDate (19358 + Z.of_nat k) 0 in
                    match Date_parse_iso (toISODate t) with
                    | Some t' => t' =? t
                    | None => false
                    end)
          (seq 0 1461) = true
  /\ toISODate (MakeDate 19358 0) = "2023-01-01"
  /\ toISODate (MakeDate (19358 + 1460) 0) = "2026-12-31".
Proof. split; [|split]; vm_compute; reflexivity. Qed.

Example local_time_values :
  getDay Etc_UTC (Some 1710460800000) = Num 5
  /\ getDay America_Sao_Paulo (Some 1710460800000) = Num 4
  /\ setHours America_Sao_Paulo 1710460800000 0 0 0 0 = 1710385200000
  /\ toISODate (setDate Europe_Berlin_2024 1711584000000
                  (getDate Europe_Berlin_2024 1711584000000 + 3)) = "2024-03-31"
  /\ toISODate (setDate Europe_Berlin_2024 1711584000000
                  (getDate Europe_Berlin_2024 1711584000000 + 4)) = "2024-03-31".
Proof. repeat split; vm_compute; reflexivity. Qed.

End Checks.

(** ** Strings and numbers *)

Module JSFacts.
Import JS.

Ltac digit_cases d :=
  let H := fresh in
  assert (H : d = 0 \/ d = 1 \/ d = 2 \/ d = 3 \/ d = 4 \/ d = 5 \/ d = 6
              \/ d = 7 \/ d = 8 \/ d = 9) by lia;
  repeat (destruct H as [H | H]); subst d.

Lemma digit_value_digit_char d :
  0 <= d <= 9 -> digit_value 10 (digit_char d) = Some d.
Proof. intros Hd. digit_cases d; reflexivity. Qed.

Lemma digit_char_not_comma d :
  0 <= d <= 9 -> Ascii.eqb (digit_char d) comma = false.
Proof. intros Hd. digit_cases d; reflexivity. Qed.

Lemma digit_char_inj a b :
  0 <= a <= 9 -> 0 <= b <= 9 -> digit_char a = digit_char b -> a = b.
Proof.
  intros Ha Hb H.
  assert (E : digit_value 10 (digit_char a) = digit_value 10 (digit_char b))
    by (rewrite H; reflexivity).
  rewrite !digit_value_digit_char in E by assumption. congruence.
Qed.

(** The digits written for [n] read back as [n], whatever was read before
    and whatever follows. *)
Lemma parse_digits_fuel fuel :
  forall n rest, 0 <= n < 2 ^ Z.of_nat fuel ->
    exists k, 0 <= k /\
      forall a, parse_digits 10 a (digits_fuel fuel n rest)
                = parse_digits 10 (a * 10 ^ k + n) rest.
Proof.
  induction fuel as [|fuel IH]; intros n rest Hn.
  - exists 0. split; [lia|]. intros a. cbn [digits_fuel].
    f_equal. change (Z.of_nat 0) with 0 in Hn. lia.
  - cbn [digits_fuel]. destruct (n <? 10) eqn:Hlt.
    + apply Z.ltb_lt in Hlt. exists 1. split; [lia|]. intros a.
      rewrite Z.mod_small by lia. cbn [parse_digits].
      rewrite digit_value_digit_char by lia. f_equal; lia.
    + apply Z.ltb_ge in Hlt.
      assert (Hpow : 2 ^ Z.of_nat (S fuel) = 2 * 2 ^ Z.of_nat fuel).
      { rewrite Nat2Z.inj_succ, Z.pow_succ_r by lia. reflexivity. }
      destruct (IH (n / 10) (String (digit_char (n mod 10)) rest)) as (k & Hk & E).
      { split; [apply Z.div_pos; lia|].
        apply Z.div_lt_upper_bound; lia. }
      exists (k + 1). split; [lia|]. intros a. rewrite E.
      cbn [parse_digits].
      rewrite digit_value_digit_char by (pose proof (Z.mod_pos_bound n 10); lia).
      f_equal. rewrite Z.pow_add_r by lia.
      pose proof (Z.div_mod n 10). lia.
Qed.

Lemma digits_fuel_all_digits fuel :
  forall n acc, 0 <= n -> all_digits acc = true ->
    all_digits (digits_fuel fuel n acc) = true.
Proof.
  induction fuel as [|fuel IH]; intros n acc Hn Hacc; [exact Hacc|].
  cbn [digits_fuel].
  assert (Hd : all_digits (String (digit_char (n mod 10)) acc) = true).
  { cbn [all_digits].
    rewrite digit_value_digit_char by (pose proof (Z.mod_pos_bound n 10); lia).
    exact Hacc. }
  destruct (n <? 10); [exact Hd|].
  apply IH; [apply Z.div_pos; lia | exact Hd].
Qed.

Lemma digits_fuel_nonempty fuel :
  forall n acc, (acc <> EmptyString \/ fuel <> O) ->
    digits_fuel fuel n acc <> EmptyString.
Proof.
  induction fuel as [|fuel IH]; intros n acc H.
  - destruct H as [H | H]; [exact H | congruence].
  - cbn [digits_fuel]. destruct (n <? 10); [discriminate|].
    apply IH. left. discriminate.
Qed.

Lemma log2_fuel n : 0 <= n -> n < 2 ^ Z.of_nat (S (Z.to_nat (Z.log2 n))).
Proof.
  intros Hn. rewrite Nat2Z.inj_succ, Z2Nat.id by apply Z.log2_nonneg.
  destruct (Z.eq_dec n 0) as [-> | Hz]; [reflexivity|].
  apply Z.log2_spec. lia.
Qed.

Lemma parse_decimal n : 0 <= n -> parse_digits 10 0 (decimal n) = n.
Proof.
  intros Hn. unfold decimal.
  destruct (parse_digits_fuel (S (Z.to_nat (Z.log2 n))) n EmptyString)
    as (k & _ & E); [split; [lia | apply log2_fuel; lia]|].
  rewrite E. reflexivity.
Qed.

Lemma decimal_all_digits n : 0 <= n -> all_digits (decimal n) = true.
Proof. intros Hn. apply digits_fuel_all_digits; [lia | reflexivity]. Qed.

Lemma decimal_nonempty n : decimal n <> EmptyString.
Proof. apply digits_fuel_nonempty. right. discriminate. Qed.

(** A string of decimal digits has no sign, no space and no hex prefix. *)
Lemma unsigned_digits c s :
  all_digits (String c s) = true ->
  trim_start (String c s) = String c s
  /\ strip_sign (String c s) = (1, String c s)
  /\ strip_hex_prefix (String c s) = (10, String c s)
  /\ starts_with_digit 10 (String c s) = true.
Proof.
  intros H. cbn [all_digits] in H.
  destruct (digit_value 10 c) eqn:Hc; [|discriminate].
  assert (Hs : forall c2 s2, s = String c2 s2 -> c2 <> "x"%char /\ c2 <> "X"%char).
  { intros c2 s2 ->. cbn [all_digits] in H.
    destruct (digit_value 10 c2) eqn:Hc2; [|discriminate].
    split; intros ->; discriminate Hc2. }
  destruct c as [[] [] [] [] [] [] [] []]; try discriminate Hc;
    (repeat split; try reflexivity;
     cbn [starts_with_digit]; try (rewrite Hc; reflexivity));
    destruct s as [|c2 s2]; try reflexivity;
    destruct (Hs c2 s2 eq_refl) as [Hx HX];
    destruct c2 as [[] [] [] [] [] [] [] []]; try reflexivity; congruence.
Qed.

Lemma parseInt_digits s :
  s <> EmptyString -> all_digits s = true ->
  parseInt s = Num (parse_digits 10 0 s).
Proof.
  intros Hne H. destruct s as [|c s]; [congruence|].
  destruct (unsigned_digits c s H) as (Ht & Hs & Hx & Hd).
  unfold parseInt. rewrite Ht, Hs, Hx, Hd. f_equal; lia.
Qed.

Lemma parseInt_minus_digits s :
  s <> EmptyString -> all_digits s = true ->
  parseInt (String "-" s) = Num (- parse_digits 10 0 s).
Proof.
  intros Hne H. destruct s as [|c s]; [congruence|].
  destruct (unsigned_digits c s H) as (_ & _ & Hx & Hd).
  unfold parseInt.
  change (trim_start (String "-" (String c s))) with (String "-" (String c s)).
  change (strip_sign (String "-" (String c s))) with (-1, String c s).
  cbv iota beta. rewrite Hx, Hd. f_equal; lia.
Qed.

(** [parseInt] inverts [toString] on every integer. *)
Lemma parseInt_toString z : parseInt (Number_toString (Num z)) = Num z.
Proof.
  unfold Number_toString. destruct (z <? 0) eqn:Hz.
  - apply Z.ltb_lt in Hz.
    rewrite parseInt_minus_digits, parse_decimal by
      (first [lia | apply decimal_nonempty | apply decimal_all_digits; lia]).
    f_equal. lia.
  - apply Z.ltb_ge in Hz.
    rewrite parseInt_digits, parse_decimal by
      (first [lia | apply decimal_nonempty | apply decimal_all_digits; lia]).
    reflexivity.
Qed.

(** *** split and join *)

Lemma has_char_append c x y :
  has_char c (x ++ y)%string = has_char c x || has_char c y.
Proof.
  induction x as [|a x IH]; [reflexivity|].
  cbn [append has_char]. rewrite IH. apply orb_assoc.
Qed.

Lemma split_no_sep sep s : has_char sep s = false -> split sep s = [s].
Proof.
  induction s as [|c s IH]; intros H; [reflexivity|].
  cbn [has_char] in H. apply orb_false_iff in H as [Hc Hs].
  cbn [split]. rewrite Hc, (IH Hs). reflexivity.
Qed.

Lemma split_append sep x rest :
  has_char sep x = false ->
  split sep (x ++ String sep rest)%string = x :: split sep rest.
Proof.
  induction x as [|c x IH]; intros H.
  - cbn [append split]. rewrite Ascii.eqb_refl. reflexivity.
  - cbn [has_char] in H. apply orb_false_iff in H as [Hc Hx].
    cbn [append split]. rewrite Hc, (IH Hx). reflexivity.
Qed.

Lemma split_concat pieces :
  pieces <> [] ->
  Forall (fun x => has_char comma x = false) pieces ->
  split comma (String.concat (String comma EmptyString) pieces) = pieces.
Proof.
  induction pieces as [|x [|y rest] IH]; intros Hne Hall; [congruence| |].
  - cbn [String.concat]. apply split_no_sep. now inversion Hall.
  - inversion Hall as [|? ? Hx Hrest]; subst.
    change (String.concat (String comma EmptyString) (x :: y :: rest))
      with (x ++ String comma
                   (String.concat (String comma EmptyString) (y :: rest)))%string.
    rewrite split_append by exact Hx.
    rewrite IH; [reflexivity | discriminate | exact Hrest].
Qed.

Lemma all_digits_no_comma s : all_digits s = true -> has_char comma s = false.
Proof.
  induction s as [|c s IH]; intros H; [reflexivity|].
  cbn [all_digits] in H. destruct (digit_value 10 c) eqn:Hc; [|discriminate].
  cbn [has_char]. rewrite (IH H), orb_false_r.
  destruct (Ascii.eqb_spec c comma) as [-> | _]; [discriminate Hc | reflexivity].
Qed.

Lemma toString_no_comma z : has_char comma (Number_toString (Num z)) = false.
Proof.
  unfold Number_toString. destruct (z <? 0) eqn:Hz.
  - apply Z.ltb_lt in Hz. cbn [has_char].
    rewrite all_digits_no_comma by (apply decimal_all_digits; lia). reflexivity.
  - apply Z.ltb_ge in Hz. apply all_digits_no_comma, decimal_all_digits. lia.
Qed.

(** Writing a non-empty array of integers with [join(',')] and reading it
    back with [split(',').map(day => parseInt(day))] gives the array again. *)
Lemma days_roundtrip_nonempty ds :
  ds <> [] -> map parseInt (split comma (join ds)) = map Num ds.
Proof.
  intros Hne. unfold join.
  rewrite split_concat.
  - rewrite map_map. apply map_ext. intros z. apply parseInt_toString.
  - destruct ds; [congruence | discriminate].
  - apply Forall_forall. intros x Hx. apply in_map_iff in Hx as (z & <- & _).
    apply toString_no_comma.
Qed.

(** *** Looking for a weekday digit in the stored string *)

Lemma includes_char c s : includes (String c EmptyString) s = has_char c s.
Proof.
  induction s as [|c' s IH]; [reflexivity|].
  cbn [includes has_char String.prefix]. rewrite IH.
  destruct (ascii_dec c c') as [-> | Hne].
  - rewrite Ascii.eqb_refl. destruct s; reflexivity.
  - destruct (Ascii.eqb_spec c' c) as [-> | _]; [congruence | reflexivity].
Qed.

Lemma toString_digit k :
  0 <= k <= 9 -> Number_toString (Num k) = String (digit_char k) EmptyString.
Proof. intros Hk. digit_cases k; reflexivity. Qed.

Lemma has_digit_join k ds :
  0 <= k <= 9 -> Forall (fun d => 0 <= d <= 9) ds ->
  has_char (digit_char k) (join ds) = existsb (Z.eqb k) ds.
Proof.
  intros Hk. unfold join.
  assert (Hone : forall d, 0 <= d <= 9 ->
            has_char (digit_char k) (Number_toString (Num d)) = (k =? d)).
  { intros d Hd. rewrite toString_digit by exact Hd. cbn [has_char].
    rewrite orb_false_r.
    destruct (Ascii.eqb_spec (digit_char d) (digit_char k)) as [E | E];
      destruct (Z.eqb_spec k d) as [E' | E']; try reflexivity.
    - apply digit_char_inj in E; [congruence | lia | lia].
    - subst. congruence. }
  induction ds as [|d [|d2 rest] IH]; intros Hall; [reflexivity| |].
  - inversion Hall; subst. cbn [map String.concat existsb].
    rewrite Hone by assumption. symmetry. apply orb_false_r.
  - inversion Hall as [|? ? Hd Hrest]; subst.
    change (String.concat (String comma EmptyString)
              (map (fun z => Number_toString (Num z)) (d :: d2 :: rest)))
      with (Number_toString (Num d) ++ String comma
              (String.concat (String comma EmptyString)
                 (map (fun z => Number_toString (Num z)) (d2 :: rest))))%string.
    rewrite has_char_append. cbn [has_char].
    rewrite Hone, (IH Hrest) by assumption.
    assert (Hc : Ascii.eqb comma (digit_char k) = false).
    { rewrite Ascii.eqb_sym. apply digit_char_not_comma. exact Hk. }
    rewrite Hc. reflexivity.
Qed.

End JSFacts.

(** ** Dates *)

Module DateFacts.
Import JSDate.

Lemma WeekDay_range t : 0 <= WeekDay t <= 6.
Proof. unfold WeekDay. pose proof (Z.mod_pos_bound (Day t + 4) 7). lia. Qed.

Lemma Day_MakeDate d : Day (MakeDate d 0) = d.
Proof.
  unfold Day, MakeDate. rewrite Z.add_0_r. apply Z.div_mul. discriminate.
Qed.

Lemma setUTCHours_midnight t : setUTCHours t 0 0 0 0 = MakeDate (Day t) 0.
Proof. reflexivity. Qed.

(** In a zone whose offset never changes, [setDate(getDate() + i)] moves
    the date by exactly [i] days. *)
Lemma setDate_fixed_zone off t i :
  setDate (fixed_zone off) t (getDate (fixed_zone off) t + i) = t + i * msPerDay.
Proof.
  unfold setDate, getDate, DateFromTime, UTC, LocalTime, MakeDate, MakeDay.
  cbn [fixed_zone LocalTZA_utc LocalTZA_local].
  generalize (days_from_civil
                (YearFromTime (t + off) + MonthFromTime (t + off) / 12)
                (MonthFromTime (t + off) mod 12 + 1) 1).
  intros firstOfMonth. unfold Day, TimeWithinDay.
  pose proof (Z.div_mod (t + off) msPerDay). unfold msPerDay in *. lia.
Qed.

Lemma getDay_fixed_zone off t :
  getDay (fixed_zone off) (Some t) = JS.Num (WeekDay (t + off)).
Proof. reflexivity. Qed.

(** The day window of the log lookups in a zone with a fixed offset: it is
    the local day that contains the instant [t]. *)
Lemma setHours_fixed_zone off t h m s ms :
  setHours (fixed_zone off) t h m s ms
  = MakeDate (Day (t + off)) (MakeTime h m s ms) - off.
Proof. reflexivity. Qed.

Lemma local_day_east off d :
  0 <= off < msPerDay -> Day (MakeDate d 0 + off) = d.
Proof.
  intros H. unfold Day, MakeDate. rewrite Z.add_0_r.
  rewrite Z.add_comm, Z.div_add by discriminate.
  rewrite Z.div_small by exact H. reflexivity.
Qed.

Lemma local_day_west off d :
  - msPerDay <= off < 0 -> Day (MakeDate d 0 + off) = d - 1.
Proof.
  intros H. unfold Day, MakeDate. rewrite Z.add_0_r.
  replace (d * msPerDay + off) with ((off + msPerDay) + (d - 1) * msPerDay) by lia.
  rewrite Z.div_add by discriminate.
  rewrite Z.div_small by lia. reflexivity.
Qed.

End DateFacts.

(** ** Schedule matching (GET /date/:date, GET /week/:date) *)

Module ScheduleFacts.
Import Json Prisma WorkoutRouter.

(** A daily workout of the caller satisfies the [where] clause whatever
    the day, even when the date did not parse. *)
Lemma daily_always_scheduled user dayOfWeek w :
  Workout.userId w = user -> Workout.scheduleType w = "daily" ->
  scheduled_on user dayOfWeek w = true.
Proof.
  intros Hu Ht. unfold scheduled_on. rewrite Hu, Ht, Z.eqb_refl. reflexivity.
Qed.

(** For stored days that are weekdays, the [where] clause is the rule of
    the specification read at the server's local time: in a zone with the
    fixed offset [off], the date is matched as if it were [t + off]. *)
Lemma scheduled_on_fixed_zone_weekdays off user w ds t :
  Workout.userId w = user ->
  Workout.scheduleDays w = JS.join ds ->
  Forall (fun d => 0 <= d <= 6) ds ->
  scheduled_on user (JSDate.getDay (JSDate.fixed_zone off) (Some t)) w
  = Spec.matches (Workout.scheduleType w) ds (t + off).
Proof.
  intros Hu Hd Hds. unfold scheduled_on, Spec.matches.
  rewrite Hu, Z.eqb_refl, Hd. cbn [andb].
  rewrite DateFacts.getDay_fixed_zone.
  pose proof (DateFacts.WeekDay_range (t + off)) as Hw.
  rewrite JSFacts.toString_digit by lia.
  rewrite JSFacts.includes_char, JSFacts.has_digit_join; [reflexivity | lia |].
  eapply Forall_impl; [|exact Hds]. cbv beta. intros; lia.
Qed.

(** On a server running in UTC it is the rule of the specification. *)
Lemma scheduled_on_utc_weekdays user w ds t :
  Workout.userId w = user ->
  Workout.scheduleDays w = JS.join ds ->
  Forall (fun d => 0 <= d <= 6) ds ->
  scheduled_on user (JSDate.getDay JSDate.Etc_UTC (Some t)) w
  = Spec.matches (Workout.scheduleType w) ds t.
Proof.
  intros Hu Hd Hds. unfold JSDate.Etc_UTC.
  rewrite (scheduled_on_fixed_zone_weekdays 0 user w ds t Hu Hd Hds).
  rewrite Z.add_0_r. reflexivity.
Qed.

Lemma find_first_match {A : Type} (p : A -> bool) before x after :
  p x = true -> (forall y, In y before -> p y = false) ->
  find p (before ++ x :: after) = Some x.
Proof.
  intros Hx Hb. induction before as [|b before IH]; cbn [app find].
  - rewrite Hx. reflexivity.
  - rewrite (Hb b) by (left; reflexivity).
    apply IH. intros y Hy. apply Hb. right. exact Hy.
Qed.

Lemma find_none_match {A : Type} (p : A -> bool) l :
  (forall y, In y l -> p y = false) -> find p l = None.
Proof.
  intros H. induction l as [|a l IH]; [reflexivity|]. cbn [find].
  rewrite (H a) by (left; reflexivity).
  apply IH. intros y Hy. apply H. right. exact Hy.
Qed.

Lemma find_least_id p ws w :
  StronglySorted (fun a b => Workout.id a < Workout.id b) ws ->
  find p ws = Some w ->
  forall x, In x ws -> p x = true -> Workout.id w <= Workout.id x.
Proof.
  intros Hs. induction Hs as [|a ws Hs IH Ha]; intros Hf x Hx Hp; [destruct Hx|].
  cbn [find] in Hf. destruct (p a) eqn:Hpa.
  - injection Hf as <-. destruct Hx as [<- | Hx]; [lia|].
    rewrite Forall_forall in Ha. specialize (Ha x Hx). lia.
  - destruct Hx as [<- | Hx]; [congruence|]. apply IH; assumption.
Qed.

End ScheduleFacts.

(** ** The order of the workout table *)

Module TableFacts.
Import Prisma.

Lemma sorted_snoc {A : Type} (R : A -> A -> Prop) l x :
  StronglySorted R l -> Forall (fun y => R y x) l -> StronglySorted R (l ++ [x]).
Proof.
  intros Hs Hall. induction Hs as [|a l Hs IH Ha]; cbn [app].
  - repeat constructor.
  - inversion Hall as [|? ? Hax Hrest]; subst. constructor; [apply IH, Hrest|].
    apply Forall_app. split; [exact Ha | repeat constructor; exact Hax].
Qed.

Lemma sorted_filter {A : Type} (R : A -> A -> Prop) (p : A -> bool) l :
  StronglySorted R l -> StronglySorted R (filter p l).
Proof.
  intros Hs. induction Hs as [|a l Hs IH Ha]; cbn [filter]; [constructor|].
  destruct (p a); [|exact IH]. constructor; [exact IH|].
  rewrite Forall_forall in *. intros x Hx. apply Ha.
  apply filter_In in Hx. tauto.
Qed.

Lemma ids_ascending_empty :
  ids_ascending {| workouts := []; exercises := []; workoutLogs := [];
                   seq_workout := 0; seq_exercise := 0; seq_workoutLog := 0 |}.
Proof. split; constructor. Qed.

(** A new workout goes to the end of the table with the next id. *)
Lemma ids_ascending_create now name category user type_ days_ freq inputs db :
  ids_ascending db ->
  ids_ascending
    (snd (workout_create now name category user type_ days_ freq inputs db)).
Proof.
  intros [Hs Hb]. unfold workout_create, ids_ascending.
  cbn [snd workouts seq_workout]. split.
  - apply sorted_snoc; [exact Hs|].
    eapply Forall_impl; [|exact Hb]. cbn. intros; lia.
  - apply Forall_app. split.
    + eapply Forall_impl; [|exact Hb]. cbn. intros; lia.
    + repeat constructor. cbn. lia.
Qed.

(** Deleting a workout, whether it succeeds or not, keeps the order. *)
Lemma ids_ascending_delete id db :
  ids_ascending db -> ids_ascending (snd (workout_delete id db)).
Proof.
  intros [Hs Hb]. unfold workout_delete. destruct id as [|wid]; cbn [int_arg].
  - split; assumption.
  - unfold bind, ret.
    destruct (negb (workout_exists db wid)); [split; assumption|].
    destruct (referenced db wid); [split; assumption|].
    unfold ids_ascending. cbn [snd workouts seq_workout]. split.
    + apply sorted_filter, Hs.
    + rewrite Forall_forall in *. intros x Hx. apply Hb.
      apply filter_In in Hx. tauto.
Qed.

End TableFacts.

(** ** Day resolution *)

Module DayFacts.
Import Json Prisma WorkoutRouter.

(** C1 (not met by the code).  The claim takes the weekday of the date in
    UTC and tests membership in the set of scheduled days.  The handler
    takes the weekday with [getDay], in the server's local time, and looks
    for its digit anywhere in the stored string.  2024-03-15 is a Friday
    (weekday 5 in UTC): a workout scheduled on Fridays is found by a server
    running in UTC, and is missed by a server three hours west of it, which
    answers Rest.  2024-03-18 is a Monday (weekday 1): a workout whose only
    scheduled day is the number 10 is returned for it, since "10" contains
    "1".  In the week view of the server west of UTC the Friday workout
    appears under the date of the Saturday. *)
Theorem get_date_weekday_local_and_by_substring :
  let friday := "2024-03-15" in
  let monday := "2024-03-18" in
  let fridays := Sample.a_workout 1 1 "weekly" (JS.join [5]) in
  let tenth := Sample.a_workout 1 1 "weekly" (JS.join [10]) in
  let db w := Sample.db_of [w] [Sample.bench 1 1] [] in
  (exists t, JSDate.Date_parse_iso friday = Some t
             /\ JSDate.WeekDay t = 5
             /\ Spec.matches "weekly" [5] t = true)
  /\ fst (get_date (Sample.server JSDate.Etc_UTC Sample.some_clock) 1 friday
                   (db fridays))
     = Json {| day_date := friday; day_category := "Push";
               day_exercises := [Sample.bench 1 1] |}
  /\ fst (get_date (Sample.server JSDate.America_Sao_Paulo Sample.some_clock) 1
                   friday (db fridays))
     = Json {| day_date := friday; day_category := "Rest"; day_exercises := [] |}
  /\ (exists t, JSDate.Date_parse_iso monday = Some t
                /\ JSDate.WeekDay t = 1
                /\ Spec.matches "weekly" [10] t = false)
  /\ days (parseWorkoutScheduleDays (tenth, [])) = [JS.Num 10]
  /\ fst (get_date (Sample.server JSDate.Etc_UTC Sample.some_clock) 1 monday
                   (db tenth))
     = Json {| day_date := monday; day_category := "Push";
               day_exercises := [Sample.bench 1 1] |}
  /\ (exists week,
        fst (get_week (Sample.server JSDate.America_Sao_Paulo Sample.some_clock)
                      1 "2024-03-11" (db fridays)) = Json week
        /\ map (fun e => (entry_date e, entry_category e)) week
           = [("2024-03-11", "Rest"); ("2024-03-12", "Rest");
              ("2024-03-13", "Rest"); ("2024-03-14", "Rest");
              ("2024-03-15", "Rest"); ("2024-03-16", "Push");
              ("2024-03-17", "Rest")]).
Proof.
  cbv zeta. split; [|split; [|split; [|split; [|split; [|split]]]]].
  - exists 1710460800000. vm_compute. auto.
  - vm_compute. reflexivity.
  - vm_compute. reflexivity.
  - exists 1710720000000. vm_compute. auto.
  - vm_compute. reflexivity.
  - vm_compute. reflexivity.
  - eexists. split; vm_compute; reflexivity.
Qed.

(** GET /date/:date answers with the first row of the workout table, in
    table order, that satisfies the [where] clause of the handler; the
    rows before it do not matter once they do not satisfy it, nor do the
    rows after it even when they do.  When the table is in ascending id
    order that row has the least id among those that satisfy the clause.
    When no row does, the answer is the Rest day with no exercises. *)
Lemma get_date_returns_first_match env user date db :
  let dayOfWeek := JSDate.getDay (tz env) (Date_parse env date) in
  (forall before w after,
      workouts db = before ++ w :: after ->
      scheduled_on user dayOfWeek w = true ->
      (forall x, In x before -> scheduled_on user dayOfWeek x = false) ->
      get_date env user date db
      = (Json {| day_date := date; day_category := Workout.category w;
                 day_exercises := exercises_of db w |}, db)
      /\ (StronglySorted (fun a b => Workout.id a < Workout.id b) (workouts db) ->
          forall x, In x (workouts db) -> scheduled_on user dayOfWeek x = true ->
                    Workout.id w <= Workout.id x))
  /\ ((forall x, In x (workouts db) -> scheduled_on user dayOfWeek x = false) ->
      get_date env user date db
      = (Json {| day_date := date; day_category := "Rest"; day_exercises := [] |},
         db)
      /\ day_entry None date
         = {| entry_id := None; entry_date := date; entry_category := "Rest";
              entry_exercises := [] |}).
Proof.
  cbv zeta. split.
  - intros before w after Hdb Hw Hbefore.
    assert (Hfind : find (scheduled_on user
                            (JSDate.getDay (tz env) (Date_parse env date)))
                         (workouts db) = Some w).
    { rewrite Hdb. apply ScheduleFacts.find_first_match; assumption. }
    split.
    + unfold get_date, try_catch, bind, workout_findFirst, ret.
      rewrite Hfind. reflexivity.
    + intros Hsorted x Hx Hpx.
      eapply ScheduleFacts.find_least_id; eassumption.
  - intros Hnone. split; [|reflexivity].
    unfold get_date, try_catch, bind, workout_findFirst, ret.
    rewrite ScheduleFacts.find_none_match by exact Hnone. reflexivity.
Qed.

(** The lemma on a table of three workouts, two of them of the caller. *)
Lemma get_date_returns_first_match_witness :
  let env := Sample.server JSDate.Etc_UTC Sample.some_clock in
  let first := Sample.a_workout 1 7 "daily" "" in
  let second := Sample.a_workout 2 7 "weekly" "5" in
  let other := Sample.a_workout 3 8 "daily" "" in
  let db := Sample.db_of [other; first; second] [Sample.bench 1 1] [] in
  (get_date env 7 "2024-03-15" db
   = (Json {| day_date := "2024-03-15"; day_category := "Push";
              day_exercises := [Sample.bench 1 1] |}, db)
   /\ (forall x, In x [first; second] -> 1 <= Workout.id x))
  /\ get_date env 9 "2024-03-15" db
     = (Json {| day_date := "2024-03-15"; day_category := "Rest";
                day_exercises := [] |}, db).
Proof.
  cbv zeta.
  pose (env := Sample.server JSDate.Etc_UTC Sample.some_clock).
  pose (first := Sample.a_workout 1 7 "daily" "").
  pose (second := Sample.a_workout 2 7 "weekly" "5").
  pose (other := Sample.a_workout 3 8 "daily" "").
  pose (db := Sample.db_of [first; second] [Sample.bench 1 1] []).
  split.
  - destruct (get_date_returns_first_match env 7 "2024-03-15"
                (Sample.db_of [other; first; second] [Sample.bench 1 1] []))
      as [Hfirst _].
    destruct (Hfirst [other] first [second]) as [Hget _].
    + reflexivity.
    + vm_compute. reflexivity.
    + intros x [<- | []]. vm_compute. reflexivity.
    + split; [exact Hget|].
      destruct (get_date_returns_first_match env 7 "2024-03-15" db) as [Hsorted _].
      destruct (Hsorted [] first [second]) as [_ Hleast].
      * reflexivity.
      * vm_compute. reflexivity.
      * intros x [].
      * intros x Hx. apply Hleast; [| exact Hx |].
        -- repeat constructor; cbn; lia.
        -- destruct Hx as [<- | [<- | []]]; vm_compute; reflexivity.
  - destruct (get_date_returns_first_match env 9 "2024-03-15"
                (Sample.db_of [other; first; second] [Sample.bench 1 1] []))
      as [_ Hrest].
    apply Hrest.
    intros x [<- | [<- | [<- | []]]]; vm_compute; reflexivity.
Defined.

End DayFacts.

(** ** The week view (GET /week/:date) *)

Module WeekFacts.
Import Json Prisma WorkoutRouter.

(** The loop never writes and never throws: it appends one entry per
    iteration, for [i], [i + 1], ... *)
Lemma week_loop_entries env user startDate db :
  forall remaining i acc,
    week_loop env user startDate remaining i acc db
    = (inr (acc ++ map (fun k => week_entry env user startDate db (i + Z.of_nat k))
                       (seq 0 remaining)), db).
Proof.
  induction remaining as [|remaining IH]; intros i acc.
  - cbn [week_loop seq map]. rewrite app_nil_r. reflexivity.
  - cbn [week_loop]. unfold bind at 1. unfold workout_findFirst at 1.
    rewrite IH. cbn [seq map]. rewrite <- seq_shift, map_map, <- app_assoc.
    cbn [app]. rewrite Z.add_0_r. unfold week_entry at 2.
    rewrite (map_ext (fun k => week_entry env user startDate db (i + 1 + Z.of_nat k))
                     (fun k => week_entry env user startDate db (i + Z.of_nat (S k)))).
    + reflexivity.
    + intros k. replace (i + 1 + Z.of_nat k) with (i + Z.of_nat (S k)) by lia.
      reflexivity.
Qed.

(** Whatever the zone and the workouts, a well-formed valid date gets
    seven entries, one per iteration, each resolved on its own. *)
Lemma get_week_seven_entries env user date t db :
  JSDate.dateRegex_test date = true ->
  Date_parse env date = Some t ->
  get_week env user date db
  = (Json (map (week_entry env user (JSDate.setUTCHours t 0 0 0 0) db)
               [0; 1; 2; 3; 4; 5; 6]), db).
Proof.
  intros Hre Hparse. unfold get_week, try_catch.
  rewrite Hre, Hparse. cbn [negb]. unfold bind.
  rewrite week_loop_entries. reflexivity.
Qed.

(** A day for which no workout of the caller is scheduled gets the Rest
    entry, with a null id and no exercises. *)
Lemma week_entry_rest env user startDate db i :
  let currentDate :=
    JSDate.setDate (tz env) startDate (JSDate.getDate (tz env) startDate + i) in
  (forall w, In w (workouts db) ->
             scheduled_on user (JSDate.getDay (tz env) (Some currentDate)) w = false) ->
  week_entry env user startDate db i
  = {| entry_id := None; entry_date := JSDate.toISODate currentDate;
       entry_category := "Rest"; entry_exercises := [] |}.
Proof.
  cbv zeta. intros Hnone. unfold week_entry.
  rewrite ScheduleFacts.find_none_match by exact Hnone. reflexivity.
Qed.

(** In a zone whose offset from UTC never changes, the seven entries are
    dated [start], [start + 1], ..., [start + 6]; the weekday each one is
    resolved for is the one of the server's local day. *)
Lemma get_week_fixed_zone env off user date t db :
  tz env = JSDate.fixed_zone off ->
  JSDate.dateRegex_test date = true ->
  Date_parse env date = Some t ->
  get_week env user date db
  = (Json (map (fun i =>
                  let day := JSDate.MakeDate (JSDate.Day t + i) 0 in
                  day_entry
                    (match find (scheduled_on user
                                   (JS.Num (JSDate.WeekDay (day + off))))
                                (workouts db) with
                     | Some w => Some (w, exercises_of db w)
                     | None => None
                     end)
                    (JSDate.toISODate day))
               [0; 1; 2; 3; 4; 5; 6]), db).
Proof.
  intros Htz Hre Hparse.
  rewrite (get_week_seven_entries env user date t db Hre Hparse).
  do 2 f_equal. apply map_ext. intros i. unfold week_entry. rewrite Htz.
  rewrite DateFacts.setDate_fixed_zone, DateFacts.getDay_fixed_zone.
  rewrite DateFacts.setUTCHours_midnight.
  replace (JSDate.MakeDate (JSDate.Day t) 0 + i * JSDate.msPerDay)
    with (JSDate.MakeDate (JSDate.Day t + i) 0)
    by (unfold JSDate.MakeDate, JSDate.msPerDay; lia).
  reflexivity.
Qed.

(** C3 (not met by the code).  The dates of the week are produced by
    [setDate(getDate() + i)], which keeps the local time of day, and are
    printed with [toISOString], in UTC.  On a server in Berlin the week that
    starts on 2024-03-28 crosses the change to summer time: from the fifth
    day on, one o'clock local time falls on the previous UTC day.  The
    answer has seven entries, but 2024-03-31 comes twice and 2024-04-03,
    the seventh day of the week, is missing.  A server in UTC returns the
    seven consecutive dates. *)
Theorem get_week_repeats_a_date_across_dst :
  let nothing := Sample.db_of [] [] [] in
  let rest d := {| entry_id := None; entry_date := d; entry_category := "Rest";
                   entry_exercises := [] |} in
  fst (get_week (Sample.server JSDate.Europe_Berlin_2024 Sample.some_clock) 1
                "2024-03-28" nothing)
  = Json (map rest ["2024-03-28"; "2024-03-29"; "2024-03-30"; "2024-03-31";
                    "2024-03-31"; "2024-04-01"; "2024-04-02"])
  /\ fst (get_week (Sample.server JSDate.Etc_UTC Sample.some_clock) 1
                   "2024-03-28" nothing)
     = Json (map rest ["2024-03-28"; "2024-03-29"; "2024-03-30"; "2024-03-31";
                       "2024-04-01"; "2024-04-02"; "2024-04-03"]).
Proof. cbv zeta. split; vm_compute; reflexivity. Qed.

End WeekFacts.

(** ** Deleting a workout (DELETE /:id) *)

Module DeleteFacts.
Import Json Prisma.

Lemma existsb_filter_negb {A : Type} (p : A -> bool) l :
  existsb p (filter (fun x => negb (p x)) l) = false.
Proof.
  induction l as [|a l IH]; [reflexivity|]. cbn [filter].
  destruct (p a) eqn:Hp; cbn [negb existsb]; [exact IH|].
  rewrite Hp, IH. reflexivity.
Qed.

Lemma find_exists {A : Type} (p q : A -> bool) l x :
  find p l = Some x -> (forall y, p y = true -> q y = true) -> existsb q l = true.
Proof.
  intros Hf Hpq. apply find_some in Hf as [Hin Hp].
  apply existsb_exists. exists x. split; [exact Hin | apply Hpq, Hp].
Qed.

(** The three deletes of the transaction go through whenever the workout
    exists: once its logs and exercises are gone nothing refers to it. *)
Lemma transaction_delete wid db :
  workout_exists db wid = true ->
  transaction [workoutLog_deleteMany (JS.Num wid);
               exercise_deleteMany (JS.Num wid);
               workout_delete (JS.Num wid)] db
  = (inr tt,
     {| workouts := filter (fun w => negb (Workout.id w =? wid)) (workouts db);
        exercises := filter (fun e => negb (Exercise.workoutId e =? wid))
                            (exercises db);
        workoutLogs := filter (fun l => negb (WorkoutLog.workoutId l =? wid))
                              (workoutLogs db);
        seq_workout := seq_workout db;
        seq_exercise := seq_exercise db;
        seq_workoutLog := seq_workoutLog db |}).
Proof.
  intros Hex. unfold workout_exists in Hex.
  unfold transaction, sequence_, workoutLog_deleteMany, exercise_deleteMany,
    workout_delete. cbn [int_arg]. unfold bind, ret, workout_exists, referenced.
  cbn [workouts exercises workoutLogs seq_workout seq_exercise seq_workoutLog].
  rewrite Hex.
  rewrite (existsb_filter_negb (fun e => Exercise.workoutId e =? wid)).
  rewrite (existsb_filter_negb (fun l => WorkoutLog.workoutId l =? wid)).
  reflexivity.
Qed.

(** DELETE /:id of the second router either changes nothing, or removes
    the workout together with every exercise and every log that refers to
    it. *)
Lemma tx_delete_outcome user id db :
  let r := fst (WorkoutRouterTx.delete user id db) in
  let db' := snd (WorkoutRouterTx.delete user id db) in
  (db' = db /\ r <> Json "Workout deleted successfully")
  \/ (exists wid,
        JS.parseInt id = JS.Num wid
        /\ r = Json "Workout deleted successfully"
        /\ workouts db' = filter (fun w => negb (Workout.id w =? wid)) (workouts db)
        /\ exercises db'
           = filter (fun e => negb (Exercise.workoutId e =? wid)) (exercises db)
        /\ workoutLogs db'
           = filter (fun l => negb (WorkoutLog.workoutId l =? wid)) (workoutLogs db)).
Proof.
  cbv zeta.
  unfold WorkoutRouterTx.delete, try_catch, WorkoutRouterTx.owned_workout.
  destruct (JS.parseInt id) as [|wid].
  - left. split; [reflexivity | discriminate].
  - cbn [int_arg]. unfold bind, ret.
    destruct (find (fun w => (Workout.id w =? wid) && (Workout.userId w =? user))
                   (workouts db)) as [w|] eqn:Hfind.
    + right. exists wid.
      assert (Hex : workout_exists db wid = true).
      { eapply find_exists; [exact Hfind|]. intros y Hy.
        apply andb_true_iff in Hy. tauto. }
      pose proof (transaction_delete wid db Hex) as Htx.
      unfold bind, ret in Htx. rewrite Htx.
      cbn [fst snd workouts exercises workoutLogs].
      repeat split; reflexivity.
    + left. split; [reflexivity | discriminate].
Qed.

(** The handler of workouts.ts on a workout that has a logged session:
    the exercises go, then the delete of the workout is refused because a
    log still refers to it; the answer is 500 and the database keeps the
    workout and its logs without the exercises. *)
Lemma delete_stops_after_exercises user id wid db :
  JS.parseInt id = JS.Num wid ->
  workout_exists db wid = true ->
  existsb (fun l => WorkoutLog.workoutId l =? wid) (workoutLogs db) = true ->
  WorkoutRouter.delete user id db
  = (Error 500 "Failed to delete workout",
     {| workouts := workouts db;
        exercises := filter (fun e => negb (Exercise.workoutId e =? wid))
                            (exercises db);
        workoutLogs := workoutLogs db;
        seq_workout := seq_workout db;
        seq_exercise := seq_exercise db;
        seq_workoutLog := seq_workoutLog db |}).
Proof.
  intros Hid Hex Hlogs.
  unfold WorkoutRouter.delete, try_catch, bind, exercise_deleteMany,
    workout_delete. rewrite Hid. cbn [int_arg].
  unfold bind, ret, workout_exists, referenced in *.
  cbn [workouts exercises workoutLogs].
  rewrite Hex, Hlogs, orb_true_r. reflexivity.
Qed.

(** C4 (not met by the code).  Workout 1 has one exercise and one logged
    session.  DELETE /1 through workouts.ts answers 500 and leaves the
    workout and its log in place with the exercise gone: one of the three
    groups of rows is deleted and two are not.  The handler for the same
    route in auth.ts wraps the three deletes in one transaction and
    removes all three. *)
Theorem delete_removes_exercises_only :
  let w := Sample.a_workout 1 1 "weekly" "1,3,5" in
  let e := Sample.bench 1 1 in
  let l := Sample.a_log 1 1 1 1710460800000 in
  let db := Sample.db_of [w] [e] [l] in
  WorkoutRouter.delete 1 "1" db
  = (Error 500 "Failed to delete workout",
     {| workouts := [w]; exercises := []; workoutLogs := [l];
        seq_workout := 1; seq_exercise := 1; seq_workoutLog := 1 |})
  /\ WorkoutRouterTx.delete 1 "1" db
     = (Json "Workout deleted successfully",
        {| workouts := []; exercises := []; workoutLogs := [];
           seq_workout := 1; seq_exercise := 1; seq_workoutLog := 1 |}).
Proof. cbv zeta. split; vm_compute; reflexivity. Qed.

End DeleteFacts.

(** ** Logging a session (POST /:id/log, POST /logs) *)

Module LogFacts.
Import Json Prisma WorkoutRouter.

(** The row that a successful log request stores. *)
Lemma workoutLog_create_ok user wid t payload db :
  payload <> JUndefined -> payload <> JNull ->
  workout_exists db wid = true ->
  let row := {| WorkoutLog.id := seq_workoutLog db + 1;
                WorkoutLog.userId := user;
                WorkoutLog.workoutId := wid;
                WorkoutLog.date := t;
                WorkoutLog.exercises := payload |} in
  workoutLog_create user (JS.Num wid) (Some t) payload db
  = (inr row, with_workoutLog db row).
Proof.
  intros Hu Hn Hex. cbv zeta. unfold workoutLog_create. cbn [int_arg date_arg].
  unfold bind, ret. destruct payload; try congruence; rewrite Hex; reflexivity.
Qed.

Lemma truthy_defined v : truthy v = true -> v <> JUndefined /\ v <> JNull.
Proof. destruct v; cbn; intros H; split; congruence. Qed.




(** C6 (not met by the code).  Neither handler looks at the owner of the
    workout.  Workout 1 belongs to user 1; user 2 logs a session against
    it through either route and gets the new row back with status 200.
    For a workout that does not exist the foreign key makes the insert
    fail, and both handlers answer 500 rather than 404. *)
Theorem log_against_foreign_workout_is_stored :
  let env := Sample.server JSDate.Etc_UTC Sample.some_clock in
  let db := Sample.db_of [Sample.a_workout 1 1 "daily" ""] [] [] in
  let body w := JObj [("date", JStr "2024-03-15");
                      ("exercises", Sample.bench_result);
                      ("workoutId", JNum w)] in
  let row t := {| WorkoutLog.id := 1; WorkoutLog.userId := 2;
                  WorkoutLog.workoutId := 1; WorkoutLog.date := t;
                  WorkoutLog.exercises := Sample.bench_result |} in
  Workout.userId (Sample.a_workout 1 1 "daily" "") <> 2
  /\ log_workout env 2 (body 1) db
     = (Json (row 1710460800000), with_workoutLog db (row 1710460800000))
  /\ log_session env 2 "1" (body 1) db
     = (Json (row Sample.some_clock), with_workoutLog db (row Sample.some_clock))
  /\ log_workout env 2 (body 9) db = (Error 500 "Failed to log workout", db)
  /\ log_session env 2 "9" (body 9) db = (Error 500 "Failed to log workout", db).
Proof.
  cbv zeta. split; [vm_compute; discriminate|].
  repeat (split; [vm_compute; reflexivity|]). vm_compute. reflexivity.
Qed.

End LogFacts.

(** ** Logs of a date (GET /logs/:date, GET /logs) *)

Module LogLookupFacts.
Import Json Prisma WorkoutRouter.

Lemma insert_desc_perm l sorted : Permutation (l :: sorted) (insert_desc l sorted).
Proof.
  induction sorted as [|x rest IH]; cbn [insert_desc]; [apply Permutation_refl|].
  destruct (WorkoutLog.date x <? WorkoutLog.date l); [apply Permutation_refl|].
  eapply perm_trans; [apply perm_swap|]. apply perm_skip. exact IH.
Qed.

(** Ordering the result does not add or drop a log. *)
Lemma orderBy_date_desc_perm ls : Permutation ls (orderBy_date_desc ls).
Proof.
  induction ls as [|l ls IH]; [apply Permutation_refl|].
  cbn [orderBy_date_desc fold_right].
  eapply perm_trans; [apply perm_skip, IH|]. apply insert_desc_perm.
Qed.

(** GET /logs/:date returns, newest first, the caller's logs whose date
    lies between the two bounds computed with [setHours], both included. *)
Lemma get_logs_for_date_window env user date t db :
  JSDate.dateRegex_test date = true ->
  Date_parse env date = Some t ->
  let lo := JSDate.setHours (tz env) t 0 0 0 0 in
  let hi := JSDate.setHours (tz env) lo 23 59 59 999 in
  exists logs,
    get_logs_for_date env user date db
    = (Json (map (fun l => (l, workout_projection db l)) logs), db)
    /\ forall l, In l logs <->
                 In l (workoutLogs db)
                 /\ WorkoutLog.userId l = user
                 /\ lo <= WorkoutLog.date l <= hi.
Proof.
  intros Hre Hparse. cbv zeta.
  unfold get_logs_for_date, try_catch. rewrite Hre, Hparse. cbn [negb].
  unfold startOfDay, endOfDay, workoutLog_findMany_between. cbn [date_arg].
  unfold bind, ret.
  eexists. split; [reflexivity|].
  intros l. rewrite <- (Permutation_in' (eq_refl l) (orderBy_date_desc_perm _)).
  rewrite filter_In, !andb_true_iff, Z.eqb_eq, !Z.leb_le. tauto.
Qed.

(** In a zone with a fixed offset east of (or at) UTC the window is the
    local day named by the date; west of UTC it is the local day before. *)
Lemma day_window_fixed_zone env off d :
  tz env = JSDate.fixed_zone off ->
  let t := JSDate.MakeDate d 0 in
  let local_midnight day := JSDate.MakeDate day 0 - off in
  (0 <= off < JSDate.msPerDay ->
   startOfDay env (Some t) = Some (local_midnight d)
   /\ endOfDay env (startOfDay env (Some t))
      = Some (local_midnight (d + 1) - 1))
  /\ (- JSDate.msPerDay <= off < 0 ->
      startOfDay env (Some t) = Some (local_midnight (d - 1))
      /\ endOfDay env (startOfDay env (Some t))
         = Some (local_midnight d - 1)).
Proof.
  intros Htz. cbv zeta. unfold startOfDay, endOfDay. rewrite Htz.
  rewrite !DateFacts.setHours_fixed_zone.
  split; intros Hoff.
  - rewrite DateFacts.local_day_east by exact Hoff.
    replace (JSDate.MakeDate d (JSDate.MakeTime 0 0 0 0) - off + off)
      with (JSDate.MakeDate d 0 + 0) by (unfold JSDate.MakeDate; cbn; lia).
    rewrite DateFacts.local_day_east by (unfold JSDate.msPerDay; lia).
    split; f_equal; unfold JSDate.MakeDate, JSDate.MakeTime, JSDate.msPerDay,
      JSDate.msPerHour, JSDate.msPerMinute, JSDate.msPerSecond; lia.
  - rewrite DateFacts.local_day_west by exact Hoff.
    replace (JSDate.MakeDate (d - 1) (JSDate.MakeTime 0 0 0 0) - off + off)
      with (JSDate.MakeDate (d - 1) 0 + 0) by (unfold JSDate.MakeDate; cbn; lia).
    rewrite DateFacts.local_day_east by (unfold JSDate.msPerDay; lia).
    split; f_equal; unfold JSDate.MakeDate, JSDate.MakeTime, JSDate.msPerDay,
      JSDate.msPerHour, JSDate.msPerMinute, JSDate.msPerSecond; lia.
Qed.

(** C7 (not met by the code).  The date is parsed as midnight UTC and the
    window is then cut with [setHours], in local time.  On a server three
    hours west of UTC, midnight UTC of 2024-03-15 is 21:00 of 2024-03-14,
    so the window runs from 2024-03-14 00:00 to 23:59:59.999 local time:
    the session logged at noon of the 14th is returned and the one logged
    at noon of the 15th is not.  A server in UTC returns the log of the
    15th alone.  GET /logs computes the same window. *)
Theorem get_logs_for_date_shifts_a_day_west_of_utc :
  let west := Sample.server JSDate.America_Sao_Paulo Sample.some_clock in
  let utc := Sample.server JSDate.Etc_UTC Sample.some_clock in
  let w := Sample.a_workout 1 1 "daily" "" in
  let noon_14_local := Sample.a_log 1 1 1 1710428400000 in
  let noon_15_local := Sample.a_log 2 1 1 1710514800000 in
  let db := Sample.db_of [w] [] [noon_14_local; noon_15_local] in
  startOfDay west (Date_parse west "2024-03-15") = Some 1710385200000
  /\ endOfDay west (startOfDay west (Date_parse west "2024-03-15"))
     = Some 1710471599999
  /\ JSDate.toISODate (JSDate.LocalTime (tz west) 1710428400000) = "2024-03-14"
  /\ JSDate.toISODate (JSDate.LocalTime (tz west) 1710514800000) = "2024-03-15"
  /\ fst (get_logs_for_date west 1 "2024-03-15" db)
     = Json [(noon_14_local, Some ("Push day", "Push"))]
  /\ fst (get_logs west 1 (Some "2024-03-15") db) = Json [noon_14_local]
  /\ fst (get_logs_for_date utc 1 "2024-03-15" db)
     = Json [(noon_15_local, Some ("Push day", "Push"))].
Proof.
  cbv zeta. repeat (split; [vm_compute; reflexivity|]). vm_compute. reflexivity.
Qed.

End LogLookupFacts.

(** ** Creating a workout (POST /) and reading its days back *)

Module CreateFacts.
Import Json Zod Prisma WorkoutRouter.

Lemma check_numbers ds : forall i, check_items (check z_number) i (map JNum ds) = [].
Proof. induction ds as [|d ds IH]; intros i; [reflexivity|]. cbn. apply IH. Qed.

Lemma numbers_read_back ds : map as_number (map JNum ds) = ds.
Proof. rewrite map_map. cbn. apply map_id. Qed.

(** The schedule part of the schema asks for one of the two type names,
    an array of numbers and a number, and for nothing else: any array of
    integers passes, for either type. *)
Lemma schedule_schema_accepts type_ ds freq :
  check scheduleSchema (JObj [("type", JStr type_);
                              ("days", JArr (map JNum ds));
                              ("frequency", JNum freq)]) = []
  <-> (type_ = "weekly" \/ type_ = "daily").
Proof.
  cbn. rewrite check_numbers. cbn.
  destruct (String.eqb_spec type_ "weekly") as [-> | Hw]; cbn.
  - split; [intros _; left; reflexivity | reflexivity].
  - destruct (String.eqb_spec type_ "daily") as [-> | Hd]; cbn.
    + split; [intros _; right; reflexivity | reflexivity].
    + split; [discriminate | intros [? | ?]; congruence].
Qed.



(** C8 as stated does not hold: the specification's rule refuses a weekly
    schedule with no days, with a day outside 0..6 or with a repeated day,
    and POST / stores each of them and answers 200. *)
Lemma create_accepts_weekly_schedule_without_days :
  let env := Sample.server JSDate.Etc_UTC Sample.some_clock in
  let db := Sample.db_of [] [] [] in
  let stored ds := Sample.a_workout 1 1 "weekly" (JS.join ds) in
  let w ds := {| Workout.id := 1; Workout.name := "Push day";
                 Workout.category := "Push"; Workout.userId := 1;
                 Workout.scheduleType := "weekly";
                 Workout.scheduleDays := JS.join ds;
                 Workout.frequency := 1;
                 Workout.createdAt := Sample.some_clock |} in
  Spec.valid_schedule "weekly" [] = false
  /\ status (fst (create env 1 (Sample.workout_body "weekly" []) db)) = 200
  /\ workouts (snd (create env 1 (Sample.workout_body "weekly" []) db)) = [w []]
  /\ Spec.valid_schedule "weekly" [7; 7] = false
  /\ status (fst (create env 1 (Sample.workout_body "weekly" [7; 7]) db)) = 200
  /\ workouts (snd (create env 1 (Sample.workout_body "weekly" [7; 7]) db))
     = [w [7; 7]].
Proof.
  cbv zeta. repeat (split; [vm_compute; reflexivity|]). vm_compute. reflexivity.
Qed.

(** C9 (not met by the code).  The array [1, 3, 5] is written as "1,3,5"
    and read back as [1, 3, 5], but the empty array is written as the
    empty string, which [split(',')] cuts into one empty piece, and
    [parseInt] of that piece is NaN: what is read back is [NaN], not the
    empty array.  A daily workout created with no days takes this path. *)
Theorem days_roundtrip_fails_on_empty_array :
  JS.join [1; 3; 5] = "1,3,5"
  /\ map JS.parseInt (JS.split JS.comma (JS.join [1; 3; 5]))
     = map JS.Num [1; 3; 5]
  /\ JS.join [] = ""
  /\ map JS.parseInt (JS.split JS.comma (JS.join [])) = [JS.NaN]
  /\ map JS.parseInt (JS.split JS.comma (JS.join [])) <> map JS.Num [].
Proof.
  repeat (split; [vm_compute; reflexivity|]). vm_compute. discriminate.
Qed.



End CreateFacts.

(** ** Creating a workout with its exercises *)

Module CreateMoreFacts.
Import Json Zod Prisma WorkoutRouter WorkoutRouterMore.

Lemma exercise_json_passes i : check (z_object exerciseShape) (exercise_json i) = [].
Proof. destruct i as [n s r w [note|]]; reflexivity. Qed.

Lemma exercises_json_pass inputs :
  forall k, check_items (check (z_object exerciseShape)) k
                        (map exercise_json inputs) = [].
Proof.
  induction inputs as [|i inputs IH]; intros k; [reflexivity|].
  cbn [map check_items]. rewrite exercise_json_passes, IH. reflexivity.
Qed.

Lemma exercise_input_json i : exercise_input (exercise_json i) = i.
Proof. destruct i as [n s r w [note|]]; reflexivity. Qed.

Lemma exercise_inputs_json inputs :
  map exercise_input (map exercise_json inputs) = inputs.
Proof.
  rewrite map_map. rewrite <- (map_id inputs) at 2.
  apply map_ext. apply exercise_input_json.
Qed.

Lemma category_known category :
  In category ["Push"; "Pull"; "Legs"; "Upper"; "Lower"] ->
  existsb (String.eqb category) ["Push"; "Pull"; "Legs"; "Upper"; "Lower"] = true.
Proof.
  intros H. apply existsb_exists. exists category.
  split; [exact H | apply String.eqb_refl].
Qed.

Lemma workout_json_passes name category inputs type_ ds freq :
  In category ["Push"; "Pull"; "Legs"; "Upper"; "Lower"] ->
  type_ = "weekly" \/ type_ = "daily" ->
  check workoutSchema (workout_json name category inputs type_ ds freq) = [].
Proof.
  intros Hc Ht. unfold workout_json, workoutSchema, scheduleSchema.
  cbn [check flat_map get fold_left fst snd String.eqb Ascii.eqb Bool.eqb app
       under map].
  rewrite (category_known category Hc), exercises_json_pass,
    CreateFacts.check_numbers.
  destruct Ht as [-> | ->]; reflexivity.
Qed.

(** The answer and the database after POST / with a well-formed body. *)
Lemma create_workout_json env user name category inputs type_ ds freq db :
  In category ["Push"; "Pull"; "Legs"; "Upper"; "Lower"] ->
  type_ = "weekly" \/ type_ = "daily" ->
  let w := {| Workout.id := seq_workout db + 1; Workout.name := name;
              Workout.category := category; Workout.userId := user;
              Workout.scheduleType := type_;
              Workout.scheduleDays := JS.join ds;
              Workout.frequency := freq; Workout.createdAt := now env |} in
  let es := new_exercises (seq_workout db + 1) (seq_exercise db + 1) inputs in
  create env user (workout_json name category inputs type_ ds freq) db
  = (Json (parseWorkoutScheduleDays (w, es)),
     {| workouts := workouts db ++ [w];
        exercises := exercises db ++ es;
        workoutLogs := workoutLogs db;
        seq_workout := seq_workout db + 1;
        seq_exercise := seq_exercise db + Z.of_nat (List.length inputs);
        seq_workoutLog := seq_workoutLog db |}).
Proof.
  intros Hc Ht. cbv zeta. unfold create, Zod.parse.
  rewrite (workout_json_passes name category inputs type_ ds freq Hc Ht).
  unfold try_catch, bind, workout_create, ret, workout_json.
  cbn [prop get fold_left fst snd String.eqb Ascii.eqb Bool.eqb as_string
       as_number as_array Workout.id].
  rewrite CreateFacts.numbers_read_back, exercise_inputs_json.
  reflexivity.
Qed.






(** A workout created with a non-empty array of days, each an integer
    that JavaScript holds and prints exactly, and with a frequency, sets
    and reps that fit an Int, in a database whose counters leave room,
    shows that array, in order, in the answer to
    the POST and in GET / later. *)
Theorem create_days_read_back env user name category inputs type_ ds freq db :
  In category ["Push"; "Pull"; "Legs"; "Upper"; "Lower"] ->
  type_ = "weekly" \/ type_ = "daily" ->
  forallb Range.input_fits inputs = true ->
  forallb Range.safe_integer ds = true ->
  Range.fits_Int freq = true ->
  Range.room_for db (List.length inputs) = true ->
  ds <> [] ->
  exists view db',
    create env user (workout_json name category inputs type_ ds freq) db
    = (Json view, db')
    /\ days view = map JS.Num ds
    /\ exists views,
         get_all user db' = (Json views, db')
         /\ exists listed, In listed views
                           /\ workout listed = workout view
                           /\ days listed = map JS.Num ds.
Proof.
  intros Hc Ht _ _ _ _ Hne. eexists. eexists.
  split; [apply (create_workout_json env user name category inputs type_ ds
                   freq db Hc Ht)|].
  split.
  - unfold parseWorkoutScheduleDays. cbn [days fst Workout.scheduleDays].
    apply JSFacts.days_roundtrip_nonempty. exact Hne.
  - eexists. split; [reflexivity|].
    eexists. split.
    + apply in_map. apply in_map. apply filter_In. split.
      * cbn [workouts]. apply in_or_app. right. left. reflexivity.
      * cbn [Workout.userId]. apply Z.eqb_refl.
    + split; [reflexivity|].
      unfold parseWorkoutScheduleDays. cbn [days fst Workout.scheduleDays].
      apply JSFacts.days_roundtrip_nonempty. exact Hne.
Qed.

(** The theorem on a workout for Monday, Wednesday and Friday. *)
Lemma create_days_read_back_witness :
  let env := Sample.server JSDate.Etc_UTC Sample.some_clock in
  let db := Sample.db_of [] [] [] in
  exists view db',
    create env 1 (workout_json "Push day" "Push" [] "weekly" [1; 3; 5] 3) db
    = (Json view, db')
    /\ days view = map JS.Num [1; 3; 5]
    /\ exists views,
         get_all 1 db' = (Json views, db')
         /\ exists listed, In listed views
                           /\ workout listed = workout view
                           /\ days listed = map JS.Num [1; 3; 5].
Proof.
  cbv zeta. apply create_days_read_back.
  - cbn. tauto.
  - left. reflexivity.
  - reflexivity.
  - reflexivity.
  - reflexivity.
  - reflexivity.
  - discriminate.
Defined.

End CreateMoreFacts.

(** ** What POST / checks of a schedule *)

Module ValidationFacts.
Import Json Zod ZodPaths Prisma WorkoutRouter WorkoutRouterMore.

Lemma key_eqb_eq a b : key_eqb a b = true <-> a = b.
Proof.
  destruct a as [x | i], b as [y | j]; cbn [key_eqb].
  - rewrite String.eqb_eq. split; [intros ->; reflexivity | congruence].
  - split; discriminate.
  - split; discriminate.
  - rewrite Z.eqb_eq. split; [intros ->; reflexivity | congruence].
Qed.

Lemma path_eqb_eq p : forall q, path_eqb p q = true <-> p = q.
Proof.
  induction p as [|a p IH]; intros [|b q]; cbn [path_eqb].
  - tauto.
  - split; discriminate.
  - split; discriminate.
  - rewrite andb_true_iff, key_eqb_eq, IH.
    split; [intros [-> ->]; reflexivity | intros H; injection H; tauto].
Qed.

(** [reported] says that some issue of the list has the path. *)
Lemma reported_iff p issues :
  reported p issues = true <-> exists issue, In issue issues /\ path issue = p.
Proof.
  unfold reported. rewrite existsb_exists.
  split; intros (i & Hin & Hp); exists i; (split; [exact Hin|]);
    apply path_eqb_eq; exact Hp.
Qed.

Lemma reported_app p a b : reported p (a ++ b) = reported p a || reported p b.
Proof. apply existsb_app. Qed.

Lemma reported_under k k' p issues :
  reported (k' :: p) (under k issues) = key_eqb k k' && reported p issues.
Proof.
  unfold reported, under. induction issues as [|i issues IH].
  - cbn. rewrite andb_false_r. reflexivity.
  - cbn [map existsb path path_eqb]. rewrite IH.
    destruct (key_eqb k k'); reflexivity.
Qed.

Lemma reported_under_root k issues : reported [] (under k issues) = false.
Proof. unfold reported, under. induction issues; [reflexivity | exact IHissues]. Qed.

(** The issues of an array of numbers are at the indices of the elements
    that are not numbers. *)
Lemma reported_item k items :
  forall j,
    reported [Index k] (check_items (check z_number) j items) = true
    <-> exists x, j <= k /\ nth_error items (Z.to_nat (k - j)) = Some x
                  /\ forall z, x <> JNum z.
Proof.
  induction items as [|x items IH]; intros j; cbn [check_items].
  - split; [discriminate|]. intros (x & _ & Hnth & _).
    destruct (Z.to_nat (k - j)); discriminate Hnth.
  - rewrite reported_app, orb_true_iff, reported_under, IH.
    cbn [key_eqb]. split.
    + intros [Hhere | (y & Hj & Hnth & Hy)].
      * apply andb_true_iff in Hhere as [Hjk Hx]. apply Z.eqb_eq in Hjk. subst k.
        exists x. rewrite Z.sub_diag. split; [lia|]. split; [reflexivity|].
        intros z ->. discriminate Hx.
      * exists y. split; [lia|]. split; [|exact Hy].
        replace (Z.to_nat (k - j)) with (S (Z.to_nat (k - (j + 1)))) by lia.
        exact Hnth.
    + intros (y & Hj & Hnth & Hy).
      destruct (Z.eqb_spec j k) as [-> | Hne].
      * left. rewrite Z.sub_diag in Hnth. cbn in Hnth. injection Hnth as <-.
        destruct x; try reflexivity. exfalso. exact (Hy z eq_refl).
      * right. exists y. split; [lia|]. split; [|exact Hy].
        replace (Z.to_nat (k - j)) with (S (Z.to_nat (k - (j + 1)))) in Hnth by lia.
        exact Hnth.
Qed.

Lemma item_paths items :
  forall j issue, In issue (check_items (check z_number) j items) ->
                  exists k, path issue = [Index k].
Proof.
  induction items as [|x items IH]; intros j issue Hin; [destruct Hin|].
  cbn [check_items] in Hin. apply in_app_or in Hin as [Hin | Hin].
  - exists j. unfold under in Hin. apply in_map_iff in Hin as (i & <- & Hi).
    destruct x; cbn in Hi;
      first [contradiction | destruct Hi as [<- | []]; reflexivity].
  - apply (IH (j + 1)). exact Hin.
Qed.

(** The issues of the body, as the sum of those of its four fields. *)
Lemma workout_issues fields :
  check workoutSchema (JObj fields)
  = under (Key "name") (check z_string (get "name" fields))
    ++ under (Key "category")
         (check (z_enum ["Push"; "Pull"; "Legs"; "Upper"; "Lower"])
                (get "category" fields))
    ++ under (Key "exercises")
         (check (z_array (z_object exerciseShape)) (get "exercises" fields))
    ++ under (Key "schedule") (check scheduleSchema (get "schedule" fields)).
Proof.
  unfold workoutSchema. cbn [check flat_map]. rewrite app_nil_r. reflexivity.
Qed.

Lemma schedule_issues sfields :
  check scheduleSchema (JObj sfields)
  = under (Key "type") (check (z_enum ["weekly"; "daily"]) (get "type" sfields))
    ++ under (Key "days") (check (z_array z_number) (get "days" sfields))
    ++ under (Key "frequency") (check z_number (get "frequency" sfields)).
Proof.
  unfold scheduleSchema. cbn [check flat_map]. rewrite app_nil_r. reflexivity.
Qed.

(** An issue is reported below "schedule" when the schedule has it. *)
Lemma reported_in_schedule p fields :
  reported (Key "schedule" :: p) (check workoutSchema (JObj fields))
  = reported p (check scheduleSchema (get "schedule" fields)).
Proof.
  rewrite workout_issues, !reported_app, !reported_under. reflexivity.
Qed.

Lemma reported_type sfields :
  reported [Key "type"] (check scheduleSchema (JObj sfields)) = true
  <-> get "type" sfields <> JStr "weekly" /\ get "type" sfields <> JStr "daily".
Proof.
  rewrite schedule_issues, !reported_app, !reported_under.
  cbn [key_eqb String.eqb Ascii.eqb Bool.eqb andb orb].
  rewrite orb_false_r.
  destruct (get "type" sfields) as [| | | |x| |];
    try (cbn; split; [intros _; split; discriminate | reflexivity]).
  cbn [check existsb].
  destruct (String.eqb_spec x "weekly") as [-> | Hw].
  - cbn. split; [discriminate | intros [H _]; congruence].
  - destruct (String.eqb_spec x "daily") as [-> | Hd].
    + cbn. split; [discriminate | intros [_ H]; congruence].
    + cbn. split; [intros _; split; congruence | reflexivity].
Qed.

Lemma reported_frequency sfields :
  reported [Key "frequency"] (check scheduleSchema (JObj sfields)) = true
  <-> forall z, get "frequency" sfields <> JNum z.
Proof.
  rewrite schedule_issues, !reported_app, !reported_under.
  cbn [key_eqb String.eqb Ascii.eqb Bool.eqb andb orb].
  destruct (get "frequency" sfields) as [| | |z| | |];
    try (cbn; split; [intros _ z; discriminate | reflexivity]).
  cbn. split; [discriminate | intros H; exfalso; exact (H z eq_refl)].
Qed.

Lemma reported_days sfields :
  reported [Key "days"] (check scheduleSchema (JObj sfields)) = true
  <-> forall items, get "days" sfields <> JArr items.
Proof.
  rewrite schedule_issues, !reported_app, !reported_under.
  cbn [key_eqb String.eqb Ascii.eqb Bool.eqb andb orb].
  rewrite orb_false_r.
  destruct (get "days" sfields) as [| | | | |items|];
    try (cbn; split; [intros _ items; discriminate | reflexivity]).
  cbn [check]. split.
  - intros H. apply reported_iff in H as (issue & Hin & Hpath).
    apply item_paths in Hin as (k & Hk). congruence.
  - intros H. exfalso. exact (H items eq_refl).
Qed.

Lemma reported_day k sfields :
  reported [Key "days"; Index k] (check scheduleSchema (JObj sfields)) = true
  <-> exists items x,
        get "days" sfields = JArr items
        /\ 0 <= k /\ nth_error items (Z.to_nat k) = Some x
        /\ forall z, x <> JNum z.
Proof.
  rewrite schedule_issues, !reported_app, !reported_under.
  cbn [key_eqb String.eqb Ascii.eqb Bool.eqb andb orb].
  rewrite orb_false_r.
  destruct (get "days" sfields) as [| | | | |items|];
    try (cbn; split; [discriminate | intros (items & x & H & _); discriminate H]).
  cbn [check]. rewrite reported_item, Z.sub_0_r. split.
  - intros (x & Hk & Hnth & Hx). exists items, x. tauto.
  - intros (items' & x & Heq & Hk & Hnth & Hx). injection Heq as <-.
    exists x. tauto.
Qed.

(** The paths below "schedule" at which an issue can be. *)
Lemma schedule_paths v issue :
  In issue (check scheduleSchema v) ->
  path issue = [] \/ path issue = [Key "type"] \/ path issue = [Key "days"]
  \/ (exists k, path issue = [Key "days"; Index k])
  \/ path issue = [Key "frequency"].
Proof.
  intros Hin.
  destruct v as [| | | | | |sfields];
    try (destruct Hin as [<- | []]; left; reflexivity).
  rewrite schedule_issues in Hin.
  apply in_app_or in Hin as [Hin | Hin]; [|apply in_app_or in Hin as [Hin | Hin]];
    unfold under in Hin; apply in_map_iff in Hin as (i & <- & Hi); cbn [path].
  - right. left.
    destruct (get "type" sfields) as [| | | |x| |]; cbn [check] in Hi;
      try (destruct Hi as [<- | []]; reflexivity).
    destruct (existsb (String.eqb x) ["weekly"; "daily"]);
      [destruct Hi | destruct Hi as [<- | []]; reflexivity].
  - destruct (get "days" sfields) as [| | | | |items|]; cbn [check] in Hi;
      try (destruct Hi as [<- | []]; right; right; left; reflexivity).
    apply item_paths in Hi as (k & ->). right. right. right. left.
    exists k. reflexivity.
  - right. right. right. right.
    destruct (get "frequency" sfields); cbn [check] in Hi;
      try (destruct Hi as [<- | []]; reflexivity).
    destruct Hi.
Qed.

Lemma under_nil k issues : under k issues = [] -> issues = [].
Proof. apply map_eq_nil. Qed.

Lemma items_are_numbers items :
  forall j, check_items (check z_number) j items = [] ->
            items = map JNum (map as_number items).
Proof.
  induction items as [|x items IH]; intros j Hok; [reflexivity|].
  cbn [check_items] in Hok. apply app_eq_nil in Hok as [Hx Hrest].
  apply under_nil in Hx. cbn [map]. rewrite <- (IH _ Hrest).
  destruct x; try discriminate Hx. reflexivity.
Qed.

(** What a body that fits the schema has as its schedule: one of the two
    type names, an array of numbers and a number. *)
Lemma passed_schedule body :
  check workoutSchema body = [] ->
  let schedule := prop "schedule" body in
  (prop "type" schedule = JStr "weekly" \/ prop "type" schedule = JStr "daily")
  /\ prop "type" schedule = JStr (as_string (prop "type" schedule))
  /\ prop "days" schedule
     = JArr (map JNum (map as_number (as_array (prop "days" schedule))))
  /\ prop "frequency" schedule = JNum (as_number (prop "frequency" schedule)).
Proof.
  intros Hok. cbv zeta.
  destruct body as [| | | | | |fields]; try discriminate Hok.
  rewrite workout_issues in Hok. cbn [prop].
  apply app_eq_nil in Hok as [_ Hok].
  apply app_eq_nil in Hok as [_ Hok].
  apply app_eq_nil in Hok as [_ Hok].
  apply under_nil in Hok.
  destruct (get "schedule" fields) as [| | | | | |sfields]; try discriminate Hok.
  rewrite schedule_issues in Hok. cbn [prop].
  apply app_eq_nil in Hok as [Htype Hok].
  apply app_eq_nil in Hok as [Hdays Hfreq].
  apply under_nil in Htype, Hdays, Hfreq.
  destruct (get "type" sfields) as [| | | |x| |]; try discriminate Htype.
  destruct (get "days" sfields) as [| | | | |items|]; try discriminate Hdays.
  destruct (get "frequency" sfields) as [| | |z| | |]; try discriminate Hfreq.
  cbn [check existsb] in Htype. cbn [check] in Hdays.
  cbn [as_string as_array as_number].
  rewrite <- (items_are_numbers items 0 Hdays).
  split; [|repeat split; reflexivity].
  destruct (String.eqb_spec x "weekly") as [Hw | _];
    [left; rewrite Hw; reflexivity|].
  destruct (String.eqb_spec x "daily") as [Hd | _];
    [right; rewrite Hd; reflexivity|].
  discriminate Htype.
Qed.

(** C8, as the code has it.  POST / answers 400 exactly when the body does
    not fit the schema, with the issues found by zod and without creating
    anything.  About the schedule of an object body the issues say this and
    no more: one at [schedule] when it is not an object; and for a
    schedule that is an object, one at [schedule.type] when the type is
    not the text 'weekly' or 'daily', one at [schedule.days] when the days
    are not an array, one at [schedule.days[k]] when the element [k] of
    the array is not a number, one at [schedule.frequency] when the
    frequency is not a number.  Nothing else is asked of the days: a body
    with any array of integers as days, be it empty, out of the range 0..6
    or with repetitions, for either type, and with numbers that the
    database takes, is accepted, and the days are stored as written by
    [join(',')]; and so is every body that fits the schema, with such
    numbers. *)
Theorem create_checks_schedule_against_schema_only env user db :
  (forall body,
      check workoutSchema body <> [] ->
      create env user body db = (ZodErrors (check workoutSchema body), db))
  /\ (forall body,
      status (fst (create env user body db)) = 400
      <-> check workoutSchema body <> [])
  /\ (forall fields,
      let found p := exists issue, In issue (check workoutSchema (JObj fields))
                                   /\ path issue = p in
      let schedule := get "schedule" fields in
      (found [Key "schedule"] <-> forall sfields, schedule <> JObj sfields)
      /\ (forall sfields,
          schedule = JObj sfields ->
          (found [Key "schedule"; Key "type"]
           <-> get "type" sfields <> JStr "weekly"
               /\ get "type" sfields <> JStr "daily")
          /\ (found [Key "schedule"; Key "days"]
              <-> forall items, get "days" sfields <> JArr items)
          /\ (forall k,
              found [Key "schedule"; Key "days"; Index k]
              <-> exists items x,
                    get "days" sfields = JArr items
                    /\ 0 <= k /\ nth_error items (Z.to_nat k) = Some x
                    /\ forall z, x <> JNum z)
          /\ (found [Key "schedule"; Key "frequency"]
              <-> forall z, get "frequency" sfields <> JNum z))
      /\ (forall issue rest,
          In issue (check workoutSchema (JObj fields)) ->
          path issue = Key "schedule" :: rest ->
          rest = [] \/ rest = [Key "type"] \/ rest = [Key "days"]
          \/ (exists k, rest = [Key "days"; Index k])
          \/ rest = [Key "frequency"]))
  /\ (forall name category inputs type_ ds freq,
      In category ["Push"; "Pull"; "Legs"; "Upper"; "Lower"] ->
      type_ = "weekly" \/ type_ = "daily" ->
      forallb Range.input_fits inputs = true ->
      forallb Range.safe_integer ds = true ->
      Range.fits_Int freq = true ->
      Range.room_for db (List.length inputs) = true ->
      exists view db',
        create env user (workout_json name category inputs type_ ds freq) db
        = (Json view, db')
        /\ workouts db' = workouts db ++ [workout view]
        /\ Workout.scheduleType (workout view) = type_
        /\ Workout.scheduleDays (workout view) = JS.join ds
        /\ Workout.frequency (workout view) = freq)
  /\ (forall body,
      check workoutSchema body = [] ->
      let schedule := prop "schedule" body in
      let ds := map as_number (as_array (prop "days" schedule)) in
      let inputs := map exercise_input (as_array (prop "exercises" body)) in
      forallb Range.input_fits inputs = true ->
      forallb Range.safe_integer ds = true ->
      Range.fits_Int (as_number (prop "frequency" schedule)) = true ->
      Range.room_for db (List.length inputs) = true ->
      exists view db',
        create env user body db = (Json view, db')
        /\ workouts db' = workouts db ++ [workout view]
        /\ (prop "type" schedule = JStr "weekly"
            \/ prop "type" schedule = JStr "daily")
        /\ prop "type" schedule = JStr (Workout.scheduleType (workout view))
        /\ prop "days" schedule = JArr (map JNum ds)
        /\ Workout.scheduleDays (workout view) = JS.join ds
        /\ prop "frequency" schedule = JNum (Workout.frequency (workout view))).
Proof.
  split; [|split; [|split; [|split]]].
  - intros body Hbad. unfold create, Zod.parse.
    destruct (check workoutSchema body); [congruence | reflexivity].
  - intros body. unfold create, Zod.parse.
    destruct (check workoutSchema body) as [|issue issues].
    + unfold try_catch, bind, workout_create, ret. cbn [fst status].
      split; [discriminate | congruence].
    + cbn [fst status]. split; [discriminate | reflexivity].
  - intros fields. cbv zeta. split; [|split].
    + rewrite <- reported_iff, reported_in_schedule.
      destruct (get "schedule" fields) as [| | | | | |sfields];
        try (cbn; split; [intros _ sfields; discriminate | reflexivity]).
      rewrite schedule_issues, !reported_app, !reported_under_root.
      split; [discriminate | intros H; exfalso; exact (H sfields eq_refl)].
    + intros sfields Hs.
      rewrite <- !reported_iff, !reported_in_schedule, Hs.
      split; [apply reported_type|].
      split; [apply reported_days|].
      split; [|apply reported_frequency].
      intros k. rewrite <- reported_iff, reported_in_schedule, Hs.
      apply reported_day.
    + intros issue rest Hin Hpath. rewrite workout_issues in Hin.
      apply in_app_or in Hin as [Hin | Hin];
        [|apply in_app_or in Hin as [Hin | Hin];
          [|apply in_app_or in Hin as [Hin | Hin]]];
        unfold under in Hin; apply in_map_iff in Hin as (i & <- & Hi);
        cbn [path] in Hpath; try discriminate Hpath.
      injection Hpath as <-. apply (schedule_paths _ _ Hi).
  - intros name category inputs type_ ds freq Hc Ht _ _ _ _. eexists. eexists.
    split; [apply (CreateMoreFacts.create_workout_json env user name category
                     inputs type_ ds freq db Hc Ht)|].
    repeat split; reflexivity.
  - intros body Hok. cbv zeta. intros _ _ _ _.
    destruct (passed_schedule body Hok) as (Htype & Hstored & Hdays & Hfreq).
    eexists. eexists. split.
    { unfold create, Zod.parse. rewrite Hok.
      unfold try_catch, bind, workout_create, ret. reflexivity. }
    cbn [workout parseWorkoutScheduleDays fst workouts Workout.scheduleType
         Workout.scheduleDays Workout.frequency].
    split; [reflexivity|]. split; [exact Htype|]. split; [exact Hstored|].
    split; [exact Hdays|]. split; [reflexivity | exact Hfreq].
Qed.

(** The theorem on a body whose days are the text 'monday', on one with
    days 7, 7, -1, and on one with its fields in another order and a
    field that the schema does not know. *)
Lemma create_checks_schedule_against_schema_only_witness :
  let env := Sample.server JSDate.Etc_UTC Sample.some_clock in
  let db := Sample.db_of [] [] [] in
  let schedule := [("type", JStr "weekly"); ("days", JStr "monday");
                   ("frequency", JNum 1)] in
  let body := JObj [("name", JStr "Push day"); ("category", JStr "Push");
                    ("exercises", JArr []); ("schedule", JObj schedule)] in
  create env 1 body db = (ZodErrors (check workoutSchema body), db)
  /\ ((exists issue, In issue (check workoutSchema body)
                     /\ path issue = [Key "schedule"; Key "days"])
      <-> forall items, get "days" schedule <> JArr items)
  /\ (exists view db',
        create env 1 (workout_json "Push day" "Push" [] "weekly" [7; 7; -1] 1) db
        = (Json view, db')
        /\ workouts db' = workouts db ++ [workout view]
        /\ Workout.scheduleType (workout view) = "weekly"
        /\ Workout.scheduleDays (workout view) = JS.join [7; 7; -1]
        /\ Workout.frequency (workout view) = 1)
  /\ (let daily := JObj [("frequency", JNum 2); ("days", JArr []);
                         ("type", JStr "daily"); ("colour", JStr "red")] in
      let other := JObj [("schedule", daily); ("exercises", JArr []);
                         ("category", JStr "Legs"); ("name", JStr "Leg day")] in
      exists view db',
        create env 1 other db = (Json view, db')
        /\ workouts db' = workouts db ++ [workout view]
        /\ (prop "type" daily = JStr "weekly" \/ prop "type" daily = JStr "daily")
        /\ prop "type" daily = JStr (Workout.scheduleType (workout view))
        /\ prop "days" daily = JArr (map JNum [])
        /\ Workout.scheduleDays (workout view) = JS.join []
        /\ prop "frequency" daily = JNum (Workout.frequency (workout view))).
Proof.
  cbv zeta.
  pose (env := Sample.server JSDate.Etc_UTC Sample.some_clock).
  pose (db := Sample.db_of [] [] []).
  pose (schedule := [("type", JStr "weekly"); ("days", JStr "monday");
                     ("frequency", JNum 1)]).
  pose (fields := [("name", JStr "Push day"); ("category", JStr "Push");
                   ("exercises", JArr []); ("schedule", JObj schedule)]).
  destruct (create_checks_schedule_against_schema_only env 1 db)
    as (Hreject & _ & Hissues & Haccept & Hfits).
  split; [|split; [|split]].
  - apply (Hreject (JObj fields)). vm_compute. discriminate.
  - destruct (Hissues fields) as (_ & Hschedule & _).
    destruct (Hschedule schedule eq_refl) as (_ & Hdays & _).
    exact Hdays.
  - apply Haccept.
    + cbn. tauto.
    + left. reflexivity.
    + reflexivity.
    + reflexivity.
    + reflexivity.
    + reflexivity.
  - apply (Hfits (JObj [("schedule",
                         JObj [("frequency", JNum 2); ("days", JArr []);
                               ("type", JStr "daily"); ("colour", JStr "red")]);
                        ("exercises", JArr []); ("category", JStr "Legs");
                        ("name", JStr "Leg day")])); reflexivity.
Defined.

End ValidationFacts.

(** ** What the reading handlers send, and what they leave alone *)

Module ReadFacts.
Import Json Zod Prisma WorkoutRouter WorkoutRouterMore.

(** GET / lists the workouts of the caller, all of them and no other, in
    table order, each with the exercises attached to it and with no
    exercise of another workout. *)
Theorem get_all_lists_own_workouts user db :
  exists views,
    get_all user db = (Json views, db)
    /\ map workout views
       = filter (fun w => Workout.userId w =? user) (workouts db)
    /\ forall v, In v views ->
         Workout.userId (workout v) = user
         /\ In (workout v) (workouts db)
         /\ forall e, In e (view_exercises v) <->
                      In e (exercises db)
                      /\ Exercise.workoutId e = Workout.id (workout v).
Proof.
  eexists. split; [reflexivity|]. split.
  - rewrite !map_map. cbn [workout parseWorkoutScheduleDays fst].
    apply map_id.
  - intros v Hv. apply in_map_iff in Hv as ([w es] & <- & Hin).
    apply in_map_iff in Hin as (w' & Heq & Hw). injection Heq as -> <-.
    apply filter_In in Hw as [Hw Hu]. apply Z.eqb_eq in Hu.
    cbn [workout view_exercises parseWorkoutScheduleDays fst snd].
    split; [exact Hu|]. split; [exact Hw|].
    intros e. unfold exercises_of. rewrite filter_In, Z.eqb_eq. reflexivity.
Qed.

Lemma between_reads user lo hi db :
  snd (workoutLog_findMany_between user lo hi db) = db.
Proof. destruct lo, hi; reflexivity. Qed.

(** No GET handler of the router writes to the database, whatever it is
    asked and whether it answers 200, 400 or 500. *)
Theorem get_handlers_never_write env user db :
  snd (get_all user db) = db
  /\ (forall date, snd (get_date env user date db) = db)
  /\ (forall date, snd (get_week env user date db) = db)
  /\ (forall date, snd (get_week_query env user date db) = db)
  /\ (forall id, snd (get_workout_logs user id db) = db)
  /\ (forall date, snd (get_logs env user date db) = db)
  /\ (forall date, snd (get_logs_for_date env user date db) = db).
Proof.
  split; [reflexivity|]. split.
  { intros date. unfold get_date, try_catch, bind, workout_findFirst.
    destruct (find _ (workouts db)); reflexivity. }
  split.
  { intros date. unfold get_week, try_catch.
    destruct (JSDate.dateRegex_test date); [|reflexivity]. cbn [negb].
    destruct (Date_parse env date); [|reflexivity].
    unfold bind. rewrite WeekFacts.week_loop_entries. reflexivity. }
  split; [reflexivity|]. split.
  { intros id. unfold get_workout_logs, try_catch, bind, workoutLog_findMany_of.
    destruct (JS.parseInt id); reflexivity. }
  split.
  { intros date. unfold get_logs, try_catch, bind.
    pose proof (between_reads user
                  (startOfDay env match date with
                                  | Some s => Date_parse env s
                                  | None => None
                                  end)
                  (endOfDay env (startOfDay env match date with
                                                | Some s => Date_parse env s
                                                | None => None
                                                end)) db) as H.
    destruct (workoutLog_findMany_between _ _ _ db) as [[e|logs] db'];
      cbn [snd] in *; exact H. }
  intros date. unfold get_logs_for_date, try_catch.
  destruct (JSDate.dateRegex_test date); [|reflexivity]. cbn [negb].
  unfold bind.
  pose proof (between_reads user (startOfDay env (Date_parse env date))
                (endOfDay env (startOfDay env (Date_parse env date))) db) as H.
  destruct (workoutLog_findMany_between _ _ _ db) as [[e|logs] db'];
    cbn [snd] in *; exact H.
Qed.

Lemma find_scheduled_own user dayOfWeek db w :
  find (scheduled_on user dayOfWeek) (workouts db) = Some w ->
  In w (workouts db) /\ Workout.userId w = user.
Proof.
  intros H. apply find_some in H as [Hin Hp]. split; [exact Hin|].
  unfold scheduled_on in Hp. apply andb_true_iff in Hp as [Hu _].
  apply Z.eqb_eq. exact Hu.
Qed.


(** Every entry of the week view, in any zone, is the Rest entry or is
    taken from one workout of the caller: its category and exercises, and
    its id unless the id is 0. *)
Theorem get_week_entries_rest_or_own_workout env user date db entries :
  fst (get_week env user date db) = Json entries ->
  forall e, In e entries ->
    (entry_id e = None /\ entry_category e = "Rest" /\ entry_exercises e = [])
    \/ exists w, In w (workouts db)
                 /\ Workout.userId w = user
                 /\ entry_exercises e = exercises_of db w
                 /\ (entry_category e = Workout.category w
                     \/ (Workout.category w = "" /\ entry_category e = "Rest"))
                 /\ (entry_id e = Some (Workout.id w)
                     \/ (Workout.id w = 0 /\ entry_id e = None)).
Proof.
  unfold get_week, try_catch.
  destruct (JSDate.dateRegex_test date); [|discriminate]. cbn [negb].
  destruct (Date_parse env date) as [t|]; [|discriminate].
  unfold bind. rewrite WeekFacts.week_loop_entries. cbn [fst ret app].
  intros Heq e He. injection Heq as <-.
  assert (Hk : exists k, e = week_entry env user (JSDate.setUTCHours t 0 0 0 0) db k).
  { cbn [In] in He.
    repeat (destruct He as [<- | He]; [eexists; reflexivity|]). destruct He. }
  destruct Hk as (k & ->). unfold week_entry.
  destruct (find _ (workouts db)) as [w|] eqn:Hfind.
  - right. apply find_scheduled_own in Hfind as [Hin Hu].
    exists w. split; [exact Hin|]. split; [exact Hu|].
    cbn [day_entry entry_exercises entry_category entry_id].
    split; [reflexivity|]. split.
    + destruct (String.eqb_spec (Workout.category w) ""); [right | left]; tauto.
    + destruct (Z.eqb_spec (Workout.id w) 0); [right | left]; tauto.
  - left. repeat split; reflexivity.
Qed.

(** The theorem on a week in which one workout of the caller is due. *)
Lemma get_week_entries_rest_or_own_workout_witness :
  let env := Sample.server JSDate.Etc_UTC Sample.some_clock in
  let w := Sample.a_workout 1 1 "weekly" "1" in
  let db := Sample.db_of [w; Sample.a_workout 2 2 "daily" ""] [] [] in
  Forall
    (fun e =>
       (entry_id e = None /\ entry_category e = "Rest" /\ entry_exercises e = [])
       \/ exists w', In w' (workouts db)
                     /\ Workout.userId w' = 1
                     /\ entry_exercises e = exercises_of db w'
                     /\ (entry_category e = Workout.category w'
                         \/ (Workout.category w' = "" /\ entry_category e = "Rest"))
                     /\ (entry_id e = Some (Workout.id w')
                         \/ (Workout.id w' = 0 /\ entry_id e = None)))
    [day_entry (Some (w, [])) "2024-03-11";
     day_entry None "2024-03-12"; day_entry None "2024-03-13";
     day_entry None "2024-03-14"; day_entry None "2024-03-15";
     day_entry None "2024-03-16"; day_entry None "2024-03-17"].
Proof.
  cbv zeta. apply Forall_forall.
  apply (get_week_entries_rest_or_own_workout
           (Sample.server JSDate.Etc_UTC Sample.some_clock) 1 "2024-03-11").
  vm_compute. reflexivity.
Defined.

End ReadFacts.

(** ** Matching a date, in any zone and when the date does not parse *)

Module MatchFacts.
Import Json Zod Prisma WorkoutRouter.




Lemma find_ext_in {A : Type} (p q : A -> bool) l :
  (forall x, In x l -> p x = q x) -> find p l = find q l.
Proof.
  intros H. induction l as [|a l IH]; [reflexivity|]. cbn [find].
  rewrite (H a) by (left; reflexivity).
  rewrite IH; [reflexivity|]. intros x Hx. apply H. right. exact Hx.
Qed.



(** For a workout of the caller whose stored days are weekdays, the
    [where] clause of both routes holds exactly when the workout is daily,
    or is weekly and the weekday of the date in the server's local time is
    one of its days.  This is so in every time zone. *)
Theorem scheduled_on_local_weekday zone user w ds t :
  Workout.userId w = user ->
  Workout.scheduleDays w = JS.join ds ->
  Forall (fun d => 0 <= d <= 6) ds ->
  scheduled_on user (JSDate.getDay zone (Some t)) w
  = (String.eqb (Workout.scheduleType w) "daily"
     || (String.eqb (Workout.scheduleType w) "weekly"
         && existsb (Z.eqb (JSDate.WeekDay (JSDate.LocalTime zone t))) ds)).
Proof.
  intros Hu Hd Hds. unfold scheduled_on.
  rewrite Hu, Z.eqb_refl, Hd. cbn [andb JSDate.getDay].
  pose proof (DateFacts.WeekDay_range (JSDate.LocalTime zone t)) as Hw.
  rewrite JSFacts.toString_digit by lia.
  rewrite JSFacts.includes_char, JSFacts.has_digit_join; [reflexivity | lia |].
  eapply Forall_impl; [|exact Hds]. cbv beta. intros; lia.
Qed.

(** The theorem in Berlin on the evening of 2024-06-30, a Sunday in UTC
    and already Monday there: a Monday workout matches. *)
Lemma scheduled_on_local_weekday_witness :
  let w := Sample.a_workout 1 1 "weekly" (JS.join [1; 3; 5]) in
  let t := JSDate.MakeDate (JSDate.MakeDay 2024 5 30) (JSDate.MakeTime 22 30 0 0) in
  JSDate.WeekDay t = 0
  /\ scheduled_on 1 (JSDate.getDay JSDate.Europe_Berlin_2024 (Some t)) w = true.
Proof.
  cbv zeta. split; [vm_compute; reflexivity|].
  rewrite (scheduled_on_local_weekday JSDate.Europe_Berlin_2024 1
             (Sample.a_workout 1 1 "weekly" (JS.join [1; 3; 5])) [1; 3; 5]).
  - vm_compute. reflexivity.
  - reflexivity.
  - reflexivity.
  - repeat constructor; lia.
Defined.

End MatchFacts.

(** ** The day resolution of the specification and GET /date/:date *)

Module ResolveFacts.
Import Json Prisma WorkoutRouter SpecDay.

Lemma numbers_of_Num ds :
  flat_map (fun n => match n with JS.Num z => [z] | JS.NaN => [] end)
           (map JS.Num ds) = ds.
Proof. induction ds as [|d ds IH]; [reflexivity|]. cbn. rewrite IH. reflexivity. Qed.

(** Days written by [join] are the days read back, the empty array
    included: its one piece is not a number. *)
Lemma stored_days_join w ds :
  Workout.scheduleDays w = JS.join ds -> stored_days w = ds.
Proof.
  intros Hd. unfold stored_days. rewrite Hd.
  destruct ds as [|d ds]; [reflexivity|].
  rewrite JSFacts.days_roundtrip_nonempty by discriminate.
  apply numbers_of_Num.
Qed.

(** C2 (not met by the code).  The claim returns the first workout of the
    user whose schedule matches the date.  On a server running in UTC,
    and for stored days that are weekdays, GET /date/:date does: its
    answer has the category and the exercises of [resolveDay].  Elsewhere
    the handler matches the weekday of the server's local time: three
    hours west of UTC, with a Friday workout (id 1) before a Thursday
    workout (id 2) in the table, the request for Friday 2024-03-15 is
    answered with the Thursday workout, which does not match the date,
    while the claim's resolution, and a server in UTC, return the Friday
    workout. *)
Theorem get_date_first_match_is_by_local_weekday :
  (forall env user date t db,
      tz env = JSDate.Etc_UTC ->
      Date_parse env date = Some t ->
      (forall w, In w (workouts db) -> Workout.userId w = user ->
                 exists ds, Workout.scheduleDays w = JS.join ds
                            /\ Forall (fun d => 0 <= d <= 6) ds) ->
      get_date env user date db
      = (Json {| day_date := date;
                 day_category := resolved_category (resolveDay user db t);
                 day_exercises := resolved_exercises (resolveDay user db t) |},
         db))
  /\ (let friday := "2024-03-15" in
      let fridays := Sample.a_workout 1 1 "weekly" (JS.join [5]) in
      let thursdays := MoreSamples.pull_workout 2 1 "weekly" (JS.join [4]) in
      let db := Sample.db_of [fridays; thursdays]
                  [Sample.bench 1 1; MoreSamples.row 2 2] [] in
      exists t,
        JSDate.Date_parse_iso friday = Some t
        /\ Spec.matches "weekly" (stored_days fridays) t = true
        /\ Spec.matches "weekly" (stored_days thursdays) t = false
        /\ resolveDay 1 db t
           = {| resolved_id := Some 1; resolved_category := "Push";
                resolved_exercises := [Sample.bench 1 1] |}
        /\ fst (get_date (Sample.server JSDate.America_Sao_Paulo Sample.some_clock)
                         1 friday db)
           = Json {| day_date := friday; day_category := "Pull";
                     day_exercises := [MoreSamples.row 2 2] |}
        /\ fst (get_date (Sample.server JSDate.Etc_UTC Sample.some_clock)
                         1 friday db)
           = Json {| day_date := friday; day_category := "Push";
                     day_exercises := [Sample.bench 1 1] |}).
Proof.
  split.
  - intros env user date t db Htz Hparse Hdays.
    unfold get_date, try_catch, bind, workout_findFirst, ret, resolveDay.
    rewrite Htz, Hparse.
    rewrite (MatchFacts.find_ext_in
               (scheduled_on user (JSDate.getDay JSDate.Etc_UTC (Some t)))
               (fun w => (Workout.userId w =? user)
                         && Spec.matches (Workout.scheduleType w)
                                         (stored_days w) t)).
    + destruct (find _ (workouts db)); reflexivity.
    + intros w Hw.
      destruct (Z.eqb_spec (Workout.userId w) user) as [Hu | Hu].
      * destruct (Hdays w Hw Hu) as (ds & Hjoin & Hrange).
        rewrite (ScheduleFacts.scheduled_on_utc_weekdays user w ds t Hu Hjoin Hrange).
        rewrite (stored_days_join w ds Hjoin). reflexivity.
      * unfold scheduled_on.
        destruct (Z.eqb_spec (Workout.userId w) user); [contradiction|].
        reflexivity.
  - cbv zeta. exists 1710460800000.
    split; [vm_compute; reflexivity|].
    split; [vm_compute; reflexivity|].
    split; [vm_compute; reflexivity|].
    split; [vm_compute; reflexivity|].
    split; vm_compute; reflexivity.
Qed.

(** The first part on a server in UTC with a Friday and a Thursday
    workout: the Friday one is returned for 2024-03-15. *)
Lemma get_date_first_match_is_by_local_weekday_witness :
  let env := Sample.server JSDate.Etc_UTC Sample.some_clock in
  let db := Sample.db_of [Sample.a_workout 1 1 "weekly" (JS.join [5]);
                          MoreSamples.pull_workout 2 1 "weekly" (JS.join [4])]
              [Sample.bench 1 1; MoreSamples.row 2 2] [] in
  get_date env 1 "2024-03-15" db
  = (Json {| day_date := "2024-03-15";
             day_category := resolved_category (resolveDay 1 db 1710460800000);
             day_exercises := resolved_exercises (resolveDay 1 db 1710460800000) |},
     db).
Proof.
  cbv zeta.
  apply (proj1 get_date_first_match_is_by_local_weekday
           (Sample.server JSDate.Etc_UTC Sample.some_clock) 1 "2024-03-15"
           1710460800000).
  - reflexivity.
  - vm_compute. reflexivity.
  - intros w [<- | [<- | []]] _.
    + exists [5]. split; [reflexivity|]. repeat constructor; lia.
    + exists [4]. split; [reflexivity|]. repeat constructor; lia.
Defined.

End ResolveFacts.

(** ** The answers of the week view *)

Module WeekMoreFacts.
Import Json Zod Prisma WorkoutRouter.

(** GET /week/:date answers 400 to a date that is not of the form
    YYYY-MM-DD, 400 with another message to one of that form that is not a
    date, and otherwise 200 with seven entries, whatever the zone and
    however many workouts there are.  The first answer is that of a
    request that reaches the route; the last is for a date from which a
    week can be counted. *)
Theorem get_week_answers env user date db :
  (Express.reaches_date_route date = true ->
   JSDate.dateRegex_test date = false ->
   get_week env user date db
   = (Error 400 "Invalid date format. Please use YYYY-MM-DD format.", db))
  /\ (JSDate.dateRegex_test date = true -> Date_parse env date = None ->
      get_week env user date db
      = (Error 400 "Invalid date. Please provide a valid date.", db))
  /\ (forall t,
      JSDate.dateRegex_test date = true -> Date_parse env date = Some t ->
      Range.week_in_range t = true ->
      exists entries,
        get_week env user date db = (Json entries, db)
        /\ List.length entries = 7%nat).
Proof.
  split; [|split].
  - intros _ Hre. unfold get_week, try_catch. rewrite Hre. reflexivity.
  - intros Hre Hp. unfold get_week, try_catch. rewrite Hre, Hp. reflexivity.
  - intros t Hre Hp _. eexists.
    split; [apply (WeekFacts.get_week_seven_entries env user date t db Hre Hp)|].
    reflexivity.
Qed.

(** The theorem on three requests to a server in Berlin. *)
Lemma get_week_answers_witness :
  let env := Sample.server JSDate.Europe_Berlin_2024 Sample.some_clock in
  let db := Sample.db_of [Sample.a_workout 1 1 "daily" ""] [] [] in
  get_week env 1 "15/03/2024" db
  = (Error 400 "Invalid date format. Please use YYYY-MM-DD format.", db)
  /\ get_week env 1 "2024-13-45" db
     = (Error 400 "Invalid date. Please provide a valid date.", db)
  /\ exists entries,
       get_week env 1 "2024-03-28" db = (Json entries, db)
       /\ List.length entries = 7%nat.
Proof.
  cbv zeta.
  pose (env := Sample.server JSDate.Europe_Berlin_2024 Sample.some_clock).
  pose (db := Sample.db_of [Sample.a_workout 1 1 "daily" ""] [] []).
  split; [|split].
  - apply (proj1 (get_week_answers env 1 "15/03/2024" db)); reflexivity.
  - apply (proj1 (proj2 (get_week_answers env 1 "2024-13-45" db)));
      vm_compute; reflexivity.
  - apply (proj2 (proj2 (get_week_answers env 1 "2024-03-28" db)) 1711584000000);
      vm_compute; reflexivity.
Defined.

(** In a zone whose offset from UTC never changes, and for a date from
    which a week can be counted, the seven entries of GET /week/:date are
    dated with the seven days from the start, in order, and each is
    resolved for the weekday of the server's local day at midnight UTC of
    its date. *)
Theorem get_week_dates_fixed_zone env off user date t db :
  tz env = JSDate.fixed_zone off ->
  JSDate.dateRegex_test date = true ->
  Date_parse env date = Some t ->
  Range.week_in_range t = true ->
  get_week env user date db
  = (Json (map (fun i =>
                  let day := JSDate.MakeDate (JSDate.Day t + i) 0 in
                  day_entry
                    (match find (scheduled_on user
                                   (JS.Num (JSDate.WeekDay (day + off))))
                                (workouts db) with
                     | Some w => Some (w, exercises_of db w)
                     | None => None
                     end)
                    (JSDate.toISODate day))
               [0; 1; 2; 3; 4; 5; 6]), db).
Proof.
  intros Htz Hre Hparse _.
  apply WeekFacts.get_week_fixed_zone; assumption.
Qed.

(** The week view of a server three hours west of UTC: the dates are the
    seven days from the start, and each is matched on the weekday of the
    evening before. *)
Lemma get_week_dates_fixed_zone_witness :
  let env := Sample.server JSDate.America_Sao_Paulo Sample.some_clock in
  let db := Sample.db_of [Sample.a_workout 1 1 "weekly" "1"] [] [] in
  get_week env 1 "2024-03-11" db
  = (Json (map (fun i =>
                  let day := JSDate.MakeDate (JSDate.Day 1710115200000 + i) 0 in
                  day_entry
                    (match find (scheduled_on 1
                                   (JS.Num (JSDate.WeekDay
                                              (day + -3 * JSDate.msPerHour))))
                                (workouts db) with
                     | Some w => Some (w, exercises_of db w)
                     | None => None
                     end)
                    (JSDate.toISODate day))
               [0; 1; 2; 3; 4; 5; 6]), db).
Proof.
  cbv zeta.
  apply (get_week_dates_fixed_zone
           (Sample.server JSDate.America_Sao_Paulo Sample.some_clock)
           (-3 * JSDate.msPerHour) 1 "2024-03-11" 1710115200000).
  - reflexivity.
  - reflexivity.
  - vm_compute. reflexivity.
  - reflexivity.
Defined.

End WeekMoreFacts.

(** ** Looking logs up *)

Module LogLookupMoreFacts.
Import Json Zod Prisma WorkoutRouter WorkoutRouterMore.

Lemma insert_desc_sorted l sorted :
  StronglySorted (fun a b => WorkoutLog.date b <= WorkoutLog.date a) sorted ->
  StronglySorted (fun a b => WorkoutLog.date b <= WorkoutLog.date a)
                 (insert_desc l sorted).
Proof.
  intros Hs. induction Hs as [|x rest Hs IH Hx]; cbn [insert_desc].
  - repeat constructor.
  - destruct (WorkoutLog.date x <? WorkoutLog.date l) eqn:Hlt.
    + apply Z.ltb_lt in Hlt. constructor; [constructor; assumption|].
      constructor; [lia|].
      eapply Forall_impl; [|exact Hx]. cbv beta. intros; lia.
    + apply Z.ltb_ge in Hlt. constructor; [exact IH|].
      rewrite Forall_forall in *. intros y Hy.
      apply (Permutation_in _ (Permutation_sym
                                 (LogLookupFacts.insert_desc_perm l rest))) in Hy.
      destruct Hy as [<- | Hy]; [exact Hlt | apply Hx, Hy].
Qed.

Lemma orderBy_date_desc_sorted ls :
  StronglySorted (fun a b => WorkoutLog.date b <= WorkoutLog.date a)
                 (orderBy_date_desc ls).
Proof.
  induction ls as [|l ls IH]; [constructor|].
  cbn [orderBy_date_desc fold_right]. apply insert_desc_sorted. exact IH.
Qed.



(** GET /logs/:date, for a date that parses: the logs of the caller
    inside the window, each once, from the newest to the oldest, each
    with the name and category of its workout when the workout exists. *)
Theorem get_logs_for_date_answer env user date t db :
  JSDate.dateRegex_test date = true ->
  Date_parse env date = Some t ->
  let lo := JSDate.setHours (tz env) t 0 0 0 0 in
  let hi := JSDate.setHours (tz env) lo 23 59 59 999 in
  exists found,
    get_logs_for_date env user date db = (Json found, db)
    /\ Permutation (map fst found)
         (filter (fun l => (WorkoutLog.userId l =? user)
                           && (lo <=? WorkoutLog.date l)
                           && (WorkoutLog.date l <=? hi)) (workoutLogs db))
    /\ StronglySorted (fun a b => WorkoutLog.date b <= WorkoutLog.date a)
                      (map fst found)
    /\ forall l p, In (l, p) found ->
         p = workout_projection db l
         /\ forall w, In w (workouts db) -> Workout.id w = WorkoutLog.workoutId l ->
                      exists w', p = Some (Workout.name w', Workout.category w')
                                 /\ Workout.id w' = WorkoutLog.workoutId l.
Proof.
  intros Hre Hparse. cbv zeta.
  unfold get_logs_for_date, try_catch. rewrite Hre, Hparse. cbn [negb].
  unfold startOfDay, endOfDay, workoutLog_findMany_between. cbn [date_arg].
  unfold bind, ret.
  eexists. split; [reflexivity|].
  rewrite map_map. cbn [fst]. rewrite map_id.
  split; [apply Permutation_sym, LogLookupFacts.orderBy_date_desc_perm|].
  split; [apply orderBy_date_desc_sorted|].
  intros l p Hin. apply in_map_iff in Hin as (l' & Heq & _).
  injection Heq as -> <-. split; [reflexivity|].
  intros w Hw Hid. unfold workout_projection.
  destruct (find _ (workouts db)) as [w'|] eqn:Hfind.
  - exists w'. split; [reflexivity|].
    apply find_some in Hfind as [_ Hp]. apply Z.eqb_eq. exact Hp.
  - exfalso. apply (find_none _ _ Hfind) in Hw.
    rewrite Hid, Z.eqb_refl in Hw. discriminate.
Qed.

(** The theorem on the three logs of a day and its neighbours, in UTC. *)
Lemma get_logs_for_date_answer_witness :
  let env := Sample.server JSDate.Etc_UTC Sample.some_clock in
  let db := Sample.db_of [Sample.a_workout 1 1 "daily" ""] []
              [Sample.a_log 1 1 1 1710460799999; Sample.a_log 2 1 1 1710460800000;
               Sample.a_log 3 1 1 1710547199999; Sample.a_log 4 1 1 1710547200000] in
  exists found,
    get_logs_for_date env 1 "2024-03-15" db = (Json found, db)
    /\ Permutation (map fst found)
         (filter (fun l => (WorkoutLog.userId l =? 1)
                           && (1710460800000 <=? WorkoutLog.date l)
                           && (WorkoutLog.date l <=? 1710547199999))
                 (workoutLogs db))
    /\ StronglySorted (fun a b => WorkoutLog.date b <= WorkoutLog.date a)
                      (map fst found)
    /\ forall l p, In (l, p) found ->
         p = workout_projection db l
         /\ forall w, In w (workouts db) -> Workout.id w = WorkoutLog.workoutId l ->
                      exists w', p = Some (Workout.name w', Workout.category w')
                                 /\ Workout.id w' = WorkoutLog.workoutId l.
Proof.
  cbv zeta.
  apply (get_logs_for_date_answer
           (Sample.server JSDate.Etc_UTC Sample.some_clock) 1 "2024-03-15"
           1710460800000).
  - reflexivity.
  - vm_compute. reflexivity.
Defined.

(** GET /logs?date= and GET /logs/:date select the same logs for a date of
    the form YYYY-MM-DD: the second only sorts them and adds the workout. *)
Theorem get_logs_same_logs_as_for_date env user date db :
  JSDate.dateRegex_test date = true ->
  (exists logs found,
     get_logs env user (Some date) db = (Json logs, db)
     /\ get_logs_for_date env user date db = (Json found, db)
     /\ Permutation logs (map fst found))
  \/ (Date_parse env date = None
      /\ get_logs env user (Some date) db
         = (Error 500 "Failed to fetch workout logs", db)
      /\ get_logs_for_date env user date db
         = (Error 500 "Failed to fetch workout logs", db)).
Proof.
  intros Hre. unfold get_logs, get_logs_for_date, try_catch.
  rewrite Hre. cbn [negb].
  destruct (Date_parse env date) as [t|] eqn:Hparse.
  - left. unfold startOfDay, endOfDay, workoutLog_findMany_between.
    cbn [date_arg]. unfold bind, ret.
    eexists. eexists. split; [reflexivity|]. split; [reflexivity|].
    rewrite map_map. cbn [fst]. rewrite map_id.
    apply LogLookupFacts.orderBy_date_desc_perm.
  - right. split; [reflexivity|]. split; reflexivity.
Qed.

(** The theorem on a date and on a string of digits that is none. *)
Lemma get_logs_same_logs_as_for_date_witness :
  let env := Sample.server JSDate.America_Sao_Paulo Sample.some_clock in
  let db := Sample.db_of [Sample.a_workout 1 1 "daily" ""] []
              [Sample.a_log 1 1 1 1710428400000; Sample.a_log 2 1 1 1710514800000] in
  ((exists logs found,
      get_logs env 1 (Some "2024-03-15") db = (Json logs, db)
      /\ get_logs_for_date env 1 "2024-03-15" db = (Json found, db)
      /\ Permutation logs (map fst found))
   \/ (Date_parse env "2024-03-15" = None
       /\ get_logs env 1 (Some "2024-03-15") db
          = (Error 500 "Failed to fetch workout logs", db)
       /\ get_logs_for_date env 1 "2024-03-15" db
          = (Error 500 "Failed to fetch workout logs", db)))
  /\ ((exists logs found,
         get_logs env 1 (Some "2024-13-45") db = (Json logs, db)
         /\ get_logs_for_date env 1 "2024-13-45" db = (Json found, db)
         /\ Permutation logs (map fst found))
      \/ (Date_parse env "2024-13-45" = None
          /\ get_logs env 1 (Some "2024-13-45") db
             = (Error 500 "Failed to fetch workout logs", db)
          /\ get_logs_for_date env 1 "2024-13-45" db
             = (Error 500 "Failed to fetch workout logs", db))).
Proof.
  cbv zeta. split; apply get_logs_same_logs_as_for_date; reflexivity.
Defined.

(** The log lookups on a date that cannot be used.  GET /logs/:date,
    when the request reaches the route, sends 400 for a string not of the
    form YYYY-MM-DD, and 500 for one of that form that is not a date; GET
    /logs sends 500 for any string that is not a date and when the query
    has no date at all. *)
Theorem log_lookups_on_bad_dates env user db :
  (forall date,
     Express.reaches_date_route date = true ->
     JSDate.dateRegex_test date = false ->
     get_logs_for_date env user date db
     = (Error 400 "Invalid date format. Please use YYYY-MM-DD format.", db))
  /\ (forall date, JSDate.dateRegex_test date = true ->
        Date_parse env date = None ->
        get_logs_for_date env user date db
        = (Error 500 "Failed to fetch workout logs", db))
  /\ (forall date, Date_parse env date = None ->
        get_logs env user (Some date) db
        = (Error 500 "Failed to fetch workout logs", db))
  /\ get_logs env user None db = (Error 500 "Failed to fetch workout logs", db).
Proof.
  split; [|split; [|split]].
  - intros date _ Hre. unfold get_logs_for_date, try_catch. rewrite Hre. reflexivity.
  - intros date Hre Hp. unfold get_logs_for_date, try_catch.
    rewrite Hre, Hp. reflexivity.
  - intros date Hp. unfold get_logs, try_catch. rewrite Hp. reflexivity.
  - reflexivity.
Qed.

(** The theorem on three strings that are not dates. *)
Lemma log_lookups_on_bad_dates_witness :
  let env := Sample.server JSDate.Etc_UTC Sample.some_clock in
  let db := Sample.db_of [] [] [Sample.a_log 1 1 1 1710460800000] in
  get_logs_for_date env 1 "15-03-2024" db
  = (Error 400 "Invalid date format. Please use YYYY-MM-DD format.", db)
  /\ get_logs_for_date env 1 "2024-13-45" db
     = (Error 500 "Failed to fetch workout logs", db)
  /\ get_logs env 1 (Some "yesterday") db
     = (Error 500 "Failed to fetch workout logs", db).
Proof.
  cbv zeta.
  destruct (log_lookups_on_bad_dates
              (Sample.server JSDate.Etc_UTC Sample.some_clock) 1
              (Sample.db_of [] [] [Sample.a_log 1 1 1 1710460800000]))
    as (Hformat & Hdate & Hquery & _).
  split; [|split].
  - apply Hformat; reflexivity.
  - apply Hdate; reflexivity.
  - apply Hquery. reflexivity.
Defined.

(** The window in two zones with a fixed offset: five and a half hours
    east of UTC it is the local day of the date, three hours west of UTC
    the local day before. *)
Lemma day_window_fixed_zone_witness :
  let east := Sample.server (JSDate.fixed_zone 19800000) Sample.some_clock in
  let west := Sample.server JSDate.America_Sao_Paulo Sample.some_clock in
  let d := JSDate.MakeDay 2024 2 15 in
  (startOfDay east (Some (JSDate.MakeDate d 0))
   = Some (JSDate.MakeDate d 0 - 19800000)
   /\ endOfDay east (startOfDay east (Some (JSDate.MakeDate d 0)))
      = Some (JSDate.MakeDate (d + 1) 0 - 19800000 - 1))
  /\ (startOfDay west (Some (JSDate.MakeDate d 0))
      = Some (JSDate.MakeDate (d - 1) 0 - -3 * JSDate.msPerHour)
      /\ endOfDay west (startOfDay west (Some (JSDate.MakeDate d 0)))
         = Some (JSDate.MakeDate d 0 - -3 * JSDate.msPerHour - 1)).
Proof.
  cbv zeta. split.
  - apply (proj1 (LogLookupFacts.day_window_fixed_zone
                    (Sample.server (JSDate.fixed_zone 19800000) Sample.some_clock)
                    19800000 (JSDate.MakeDay 2024 2 15) eq_refl)).
    vm_compute. split; [discriminate | reflexivity].
  - apply (proj2 (LogLookupFacts.day_window_fixed_zone
                    (Sample.server JSDate.America_Sao_Paulo Sample.some_clock)
                    (-3 * JSDate.msPerHour) (JSDate.MakeDay 2024 2 15) eq_refl)).
    vm_compute. split; [discriminate | reflexivity].
Defined.

End LogLookupMoreFacts.

(** ** Logging a session and finding it again *)

Module LogRoundTripFacts.
Import Json Zod Prisma WorkoutRouter WorkoutRouterMore.

(** In a zone with a fixed offset, an instant lies in the window cut
    around it. *)
Lemma window_contains off t :
  let lo := JSDate.setHours (JSDate.fixed_zone off) t 0 0 0 0 in
  let hi := JSDate.setHours (JSDate.fixed_zone off) lo 23 59 59 999 in
  lo <= t <= hi.
Proof.
  cbv zeta. rewrite !DateFacts.setHours_fixed_zone.
  replace (JSDate.MakeDate (JSDate.Day (t + off)) (JSDate.MakeTime 0 0 0 0)
           - off + off)
    with (JSDate.MakeDate (JSDate.Day (t + off)) 0)
    by (unfold JSDate.MakeDate, JSDate.MakeTime; lia).
  rewrite DateFacts.Day_MakeDate.
  unfold JSDate.MakeDate, JSDate.MakeTime, JSDate.Day, JSDate.msPerDay,
    JSDate.msPerHour, JSDate.msPerMinute, JSDate.msPerSecond.
  pose proof (Z.div_mod (t + off) 86400000).
  pose proof (Z.mod_pos_bound (t + off) 86400000). lia.
Qed.

Lemma regex_nonempty date : JSDate.dateRegex_test date = true -> date <> "".
Proof. intros H ->. discriminate H. Qed.

(** A session logged through POST /logs under a date of the form
    YYYY-MM-DD is stored at the instant that date parses to, and GET
    /logs/:date with the same string returns it, in any zone with a fixed
    offset from UTC. *)
Theorem logged_session_found_under_its_date env off user date t results wid db :
  tz env = JSDate.fixed_zone off ->
  JSDate.dateRegex_test date = true ->
  Date_parse env date = Some t ->
  truthy results = true ->
  wid <> 0 ->
  workout_exists db wid = true ->
  exists row db' found,
    log_workout env user (log_json date results wid) db = (Json row, db')
    /\ WorkoutLog.date row = t
    /\ WorkoutLog.userId row = user
    /\ WorkoutLog.workoutId row = wid
    /\ WorkoutLog.exercises row = results
    /\ get_logs_for_date env user date db' = (Json found, db')
    /\ In row (map fst found).
Proof.
  intros Htz Hre Hparse Hres Hwid Hex.
  destruct (LogFacts.truthy_defined _ Hres) as [Hu Hn].
  assert (Hlog : log_workout env user (log_json date results wid) db
                 = (Json {| WorkoutLog.id := seq_workoutLog db + 1;
                            WorkoutLog.userId := user;
                            WorkoutLog.workoutId := wid;
                            WorkoutLog.date := t;
                            WorkoutLog.exercises := results |},
                    with_workoutLog db
                      {| WorkoutLog.id := seq_workoutLog db + 1;
                         WorkoutLog.userId := user;
                         WorkoutLog.workoutId := wid;
                         WorkoutLog.date := t;
                         WorkoutLog.exercises := results |})).
  { unfold log_workout, try_catch, log_json.
    cbn [destructurable prop get fold_left fst snd String.eqb Ascii.eqb Bool.eqb
         truthy].
    rewrite Hres.
    destruct (String.eqb_spec date ""); [exfalso; eapply regex_nonempty; eassumption|].
    destruct (Z.eqb_spec wid 0); [contradiction|]. cbn [negb orb].
    unfold Json.parseInt. cbn [ToString new_Date].
    rewrite JSFacts.parseInt_toString, Hparse. unfold bind at 1.
    rewrite (LogFacts.workoutLog_create_ok user wid t results db Hu Hn Hex).
    reflexivity. }
  eexists. eexists. eexists. split; [exact Hlog|].
  repeat (split; [reflexivity|]).
  unfold get_logs_for_date, try_catch. rewrite Hre, Hparse. cbn [negb].
  unfold startOfDay, endOfDay, workoutLog_findMany_between. cbn [date_arg].
  unfold bind, ret. split; [reflexivity|].
  rewrite map_map. cbn [fst]. rewrite map_id.
  apply (Permutation_in _ (LogLookupFacts.orderBy_date_desc_perm _)).
  apply filter_In. split.
  - cbn [with_workoutLog workoutLogs]. apply in_or_app. right. left. reflexivity.
  - cbn [WorkoutLog.userId WorkoutLog.date]. rewrite Htz.
    pose proof (window_contains off t) as Hw. cbv zeta in Hw.
    rewrite Z.eqb_refl. cbn [andb].
    apply andb_true_iff. split; apply Z.leb_le; lia.
Qed.

(** The theorem on a server three hours west of UTC. *)
Lemma logged_session_found_under_its_date_witness :
  let env := Sample.server JSDate.America_Sao_Paulo Sample.some_clock in
  let db := Sample.db_of [Sample.a_workout 1 1 "daily" ""] [] [] in
  exists row db' found,
    log_workout env 1 (log_json "2024-03-15" Sample.bench_result 1) db
    = (Json row, db')
    /\ WorkoutLog.date row = 1710460800000
    /\ WorkoutLog.userId row = 1
    /\ WorkoutLog.workoutId row = 1
    /\ WorkoutLog.exercises row = Sample.bench_result
    /\ get_logs_for_date env 1 "2024-03-15" db' = (Json found, db')
    /\ In row (map fst found).
Proof.
  cbv zeta.
  apply (logged_session_found_under_its_date
           (Sample.server JSDate.America_Sao_Paulo Sample.some_clock)
           (-3 * JSDate.msPerHour) 1 "2024-03-15" 1710460800000
           Sample.bench_result 1).
  - reflexivity.
  - reflexivity.
  - vm_compute. reflexivity.
  - reflexivity.
  - discriminate.
  - reflexivity.
Defined.

End LogRoundTripFacts.

(** ** Deleting, and the order of the table under every write *)

Module DeleteMoreFacts.
Import Json Zod Prisma WorkoutRouter.

(** DELETE /:id of workouts.ts on a workout that no log refers to: its
    exercises and the workout itself are removed and nothing else is,
    whoever the caller is. *)
Theorem delete_without_logs user id wid db :
  JS.parseInt id = JS.Num wid ->
  workout_exists db wid = true ->
  existsb (fun l => WorkoutLog.workoutId l =? wid) (workoutLogs db) = false ->
  WorkoutRouter.delete user id db
  = (Json "Workout deleted successfully",
     {| workouts := filter (fun w => negb (Workout.id w =? wid)) (workouts db);
        exercises := filter (fun e => negb (Exercise.workoutId e =? wid))
                            (exercises db);
        workoutLogs := workoutLogs db;
        seq_workout := seq_workout db;
        seq_exercise := seq_exercise db;
        seq_workoutLog := seq_workoutLog db |}).
Proof.
  intros Hid Hex Hlogs.
  unfold WorkoutRouter.delete, try_catch, bind, exercise_deleteMany,
    workout_delete. rewrite Hid. cbn [int_arg].
  unfold bind, ret, workout_exists, referenced in *.
  cbn [workouts exercises workoutLogs].
  rewrite Hex, Hlogs.
  rewrite (DeleteFacts.existsb_filter_negb (fun e => Exercise.workoutId e =? wid)).
  reflexivity.
Qed.

(** The theorem on a workout of user 1 deleted by user 2. *)
Lemma delete_without_logs_witness :
  let keep := Sample.a_workout 2 1 "daily" "" in
  let db := Sample.db_of [Sample.a_workout 1 1 "daily" ""; keep]
              [Sample.bench 1 1; Sample.bench 2 2] [Sample.a_log 1 1 2 0] in
  WorkoutRouter.delete 2 "1" db
  = (Json "Workout deleted successfully",
     {| workouts := [keep]; exercises := [Sample.bench 2 2];
        workoutLogs := [Sample.a_log 1 1 2 0];
        seq_workout := 2; seq_exercise := 2; seq_workoutLog := 1 |}).
Proof.
  cbv zeta.
  refine (delete_without_logs 2 "1" 1
            (Sample.db_of [Sample.a_workout 1 1 "daily" ""; Sample.a_workout 2 1 "daily" ""]
               [Sample.bench 1 1; Sample.bench 2 2] [Sample.a_log 1 1 2 0]) _ _ _);
    reflexivity.
Defined.

(** The handler of workouts.ts on a workout with one log. *)
Lemma delete_stops_after_exercises_witness :
  let w := Sample.a_workout 1 1 "daily" "" in
  let l := Sample.a_log 1 1 1 0 in
  let db := Sample.db_of [w] [Sample.bench 1 1; Sample.bench 2 1] [l] in
  WorkoutRouter.delete 1 "1" db
  = (Error 500 "Failed to delete workout",
     {| workouts := [w]; exercises := []; workoutLogs := [l];
        seq_workout := 1; seq_exercise := 2; seq_workoutLog := 1 |}).
Proof.
  cbv zeta.
  refine (DeleteFacts.delete_stops_after_exercises 1 "1" 1
            (Sample.db_of [Sample.a_workout 1 1 "daily" ""]
               [Sample.bench 1 1; Sample.bench 2 1] [Sample.a_log 1 1 1 0]) _ _ _);
    reflexivity.
Defined.

(** DELETE /:id of the second router, for an id that reads as an integer
    that fits an Int, answers 404 and changes nothing when the caller has
    no workout with that id, be it absent or owned by somebody else. *)
Theorem tx_delete_not_own_workout user id wid db :
  JS.parseInt id = JS.Num wid ->
  Range.fits_Int wid = true ->
  (forall w, In w (workouts db) -> Workout.id w = wid -> Workout.userId w <> user) ->
  WorkoutRouterTx.delete user id db = (Error 404 "Workout not found", db).
Proof.
  intros Hid _ Hnot.
  unfold WorkoutRouterTx.delete, try_catch, WorkoutRouterTx.owned_workout.
  rewrite Hid. cbn [int_arg]. unfold bind, ret.
  rewrite ScheduleFacts.find_none_match; [reflexivity|].
  intros w Hw.
  destruct (Z.eqb_spec (Workout.id w) wid) as [Hi | _]; [|reflexivity].
  destruct (Z.eqb_spec (Workout.userId w) user) as [Hu | _]; [|reflexivity].
  exfalso. exact (Hnot w Hw Hi Hu).
Qed.

(** The theorem on a workout of user 1 asked for by user 2. *)
Lemma tx_delete_not_own_workout_witness :
  let db := Sample.db_of [Sample.a_workout 1 1 "daily" ""] [Sample.bench 1 1] [] in
  WorkoutRouterTx.delete 2 "1" db = (Error 404 "Workout not found", db).
Proof.
  cbv zeta. apply (tx_delete_not_own_workout 2 "1" 1).
  - reflexivity.
  - reflexivity.
  - intros w [<- | []] _. discriminate.
Defined.

Lemma create_log_keeps_workouts user n d e db :
  workouts (snd (workoutLog_create user n d e db)) = workouts db
  /\ seq_workout (snd (workoutLog_create user n d e db)) = seq_workout db.
Proof.
  unfold workoutLog_create, bind, ret, throw.
  destruct n as [|wid], d as [t|], e; cbn; try tauto;
    destruct (workout_exists db wid); cbn; tauto.
Qed.

Lemma ids_ascending_same_workouts db db' :
  workouts db' = workouts db -> seq_workout db' = seq_workout db ->
  ids_ascending db -> ids_ascending db'.
Proof. unfold ids_ascending. intros -> ->. tauto. Qed.

(** Every handler that writes keeps the workout table in ascending id
    order with no id above the counter, whatever the request and whether
    it succeeds: creating, both ways of deleting, and both ways of
    logging. *)
Theorem writes_keep_ids_ascending env user db :
  ids_ascending db ->
  (forall body, ids_ascending (snd (create env user body db)))
  /\ (forall id, ids_ascending (snd (WorkoutRouter.delete user id db)))
  /\ (forall id, ids_ascending (snd (WorkoutRouterTx.delete user id db)))
  /\ (forall id body, ids_ascending (snd (log_session env user id body db)))
  /\ (forall body, ids_ascending (snd (log_workout env user body db))).
Proof.
  intros Hdb. split; [|split; [|split; [|split]]].
  - intros body. unfold create.
    destruct (Zod.parse workoutSchema body) as [issues | data]; [exact Hdb|].
    unfold try_catch, bind, ret.
    match goal with
    | |- context [workout_create ?a ?b ?c ?d ?e ?f ?g ?h db] =>
        pose proof (TableFacts.ids_ascending_create a b c d e f g h db Hdb) as H;
        destruct (workout_create a b c d e f g h db) as [[err | w] db']
    end; exact H.
  - intros id. unfold WorkoutRouter.delete, try_catch, bind.
    destruct (JS.parseInt id) as [|wid]; [exact Hdb|].
    unfold exercise_deleteMany. cbn [int_arg]. unfold bind, ret.
    match goal with
    | |- context [workout_delete ?n ?d] =>
        assert (Hd : ids_ascending d)
          by (apply (ids_ascending_same_workouts db); [reflexivity | reflexivity | exact Hdb]);
        pose proof (TableFacts.ids_ascending_delete n d Hd) as H;
        destruct (workout_delete n d) as [[err | u] db']
    end; exact H.
  - intros id.
    unfold WorkoutRouterTx.delete, try_catch, WorkoutRouterTx.owned_workout.
    destruct (JS.parseInt id) as [|wid]; [exact Hdb|].
    cbn [int_arg]. unfold bind, ret.
    destruct (find (fun w => (Workout.id w =? wid) && (Workout.userId w =? user))
                   (workouts db)) as [w|] eqn:Hfind; [|exact Hdb].
    assert (Hex : workout_exists db wid = true).
    { eapply DeleteFacts.find_exists; [exact Hfind|]. intros y Hy.
      apply andb_true_iff in Hy. tauto. }
    pose proof (DeleteFacts.transaction_delete wid db Hex) as Htx.
    unfold bind, ret in Htx. rewrite Htx.
    destruct Hdb as [Hs Hb]. unfold ids_ascending.
    cbn [snd workouts seq_workout]. split.
    + apply TableFacts.sorted_filter, Hs.
    + rewrite Forall_forall in *. intros x Hx. apply Hb.
      apply filter_In in Hx. tauto.
  - intros id body. unfold log_session, try_catch.
    destruct (destructurable body); [|exact Hdb]. unfold bind at 1.
    pose proof (create_log_keeps_workouts user (JS.parseInt id) (Some (now env))
                  (prop "exercises" body) db) as H.
    destruct (workoutLog_create _ _ _ _ db) as [[err | row] db'];
      cbn [snd ret] in *;
      apply (ids_ascending_same_workouts db); tauto.
  - intros body. unfold log_workout, try_catch.
    destruct (destructurable body); [|exact Hdb].
    destruct (negb (truthy (prop "date" body))
              || negb (truthy (prop "exercises" body))
              || negb (truthy (prop "workoutId" body))); [exact Hdb|].
    unfold bind at 1.
    pose proof (create_log_keeps_workouts user
                  (Json.parseInt (prop "workoutId" body))
                  (new_Date (Date_parse env) (prop "date" body))
                  (prop "exercises" body) db) as H.
    destruct (workoutLog_create _ _ _ _ db) as [[err | row] db'];
      cbn [snd ret] in *;
      apply (ids_ascending_same_workouts db); tauto.
Qed.

(** The theorem on a table of two workouts. *)
Lemma writes_keep_ids_ascending_witness :
  let env := Sample.server JSDate.Etc_UTC Sample.some_clock in
  let db := Sample.db_of [Sample.a_workout 1 1 "daily" ""; Sample.a_workout 2 1 "weekly" "1"]
              [] [] in
  ids_ascending (snd (create env 1 (Sample.workout_body "daily" []) db))
  /\ ids_ascending (snd (WorkoutRouter.delete 1 "1" db)).
Proof.
  cbv zeta.
  assert (Hdb : ids_ascending
                  (Sample.db_of [Sample.a_workout 1 1 "daily" "";
                                 Sample.a_workout 2 1 "weekly" "1"] [] [])).
  { split; repeat constructor; cbn; lia. }
  destruct (writes_keep_ids_ascending
              (Sample.server JSDate.Etc_UTC Sample.some_clock) 1 _ Hdb)
    as (Hcreate & Hdelete & _).
  split; [apply Hcreate | apply Hdelete].
Defined.

End DeleteMoreFacts.

(** ** Updating and deleting an exercise *)

Module ExerciseFacts.
Import Json Zod Prisma ExerciseRouter.

Lemma unique_id es e e' :
  NoDup (map Exercise.id es) -> In e es -> In e' es ->
  Exercise.id e = Exercise.id e' -> e = e'.
Proof.
  induction es as [|a es IH]; intros Hnd He He' Hid; [destruct He|].
  cbn [map] in Hnd. inversion Hnd as [|? ? Hnotin Hnd']; subst.
  destruct He as [<- | He], He' as [<- | He']; try reflexivity.
  - exfalso. apply Hnotin. rewrite Hid. apply in_map. exact He'.
  - exfalso. apply Hnotin. rewrite <- Hid. apply in_map. exact He.
  - apply IH; assumption.
Qed.

Lemma owned_is_first_with_id user n e db :
  NoDup (map Exercise.id (exercises db)) ->
  find (fun x => (Exercise.id x =? n) && owned_by db user x) (exercises db) = Some e ->
  find (fun x => Exercise.id x =? n) (exercises db) = Some e
  /\ In e (exercises db) /\ Exercise.id e = n.
Proof.
  intros Hnd Hfind. apply find_some in Hfind as [Hin Hp].
  apply andb_true_iff in Hp as [Hid _]. apply Z.eqb_eq in Hid.
  split; [|split; assumption].
  destruct (find (fun x => Exercise.id x =? n) (exercises db)) as [e'|] eqn:Hf.
  - apply find_some in Hf as [Hin' Hid']. apply Z.eqb_eq in Hid'.
    f_equal. apply (unique_id (exercises db)); try assumption. lia.
  - apply (find_none _ _ Hf) in Hin. rewrite Hid, Z.eqb_refl in Hin. discriminate.
Qed.

(** A body that fits the schema has a string as name and numbers as
    sets, reps and weight. *)
Lemma body_fields body :
  check exerciseSchema body = [] ->
  exists name sets reps weight,
    prop "name" body = JStr name /\ prop "sets" body = JNum sets
    /\ prop "reps" body = JNum reps /\ prop "weight" body = JNum weight.
Proof.
  intros Hbody. destruct body as [| | | | |items|fields]; try discriminate Hbody.
  unfold exerciseSchema in Hbody. cbn [check flat_map] in Hbody.
  cbn [prop].
  apply app_eq_nil in Hbody as [H1 Hbody].
  apply app_eq_nil in Hbody as [H2 Hbody].
  apply app_eq_nil in Hbody as [H3 Hbody].
  apply app_eq_nil in Hbody as [H4 _].
  destruct (get "name" fields); try discriminate H1.
  destruct (get "sets" fields); try discriminate H2.
  destruct (get "reps" fields); try discriminate H3.
  destruct (get "weight" fields); try discriminate H4.
  do 4 eexists. repeat split; reflexivity.
Qed.

(** PUT /:id on an exercise of one of the caller's workouts, with a body
    that fits the schema and whose sets and reps fit an Int: the answer is
    the row with its name, sets, reps and weight replaced by those of the
    body, and its notes too when the body has notes; its id, its workout
    and its progress stay.  In the table that row takes the place of the
    old one, and every other row, every workout and every log is as
    before. *)
Theorem put_updates_own_exercise user id n body e db :
  check exerciseSchema body = [] ->
  Range.fits_Int (as_number (prop "sets" body)) = true ->
  Range.fits_Int (as_number (prop "reps" body)) = true ->
  Range.safe_integer (as_number (prop "weight" body)) = true ->
  JS.parseInt id = JS.Num n ->
  NoDup (map Exercise.id (exercises db)) ->
  find (fun x => (Exercise.id x =? n) && owned_by db user x) (exercises db) = Some e ->
  exists db',
    put user id body db = (Json (updated body e), db')
    /\ exercises db'
       = map (fun x => if Exercise.id x =? n then updated body x else x)
             (exercises db)
    /\ workouts db' = workouts db
    /\ workoutLogs db' = workoutLogs db
    /\ (forall x, In x (exercises db) -> Exercise.id x <> n -> In x (exercises db'))
    /\ (forall x, In x (exercises db') -> Exercise.id x = n -> x = updated body e)
    /\ Exercise.id (updated body e) = n
    /\ Exercise.workoutId (updated body e) = Exercise.workoutId e
    /\ Exercise.progress (updated body e) = Exercise.progress e
    /\ prop "name" body = JStr (Exercise.name (updated body e))
    /\ prop "sets" body = JNum (Exercise.sets (updated body e))
    /\ prop "reps" body = JNum (Exercise.reps (updated body e))
    /\ prop "weight" body = JNum (Exercise.weight (updated body e))
    /\ (forall note, prop "notes" body = JStr note ->
        Exercise.notes (updated body e) = Some note)
    /\ (prop "notes" body = JUndefined ->
        Exercise.notes (updated body e) = Exercise.notes e).
Proof.
  intros Hbody _ _ _ Hid Hnd Hfind.
  destruct (owned_is_first_with_id user n e db Hnd Hfind) as (Hfirst & Hin & Hn).
  eexists. split.
  { unfold put, Zod.parse. rewrite Hbody.
    unfold try_catch, bind, exercise_findFirst, exercise_update. rewrite Hid.
    cbn [int_arg]. unfold bind, ret. rewrite Hfind. cbn [exercises].
    rewrite Hfirst. reflexivity. }
  cbn [with_exercises exercises workouts workoutLogs].
  repeat (split; [reflexivity|]).
  split.
  { intros x Hx Hne. apply in_map_iff. exists x. split; [|exact Hx].
    destruct (Z.eqb_spec (Exercise.id x) n); [contradiction | reflexivity]. }
  split.
  { intros x Hx Hxn. apply in_map_iff in Hx as (x0 & Hx0 & Hin0).
    destruct (Z.eqb_spec (Exercise.id x0) n) as [Heq | Hne].
    - subst x. f_equal. apply (unique_id (exercises db)); try assumption. lia.
    - subst x. contradiction. }
  split; [exact Hn|]. do 2 (split; [reflexivity|]).
  destruct (body_fields body Hbody) as (name & sets & reps & weight & H1 & H2 & H3 & H4).
  cbn [updated Exercise.name Exercise.sets Exercise.reps Exercise.weight
       Exercise.notes].
  rewrite H1, H2, H3, H4. cbn [as_string as_number].
  do 4 (split; [reflexivity|]).
  split.
  - intros note Hnote. rewrite Hnote. reflexivity.
  - intros Hnotes. rewrite Hnotes. reflexivity.
Qed.

(** The theorem on the second of two exercises, updated without notes. *)
Lemma put_updates_own_exercise_witness :
  let db := Sample.db_of [Sample.a_workout 1 1 "daily" ""]
              [Sample.bench 1 1; Sample.bench 2 1] [] in
  let body := JObj [("name", JStr "Incline bench"); ("sets", JNum 4);
                    ("reps", JNum 8); ("weight", JNum 70)] in
  let e := Sample.bench 2 1 in
  exists db',
    put 1 "2" body db = (Json (updated body e), db')
    /\ exercises db'
       = map (fun x => if Exercise.id x =? 2 then updated body x else x)
             (exercises db)
    /\ workouts db' = workouts db
    /\ workoutLogs db' = workoutLogs db
    /\ (forall x, In x (exercises db) -> Exercise.id x <> 2 -> In x (exercises db'))
    /\ (forall x, In x (exercises db') -> Exercise.id x = 2 -> x = updated body e)
    /\ Exercise.id (updated body e) = 2
    /\ Exercise.workoutId (updated body e) = Exercise.workoutId e
    /\ Exercise.progress (updated body e) = Exercise.progress e
    /\ prop "name" body = JStr (Exercise.name (updated body e))
    /\ prop "sets" body = JNum (Exercise.sets (updated body e))
    /\ prop "reps" body = JNum (Exercise.reps (updated body e))
    /\ prop "weight" body = JNum (Exercise.weight (updated body e))
    /\ (forall note, prop "notes" body = JStr note ->
        Exercise.notes (updated body e) = Some note)
    /\ (prop "notes" body = JUndefined ->
        Exercise.notes (updated body e) = Exercise.notes e).
Proof.
  cbv zeta. apply put_updates_own_exercise.
  - reflexivity.
  - reflexivity.
  - reflexivity.
  - reflexivity.
  - reflexivity.
  - cbn. repeat constructor; cbn; intuition discriminate.
  - reflexivity.
Defined.

(** An exercise that is not in a workout of the caller, or that does not
    exist, is "not found" for both routes, for an id that reads as an
    integer that fits an Int: 404, and nothing changes.  PUT checks the
    body first, so that a body that does not fit the schema gets 400
    whoever owns the exercise. *)
Theorem exercise_of_other_user_is_not_found user id n db :
  JS.parseInt id = JS.Num n ->
  Range.fits_Int n = true ->
  (forall e, In e (exercises db) -> Exercise.id e = n -> owned_by db user e = false) ->
  (forall body, check exerciseSchema body = [] ->
     put user id body db = (Error 404 "Exercise not found", db))
  /\ delete user id db = (DeleteError 404 "Exercise not found", db)
  /\ (forall body, check exerciseSchema body <> [] ->
        put user id body db = (ZodErrors (check exerciseSchema body), db)).
Proof.
  intros Hid _ Hnot.
  assert (Hnone : find (fun x => (Exercise.id x =? n) && owned_by db user x)
                       (exercises db) = None).
  { apply ScheduleFacts.find_none_match. intros e He.
    destruct (Z.eqb_spec (Exercise.id e) n) as [Hn | _]; [|reflexivity].
    rewrite (Hnot e He Hn). reflexivity. }
  split; [|split].
  - intros body Hbody. unfold put, Zod.parse. rewrite Hbody.
    unfold try_catch, bind, exercise_findFirst. rewrite Hid.
    cbn [int_arg]. unfold bind, ret. rewrite Hnone. reflexivity.
  - unfold delete, bind, exercise_findFirst. rewrite Hid.
    cbn [int_arg]. unfold bind, ret. rewrite Hnone. reflexivity.
  - intros body Hbad. unfold put, Zod.parse.
    destruct (check exerciseSchema body); [congruence | reflexivity].
Qed.

(** The theorem on an exercise of user 1 asked for by user 2. *)
Lemma exercise_of_other_user_is_not_found_witness :
  let db := Sample.db_of [Sample.a_workout 1 1 "daily" ""] [Sample.bench 1 1] [] in
  let body := JObj [("name", JStr "Row"); ("sets", JNum 3); ("reps", JNum 8);
                    ("weight", JNum 60)] in
  put 2 "1" body db = (Error 404 "Exercise not found", db)
  /\ delete 2 "1" db = (DeleteError 404 "Exercise not found", db)
  /\ put 2 "1" (JObj [("name", JStr "Row")]) db
     = (ZodErrors (check exerciseSchema (JObj [("name", JStr "Row")])), db).
Proof.
  cbv zeta.
  destruct (exercise_of_other_user_is_not_found 2 "1" 1
              (Sample.db_of [Sample.a_workout 1 1 "daily" ""] [Sample.bench 1 1] []))
    as (Hput & Hdelete & Hbody).
  - reflexivity.
  - reflexivity.
  - intros e [<- | []] _. reflexivity.
  - split; [apply Hput; reflexivity|].
    split; [exact Hdelete|]. apply Hbody. vm_compute. discriminate.
Defined.

(** DELETE /:id on an exercise of one of the caller's workouts answers 204
    and removes the rows with that id; the other exercises, the workouts
    and the logs stay. *)
Theorem delete_removes_own_exercise user id n e db :
  JS.parseInt id = JS.Num n ->
  find (fun x => (Exercise.id x =? n) && owned_by db user x) (exercises db) = Some e ->
  exists db',
    delete user id db = (NoContent, db')
    /\ exercises db' = filter (fun x => negb (Exercise.id x =? n)) (exercises db)
    /\ (forall x, In x (exercises db') <-> In x (exercises db) /\ Exercise.id x <> n)
    /\ workouts db' = workouts db
    /\ workoutLogs db' = workoutLogs db.
Proof.
  intros Hid Hfind.
  assert (Hex : existsb (fun x => Exercise.id x =? n) (exercises db) = true).
  { eapply DeleteFacts.find_exists; [exact Hfind|]. intros y Hy.
    apply andb_true_iff in Hy. tauto. }
  eexists. split.
  { unfold delete, bind, exercise_findFirst, exercise_delete. rewrite Hid.
    cbn [int_arg]. unfold bind, ret. rewrite Hfind. cbn [exercises].
    rewrite Hex. reflexivity. }
  cbn [with_exercises exercises workouts workoutLogs].
  split; [reflexivity|]. split; [|split; reflexivity].
  intros x. rewrite filter_In, negb_true_iff, Z.eqb_neq. reflexivity.
Qed.

(** The theorem on the first of two exercises. *)
Lemma delete_removes_own_exercise_witness :
  let db := Sample.db_of [Sample.a_workout 1 1 "daily" ""]
              [Sample.bench 1 1; Sample.bench 2 1] [] in
  exists db',
    delete 1 "1" db = (NoContent, db')
    /\ exercises db' = filter (fun x => negb (Exercise.id x =? 1)) (exercises db)
    /\ (forall x, In x (exercises db') <-> In x (exercises db) /\ Exercise.id x <> 1)
    /\ workouts db' = workouts db
    /\ workoutLogs db' = workoutLogs db.
Proof.
  cbv zeta. apply (delete_removes_own_exercise 1 "1" 1 (Sample.bench 1 1));
    reflexivity.
Defined.

End ExerciseFacts.

(** ** Registering and logging in *)

Module AuthFacts.
Import Json Zod AuthRouter.

Lemma registration_passes lib e p n :
  is_email lib e = true ->
  (6 <= String.length p)%nat -> (2 <= String.length n)%nat ->
  registerSchema_check lib (registration e p n) = [].
Proof.
  intros He Hp Hn. unfold registerSchema_check, registration.
  cbn [get fold_left fst snd String.eqb Ascii.eqb Bool.eqb check_email check_min].
  rewrite He. apply Nat.leb_le in Hp, Hn. rewrite Hp, Hn. reflexivity.
Qed.

Lemma credentials_pass lib e p :
  is_email lib e = true -> loginSchema_check lib (credentials e p) = [].
Proof.
  intros He. unfold loginSchema_check, credentials.
  cbn [get fold_left fst snd String.eqb Ascii.eqb Bool.eqb check_email check_string].
  rewrite He. reflexivity.
Qed.

Lemma login_with_credentials lib now e p db :
  is_email lib e = true ->
  login lib now (credentials e p) db
  = match findUnique e db with
    | None => (Error 400 "Invalid credentials", db)
    | Some user =>
        if bcrypt_compare lib p (password user)
        then (Json (session_of lib now user), db)
        else (Error 400 "Invalid credentials", db)
    end.
Proof.
  intros He. unfold login. rewrite (credentials_pass lib e p He). reflexivity.
Qed.

Lemma find_last {A : Type} (p : A -> bool) l x :
  find p l = None -> p x = true -> find p (l ++ [x]) = Some x.
Proof.
  intros Hnone Hx. apply ScheduleFacts.find_first_match; [exact Hx|].
  intros y Hy. exact (find_none _ _ Hnone y Hy).
Qed.

(** Registering with an address that is not taken, a password of six
    characters or more and a name of two or more creates the user with
    the next id and answers with a token and the user; logging in
    afterwards with the same address and password answers with that same
    user.  The password check is bcrypt's: the hash it made of a password
    must compare equal to that password. *)
Theorem register_then_login lib salt now later e p n db :
  is_email lib e = true ->
  (6 <= String.length p)%nat ->
  (2 <= String.length n)%nat ->
  findUnique e db = None ->
  bcrypt_compare lib p (bcrypt_hash lib salt p) = true ->
  exists session db',
    register lib salt now (registration e p n) db = (Json session, db')
    /\ user_id session = seq_user db + 1
    /\ user_email session = e
    /\ user_name session = n
    /\ List.length (users db') = S (List.length (users db))
    /\ exists session',
         login lib later (credentials e p) db' = (Json session', db')
         /\ user_id session' = user_id session
         /\ user_email session' = e
         /\ user_name session' = n.
Proof.
  intros He Hp Hn Hfree Hbcrypt. eexists. eexists. split.
  { unfold register. rewrite (registration_passes lib e p n He Hp Hn).
    unfold registration at 1.
    cbn [destructurable negb prop get fold_left fst snd String.eqb Ascii.eqb
         Bool.eqb as_string].
    unfold registration.
    cbn [prop get fold_left fst snd String.eqb Ascii.eqb Bool.eqb as_string].
    rewrite Hfree. reflexivity. }
  cbn [session_of user_id user_email user_name id email name users].
  repeat (split; [reflexivity|]).
  split; [rewrite length_app, Nat.add_comm; reflexivity|].
  eexists. split.
  { rewrite (login_with_credentials lib later e p _ He).
    unfold findUnique. cbn [users].
    rewrite find_last; [| exact Hfree | apply String.eqb_refl].
    cbn [password]. rewrite Hbcrypt. reflexivity. }
  repeat split; reflexivity.
Qed.

(** The theorem with the stand-in library, on a table with one user. *)
Lemma register_then_login_witness :
  let db := {| users := [{| id := 1; email := "ana@example.org"; name := "Ana";
                            password := "bcrypt$secret1"; createdAt := 0 |}];
               seq_user := 1 |} in
  exists session db',
    register toy_library "salt" 10 (registration "rui@example.org" "hunter22" "Rui") db
    = (Json session, db')
    /\ user_id session = seq_user db + 1
    /\ user_email session = "rui@example.org"
    /\ user_name session = "Rui"
    /\ List.length (users db') = S (List.length (users db))
    /\ exists session',
         login toy_library 20 (credentials "rui@example.org" "hunter22") db'
         = (Json session', db')
         /\ user_id session' = user_id session
         /\ user_email session' = "rui@example.org"
         /\ user_name session' = "Rui".
Proof.
  cbv zeta. apply register_then_login; try reflexivity; cbn; lia.
Defined.

(** POST /register never leaves two users with the same address: if the
    addresses in the table are distinct before a request, they are
    distinct after it, whatever the body. *)
Theorem register_keeps_emails_unique lib salt now body db :
  NoDup (map email (users db)) ->
  NoDup (map email (users (snd (register lib salt now body db)))).
Proof.
  intros Hnd. unfold register.
  destruct (negb (destructurable body)); [exact Hnd|].
  destruct (registerSchema_check lib body); [|exact Hnd].
  destruct (findUnique (as_string (prop "email" body)) db) eqn:Hfind; [exact Hnd|].
  cbn [snd users]. rewrite map_app. cbn [map email].
  apply (Permutation_NoDup (Permutation_cons_append _ _)).
  constructor; [|exact Hnd].
  intros Hin. apply in_map_iff in Hin as (u & Hu & Hin).
  apply (find_none _ _ Hfind) in Hin. rewrite Hu, String.eqb_refl in Hin.
  discriminate.
Qed.

(** The theorem on a second registration with an address already taken
    and on one with a new address. *)
Lemma register_keeps_emails_unique_witness :
  let db := {| users := [{| id := 1; email := "ana@example.org"; name := "Ana";
                            password := "bcrypt$secret1"; createdAt := 0 |}];
               seq_user := 1 |} in
  NoDup (map email (users (snd (register toy_library "salt" 10
           (registration "ana@example.org" "another1" "Ana B") db))))
  /\ NoDup (map email (users (snd (register toy_library "salt" 10
              (registration "rui@example.org" "hunter22" "Rui") db)))).
Proof.
  cbv zeta. split; apply register_keeps_emails_unique;
    repeat constructor; cbn; tauto.
Defined.

(** POST /login gives the same answer, 400 "Invalid credentials", for an
    address nobody registered and for a wrong password, so that the answer
    does not tell which addresses are registered; with the right password
    it answers with the user.  It never writes. *)
Theorem login_refusals_look_alike lib now e p db :
  is_email lib e = true ->
  (findUnique e db = None ->
   login lib now (credentials e p) db = (Error 400 "Invalid credentials", db))
  /\ (forall u, findUnique e db = Some u ->
        bcrypt_compare lib p (password u) = false ->
        login lib now (credentials e p) db = (Error 400 "Invalid credentials", db))
  /\ (forall u, findUnique e db = Some u ->
        bcrypt_compare lib p (password u) = true ->
        login lib now (credentials e p) db
        = (Json {| token := jwt_sign lib (id u) (email u) now;
                   user_id := id u; user_email := email u; user_name := name u |},
           db))
  /\ (forall body, snd (login lib now body db) = db).
Proof.
  intros He. rewrite (login_with_credentials lib now e p db He).
  split; [|split; [|split]].
  - intros ->. reflexivity.
  - intros u -> ->. reflexivity.
  - intros u -> ->. reflexivity.
  - intros body. unfold login.
    destruct (negb (destructurable body)); [reflexivity|].
    destruct (loginSchema_check lib body); [|reflexivity].
    destruct (findUnique _ db); [|reflexivity].
    destruct (bcrypt_compare lib _ _); reflexivity.
Qed.

(** The theorem with the stand-in library. *)
Lemma login_refusals_look_alike_witness :
  let ana := {| id := 1; email := "ana@example.org"; name := "Ana";
                password := "bcrypt$secret1"; createdAt := 0 |} in
  let db := {| users := [ana]; seq_user := 1 |} in
  login toy_library 20 (credentials "rui@example.org" "secret1") db
  = (Error 400 "Invalid credentials", db)
  /\ login toy_library 20 (credentials "ana@example.org" "guess") db
     = (Error 400 "Invalid credentials", db)
  /\ login toy_library 20 (credentials "ana@example.org" "secret1") db
     = (Json {| token := "jwt:ana@example.org"; user_id := 1;
                user_email := "ana@example.org"; user_name := "Ana" |}, db).
Proof.
  cbv zeta.
  pose (ana := {| id := 1; email := "ana@example.org"; name := "Ana";
                  password := "bcrypt$secret1"; createdAt := 0 |}).
  pose (db := {| users := [ana]; seq_user := 1 |}).
  split; [|split].
  - apply (proj1 (login_refusals_look_alike toy_library 20 "rui@example.org"
                    "secret1" db eq_refl)). reflexivity.
  - apply (proj1 (proj2 (login_refusals_look_alike toy_library 20
                           "ana@example.org" "guess" db eq_refl)) ana);
      reflexivity.
  - apply (proj1 (proj2 (proj2 (login_refusals_look_alike toy_library 20
                                  "ana@example.org" "secret1" db eq_refl))) ana);
      reflexivity.
Defined.

(** What POST /register refuses, creating no user: a request without a
    body (500, since the handler reads the body before checking it); an
    address that is not one, a password under six characters or a name
    under two (400 with zod's issues, each on the field at fault); an
    address that is already registered (400). *)
Theorem register_refusals lib salt now db :
  (forall body, destructurable body = false ->
     register lib salt now body db = (Error 500 "Internal server error", db))
  /\ (forall e p n,
        is_email lib e = false
        \/ (String.length p < 6)%nat \/ (String.length n < 2)%nat ->
        exists issues,
          register lib salt now (registration e p n) db = (ZodErrors issues, db)
          /\ issues <> []
          /\ forall i, In i issues ->
               (path i = [Key "email"] /\ is_email lib e = false)
               \/ (path i = [Key "password"] /\ (String.length p < 6)%nat)
               \/ (path i = [Key "name"] /\ (String.length n < 2)%nat))
  /\ (forall e p n u,
        is_email lib e = true ->
        (6 <= String.length p)%nat -> (2 <= String.length n)%nat ->
        findUnique e db = Some u ->
        register lib salt now (registration e p n) db
        = (Error 400 "Email already registered", db)).
Proof.
  split; [|split].
  - intros body Hb. unfold register. rewrite Hb. reflexivity.
  - intros e p n Hbad. unfold register, registration.
    cbn [destructurable negb registerSchema_check get fold_left fst snd
         String.eqb Ascii.eqb Bool.eqb check_email check_min].
    destruct (is_email lib e) eqn:He;
      destruct (Nat.leb_spec 6 (String.length p)) as [Hp | Hp];
      destruct (Nat.leb_spec 2 (String.length n)) as [Hn | Hn];
      cbn [under map app code path];
      try (exfalso; destruct Hbad as [H | [H | H]]; [discriminate H | lia | lia]);
      (eexists; split; [reflexivity|]; split; [discriminate|];
       intros i Hi; cbn [In] in Hi;
       repeat (destruct Hi as [<- | Hi]; [cbn [path]; tauto|]); destruct Hi).
  - intros e p n u He Hp Hn Hfound. unfold register.
    rewrite (registration_passes lib e p n He Hp Hn).
    unfold registration at 1.
    cbn [destructurable negb].
    unfold registration.
    cbn [prop get fold_left fst snd String.eqb Ascii.eqb Bool.eqb as_string].
    rewrite Hfound. reflexivity.
Qed.

(** The theorem with the stand-in library. *)
Lemma register_refusals_witness :
  let db := {| users := [{| id := 1; email := "ana@example.org"; name := "Ana";
                            password := "bcrypt$secret1"; createdAt := 0 |}];
               seq_user := 1 |} in
  register toy_library "salt" 10 JUndefined db
  = (Error 500 "Internal server error", db)
  /\ (exists issues,
        register toy_library "salt" 10 (registration "rui@example.org" "short" "Rui") db
        = (ZodErrors issues, db) /\ issues <> [])
  /\ register toy_library "salt" 10 (registration "ana@example.org" "another1" "Ana B") db
     = (Error 400 "Email already registered", db).
Proof.
  cbv zeta.
  pose (db := {| users := [{| id := 1; email := "ana@example.org"; name := "Ana";
                              password := "bcrypt$secret1"; createdAt := 0 |}];
                 seq_user := 1 |}).
  destruct (register_refusals toy_library "salt" 10 db) as (Hbody & Hzod & Htaken).
  split; [|split].
  - apply Hbody. reflexivity.
  - destruct (Hzod "rui@example.org" "short" "Rui") as (issues & Hreg & Hne & _).
    + right. left. cbn. lia.
    + exists issues. split; assumption.
  - eapply Htaken; try reflexivity; cbn; lia.
Defined.

End AuthFacts.
